(** * The wallpaper plugin: per-tile background fetch, barrier and commit

    A shallow embedding of [src/wallpaper.cpp].  The plugin keeps one
    [wallpaper] object per workspace of an output.  Every object fetches
    an image on a worker thread of its own ([curl_download]); the worker
    wakes the compositor's event loop through an eventfd, and the handler
    [download_complete] runs on the event loop: it retries failed
    downloads, and once every wallpaper of the grid is downloaded it
    swaps the new textures in and starts the fade.

    The compositor side is single threaded.  It is modelled by a state and
    error monad over the plugin object ([screen]) that also records, in
    order, the calls made to the operating system and to the host
    ([effect]).  The worker is modelled as the sequence of actions it
    performs ([worker_action]); what the libraries answer is an input.
    A worker runs beside the handlers.  Its writes are put after the
    handler that started it, except where a handler writes a member the
    running worker writes too: that is the retry of [download_complete],
    which clears [download_failed] after it has started the thread, and
    it is modelled with the worker beside it
    ([download_complete_racing]). *)

From Stdlib Require Import ZArith List Bool Lia.
From Stdlib Require QArith_base.
From stdpp Require Import base list.
Local Open Scope Z_scope.

(** ** Constants *)

(** [#define RETRY_TIMEOUT 1000] *)
Definition RETRY_TIMEOUT : Z := 1000.

(** [WL_EVENT_READABLE] of wayland-server-core.h. *)
Definition WL_EVENT_READABLE : Z := 1.

(** [CURLM_OK] of curl/multi.h. *)
Definition CURLM_OK : Z := 0.

(** [CURLE_OK], [CURLE_COULDNT_CONNECT] and [CURLE_PARTIAL_FILE] of
    curl/curl.h: results of one transfer, which libcurl hands out through
    [curl_multi_info_read]. *)
Definition CURLE_OK : Z := 0.
Definition CURLE_COULDNT_CONNECT : Z := 7.
Definition CURLE_PARTIAL_FILE : Z := 18.

(** [INT_MAX] of limits.h. *)
Definition INT_MAX : Z := 2 ^ 31 - 1.

(** [(GLuint) -1], the name of a [wf::simple_texture_t] that holds no
    texture yet. *)
Definition GLuint_minus_1 : Z := 2 ^ 32 - 1.

(** ** Data *)

Record wlr_box := mk_box
  { box_x : Z; box_y : Z; box_width : Z; box_height : Z }.

Record dimensions_t := mk_dimensions { dim_width : Z; dim_height : Z }.

(** The part of [wf::output_t] the plugin reads: the size of the output
    and the size of its workspace grid. *)
Record output_t := mk_output
  { output_width : Z; output_height : Z; grid_size : dimensions_t }.

(** [output->get_relative_geometry()]: the geometry of the output in its
    own coordinates, so its origin is (0, 0). *)
Definition get_relative_geometry (o : output_t) : wlr_box :=
  mk_box 0 0 (output_width o) (output_height o).

Definition get_workspace_grid_size (o : output_t) : dimensions_t :=
  grid_size o.

Record simple_texture_t := mk_texture
  { tex : Z; tex_width : Z; tex_height : Z }.

(** [std::make_unique<wf::simple_texture_t>()] *)
Definition new_texture : simple_texture_t := mk_texture GLuint_minus_1 0 0.

(** [class wallpaper].  [image_buf] is the content of the memory stream
    behind [image_fp]; [image_size] is the variable the stream keeps up to
    date at [fflush] and [fclose].  A null [FILE*] is 0, a null
    [unique_ptr] is [None]. *)
Record wallpaper := mk_wallpaper
  { sig_fd : Z;
    image_fp : Z;
    image_buf : list Byte.byte;
    image_size : Z;
    geometry : wlr_box;
    failed_counter : Z;
    event_source : Z;
    downloaded : bool;
    download_failed : bool;
    thread : option Z;
    tex_from : option simple_texture_t;
    tex_to : option simple_texture_t;
    tex_tmp : option simple_texture_t }.

Definition set_sig_fd v (w : wallpaper) :=
  mk_wallpaper v (image_fp w) (image_buf w) (image_size w) (geometry w)
    (failed_counter w) (event_source w) (downloaded w) (download_failed w)
    (thread w) (tex_from w) (tex_to w) (tex_tmp w).
Definition set_image_fp v (w : wallpaper) :=
  mk_wallpaper (sig_fd w) v (image_buf w) (image_size w) (geometry w)
    (failed_counter w) (event_source w) (downloaded w) (download_failed w)
    (thread w) (tex_from w) (tex_to w) (tex_tmp w).
Definition set_image_buf v (w : wallpaper) :=
  mk_wallpaper (sig_fd w) (image_fp w) v (image_size w) (geometry w)
    (failed_counter w) (event_source w) (downloaded w) (download_failed w)
    (thread w) (tex_from w) (tex_to w) (tex_tmp w).
Definition set_image_size v (w : wallpaper) :=
  mk_wallpaper (sig_fd w) (image_fp w) (image_buf w) v (geometry w)
    (failed_counter w) (event_source w) (downloaded w) (download_failed w)
    (thread w) (tex_from w) (tex_to w) (tex_tmp w).
Definition set_geometry v (w : wallpaper) :=
  mk_wallpaper (sig_fd w) (image_fp w) (image_buf w) (image_size w) v
    (failed_counter w) (event_source w) (downloaded w) (download_failed w)
    (thread w) (tex_from w) (tex_to w) (tex_tmp w).
Definition set_failed_counter v (w : wallpaper) :=
  mk_wallpaper (sig_fd w) (image_fp w) (image_buf w) (image_size w) (geometry w)
    v (event_source w) (downloaded w) (download_failed w)
    (thread w) (tex_from w) (tex_to w) (tex_tmp w).
Definition set_event_source v (w : wallpaper) :=
  mk_wallpaper (sig_fd w) (image_fp w) (image_buf w) (image_size w) (geometry w)
    (failed_counter w) v (downloaded w) (download_failed w)
    (thread w) (tex_from w) (tex_to w) (tex_tmp w).
Definition set_downloaded v (w : wallpaper) :=
  mk_wallpaper (sig_fd w) (image_fp w) (image_buf w) (image_size w) (geometry w)
    (failed_counter w) (event_source w) v (download_failed w)
    (thread w) (tex_from w) (tex_to w) (tex_tmp w).
Definition set_download_failed v (w : wallpaper) :=
  mk_wallpaper (sig_fd w) (image_fp w) (image_buf w) (image_size w) (geometry w)
    (failed_counter w) (event_source w) (downloaded w) v
    (thread w) (tex_from w) (tex_to w) (tex_tmp w).
Definition set_thread v (w : wallpaper) :=
  mk_wallpaper (sig_fd w) (image_fp w) (image_buf w) (image_size w) (geometry w)
    (failed_counter w) (event_source w) (downloaded w) (download_failed w)
    v (tex_from w) (tex_to w) (tex_tmp w).
Definition set_tex_from v (w : wallpaper) :=
  mk_wallpaper (sig_fd w) (image_fp w) (image_buf w) (image_size w) (geometry w)
    (failed_counter w) (event_source w) (downloaded w) (download_failed w)
    (thread w) v (tex_to w) (tex_tmp w).
Definition set_tex_to v (w : wallpaper) :=
  mk_wallpaper (sig_fd w) (image_fp w) (image_buf w) (image_size w) (geometry w)
    (failed_counter w) (event_source w) (downloaded w) (download_failed w)
    (thread w) (tex_from w) v (tex_tmp w).
Definition set_tex_tmp v (w : wallpaper) :=
  mk_wallpaper (sig_fd w) (image_fp w) (image_buf w) (image_size w) (geometry w)
    (failed_counter w) (event_source w) (downloaded w) (download_failed w)
    (thread w) (tex_from w) (tex_to w) v.

(** The object [wallpaper::wallpaper] builds: the two counters and flags
    carry initialisers, the three textures are null; the remaining members
    are not initialised by the constructor and read as 0 here (they are
    written by [update_wallpaper] before any use). *)
Definition fresh_wallpaper : wallpaper :=
  mk_wallpaper 0 0 [] 0 (mk_box 0 0 0 0) 0 0 false false None None None None.

(** [class wayfire_wallpaper_screen].  [timer] is [Some ms] while the
    [wf::wl_timer] is connected with a timeout of [ms] milliseconds.
    [wallpapers] is the vector of columns, indexed [x] then [y].  [cycle]
    and [cycle_time] are the two options the code reads; [fade_animation]
    keeps the end points of the last [animate]/[set] call; [output] is
    the output the plugin instance belongs to. *)
Record screen := mk_screen
  { timer : option Z;
    hook_set : bool;
    wallpaper_shutdown : bool;
    wallpapers : list (list wallpaper);
    cycle : bool;
    cycle_time : Z;
    fade_animation : Z * Z;
    output : output_t }.

Definition set_timer v (s : screen) :=
  mk_screen v (hook_set s) (wallpaper_shutdown s) (wallpapers s) (cycle s)
    (cycle_time s) (fade_animation s) (output s).
Definition set_hook_set v (s : screen) :=
  mk_screen (timer s) v (wallpaper_shutdown s) (wallpapers s) (cycle s)
    (cycle_time s) (fade_animation s) (output s).
Definition set_wallpaper_shutdown v (s : screen) :=
  mk_screen (timer s) (hook_set s) v (wallpapers s) (cycle s)
    (cycle_time s) (fade_animation s) (output s).
Definition set_wallpapers v (s : screen) :=
  mk_screen (timer s) (hook_set s) (wallpaper_shutdown s) v (cycle s)
    (cycle_time s) (fade_animation s) (output s).
Definition set_fade_animation v (s : screen) :=
  mk_screen (timer s) (hook_set s) (wallpaper_shutdown s) (wallpapers s)
    (cycle s) (cycle_time s) v (output s).
Definition set_output v (s : screen) :=
  mk_screen (timer s) (hook_set s) (wallpaper_shutdown s) (wallpapers s)
    (cycle s) (cycle_time s) (fade_animation s) v.

(** The wallpaper at [wallpapers[x][y]], when both indices are in range. *)
Definition tile_at (g : list (list wallpaper)) (x y : nat) : option wallpaper :=
  g !! x ≫= (.!! y).

(** Replaces the object behind [wallpapers[x][y]] by its image under [f]. *)
Definition grid_alter (f : wallpaper -> wallpaper) (x y : nat)
    (g : list (list wallpaper)) : list (list wallpaper) :=
  alter (alter f y) x g.

(** ** Calls to the operating system and to the host

    Every call that leaves the plugin is recorded, in program order. *)
Inductive effect :=
| Read (fd : Z)                        (* read(fd, c, 8) *)
| Fflush (fp : Z)
| EventSourceRemove (src : Z)          (* wl_event_source_remove *)
| ThreadJoin (t : Z)                   (* wp.thread->join() *)
| Fclose (fp : Z)
| FreeImagePtr                         (* free(wp.image_ptr) *)
| Close (fd : Z)
| Eventfd (ret : Z)                    (* eventfd(0, EFD_CLOEXEC) *)
| OpenMemstream (ret : Z)
| EventLoopAddFd (fd : Z) (src : Z)    (* wl_event_loop_add_fd *)
| ThreadCreate (x y : nat) (t : Z)     (* std::thread(curl_download, &wp) *)
| TimerSetTimeout (ms : Z)
| TimerDisconnect
| GlGenTextures (name : Z)
| GlTexImage2D (name w h : Z)
| FadeAnimate (a b : Z)
| AddEffects                           (* the two render->add_effect calls *)
| RemEffects                           (* the two render->rem_effect calls *)
| Damage (x y : nat)                   (* wallpapers[x][y]->damage() *)
| DamageWhole
| ViewSetGeometry (x y : nat) (box : wlr_box)  (* the view's set_geometry *)
| SignalDisconnect                     (* workarea_changed.disconnect() *)
| ViewClose (x y : nat).               (* wp.close() *)

(** ** The monad of the compositor thread

    A computation reads and writes the plugin object and appends to the
    record of calls.  It has no result in three cases: an index outside
    the [wallpapers] vector and a null [thread] dereferenced (both
    undefined in C++), and the end of the process inside libjpeg. *)
Inductive fault := OutOfRange | NullDeref | ProcessExit.

Inductive result (A : Type) :=
| Ok (a : A)
| Fault (f : fault).
Arguments Ok {A} a.
Arguments Fault {A} f.

Definition M (A : Type) : Type := screen -> result (A * screen * list effect).

Definition ret {A} (a : A) : M A := fun s => Ok (a, s, []).

Definition bind {A B} (m : M A) (k : A -> M B) : M B :=
  fun s =>
    match m s with
    | Ok (a, s1, e1) =>
        match k a s1 with
        | Ok (b, s2, e2) => Ok (b, s2, e1 ++ e2)
        | Fault f => Fault f
        end
    | Fault f => Fault f
    end.

Definition fault_with {A} (f : fault) : M A := fun _ => Fault f.
Definition get : M screen := fun s => Ok (s, s, []).
Definition modify (f : screen -> screen) : M unit := fun s => Ok (tt, f s, []).
Definition emit (e : effect) : M unit := fun s => Ok (tt, s, [e]).

Declare Scope wp_scope.
Delimit Scope wp_scope with wp.
Notation "x <- m ;; k" := (bind m (fun x => k))
  (at level 100, m at next level, k at level 200, right associativity)
  : wp_scope.
Notation "m ;; k" := (bind m (fun _ => k))
  (at level 100, k at level 200, right associativity) : wp_scope.
Local Open Scope wp_scope.

Definition get_tile (x y : nat) : M wallpaper :=
  fun s =>
    match tile_at (wallpapers s) x y with
    | Some w => Ok (w, s, [])
    | None => Fault OutOfRange
    end.

Definition modify_tile (x y : nat) (f : wallpaper -> wallpaper) : M unit :=
  _ <- get_tile x y ;;
  modify (fun s => set_wallpapers (grid_alter f x y (wallpapers s)) s).

(** [for (... : l) body] *)
Fixpoint for_each {A} (l : list A) (body : A -> M unit) : M unit :=
  match l with
  | [] => ret tt
  | a :: l' => body a ;; for_each l' body
  end.

(** [for (int x = 0; x < wsize.width; x++)
       for (int y = 0; y < wsize.height; y++) body] *)
Definition for_grid (wsize : dimensions_t) (body : nat -> nat -> M unit) : M unit :=
  for_each (seq 0 (Z.to_nat (dim_width wsize)))
    (fun x => for_each (seq 0 (Z.to_nat (dim_height wsize))) (body x)).

(** ** The timer *)

Definition is_connected (t : option Z) : bool :=
  match t with Some _ => true | None => false end.

Definition timer_set_timeout (ms : Z) : M unit :=
  emit (TimerSetTimeout ms) ;; modify (set_timer (Some ms)).

Definition timer_disconnect : M unit :=
  emit TimerDisconnect ;; modify (set_timer None).

(** ** What the environment answers

    [fetch_env] holds the results of the four calls [update_wallpaper]
    makes when it starts a fetch: the descriptor returned by [eventfd]
    (-1 on failure), the stream returned by [open_memstream] (0 on
    failure), the event source returned by [wl_event_loop_add_fd] and the
    handle of the new thread. *)
Record fetch_env := mk_fetch_env
  { eventfd_ret : Z;
    open_memstream_ret : Z;
    add_fd_ret : Z;
    new_thread : Z }.

(** How libjpeg fares on the downloaded bytes.  [texture_from_jpeg_fp]
    installs the library's default error manager ([jpeg_std_error]) and
    nothing else: on corrupt data the library warns and decodes on with
    what it has; on a fatal error its default [error_exit] ends the
    process. *)
Inductive jpeg_status := JPEG_OK | JPEG_CORRUPT | JPEG_FATAL.

Record jpeg_env := mk_jpeg_env
  { jpeg_outcome : jpeg_status;
    jpeg_output_width : Z;
    jpeg_output_height : Z;
    gen_texture : Z }.             (* the name glGenTextures hands out *)

(** ** The compositor side *)

(** [static void clean_up(wallpaper& wp)] *)
Definition clean_up (x y : nat) : M unit :=
  wp <- get_tile x y ;;
  emit (EventSourceRemove (event_source wp)) ;;
  match thread wp with
  | None => fault_with NullDeref
  | Some t =>
      emit (ThreadJoin t) ;;
      modify_tile x y (set_thread None) ;;
      emit (Fclose (image_fp wp)) ;;
      modify_tile x y
        (fun w => set_image_size (Z.of_nat (length (image_buf w))) w) ;;
      emit FreeImagePtr ;;
      emit (Close (sig_fd wp))
  end.

(** [static bool texture_from_jpeg_fp(FILE*, wf::simple_texture_t&, GLuint)]:
    the texture takes the size libjpeg reports, gets a name if it has
    none, and the pixels are uploaded.  The function has one [return]. *)
Definition texture_from_jpeg_fp (je : jpeg_env) (texture : simple_texture_t)
    : M (bool * simple_texture_t) :=
  match jpeg_outcome je with
  | JPEG_FATAL => fault_with ProcessExit
  | _ =>
      let texture :=
        mk_texture (tex texture) (jpeg_output_width je) (jpeg_output_height je) in
      texture <-
        (if tex texture =? GLuint_minus_1
         then emit (GlGenTextures (gen_texture je)) ;;
              ret (mk_texture (gen_texture je) (tex_width texture)
                     (tex_height texture))
         else ret texture) ;;
      emit (GlTexImage2D (tex texture) (jpeg_output_width je)
              (jpeg_output_height je)) ;;
      ret (true, texture)
  end.

(** [void update_wallpaper(wallpaper& wp)] *)
Definition update_wallpaper (fe : fetch_env) (x y : nat) : M unit :=
  wp <- get_tile x y ;;
  match thread wp with
  | Some _ => timer_set_timeout RETRY_TIMEOUT
  | None =>
      emit (Eventfd (eventfd_ret fe)) ;;
      modify_tile x y (set_sig_fd (eventfd_ret fe)) ;;
      if eventfd_ret fe =? -1 then timer_disconnect
      else
        emit (OpenMemstream (open_memstream_ret fe)) ;;
        modify_tile x y
          (fun w => set_image_buf [] (set_image_fp (open_memstream_ret fe) w)) ;;
        if open_memstream_ret fe =? 0
        then timer_disconnect ;; emit (Close (eventfd_ret fe))
        else
          s <- get ;;
          modify_tile x y (set_geometry (get_relative_geometry (output s))) ;;
          emit (EventLoopAddFd (eventfd_ret fe) (add_fd_ret fe)) ;;
          modify_tile x y (set_event_source (add_fd_ret fe)) ;;
          emit (ThreadCreate x y (new_thread fe)) ;;
          modify_tile x y (set_thread (Some (new_thread fe)))
  end.

(** [void update_texture(wallpaper& wp)] *)
Definition update_texture (fe : fetch_env) (x y : nat) : M unit :=
  modify_tile x y (set_failed_counter 0) ;;
  wp <- get_tile x y ;;
  if downloaded wp then ret tt else update_wallpaper fe x y.

(** [void update_textures()]; [os x y] is what the environment answers to
    the fetch started for [wallpapers[x][y]]. *)
Definition update_textures (os : nat -> nat -> fetch_env) : M unit :=
  s <- get ;;
  (if is_connected (timer s) then timer_disconnect else ret tt) ;;
  for_grid (get_workspace_grid_size (output s))
    (fun x y => update_texture (os x y) x y) ;;
  emit DamageWhole.

(** [void damage_wallpapers()] *)
Definition damage_wallpapers : M unit :=
  s <- get ;;
  for_grid (get_workspace_grid_size (output s))
    (fun x y => _ <- get_tile x y ;; emit (Damage x y)).

(** [void activate()] *)
Definition activate : M unit :=
  s <- get ;;
  if hook_set s then ret tt
  else emit AddEffects ;; damage_wallpapers ;; modify (set_hook_set true).

(** [void deactivate()] *)
Definition deactivate : M unit :=
  s <- get ;;
  if hook_set s then emit RemEffects ;; modify (set_hook_set false)
  else ret tt.

(** The first pair of loops of [download_complete]: [all_done] stays true
    unless some wallpaper is not [downloaded]; the first such wallpaper
    ends both loops ([x = wsize.width; break]). *)
Fixpoint all_done_column (x : nat) (ys : list nat) : M bool :=
  match ys with
  | [] => ret true
  | y :: ys' =>
      wp <- get_tile x y ;;
      if downloaded wp then all_done_column x ys' else ret false
  end.

Fixpoint all_done_columns (xs ys : list nat) : M bool :=
  match xs with
  | [] => ret true
  | x :: xs' =>
      b <- all_done_column x ys ;;
      if b then all_done_columns xs' ys else ret false
  end.

Definition all_done_scan (wsize : dimensions_t) : M bool :=
  all_done_columns (seq 0 (Z.to_nat (dim_width wsize)))
    (seq 0 (Z.to_nat (dim_height wsize))).

(** The body of the second pair of loops: [from] takes [to], [to] takes
    [tmp], [tmp] is emptied and the two flags are cleared. *)
Definition swap_in (w : wallpaper) : wallpaper :=
  set_download_failed false
    (set_downloaded false
       (set_tex_tmp None
          (set_tex_to (tex_tmp w) (set_tex_from (tex_to w) w)))).

(** The block under [if (all_done)]. *)
Definition commit (wsize : dimensions_t) : M unit :=
  for_grid wsize (fun x y => modify_tile x y swap_in) ;;
  emit (FadeAnimate 0 1) ;;
  modify (set_fade_animation (0, 1)) ;;
  activate ;;
  s <- get ;;
  if cycle s then timer_set_timeout (cycle_time s) else ret tt.

(** [static int download_complete(int fd, uint32_t mask, void *data)];
    [data] points to [wallpapers[x][y]].  [fe] answers the fetch a retry
    may start and [je] is what libjpeg makes of the image. *)
Definition download_complete (fe : fetch_env) (je : jpeg_env)
    (fd mask : Z) (x y : nat) : M Z :=
  if Z.land mask WL_EVENT_READABLE =? 0 then ret 0
  else
    emit (Read fd) ;;
    wp <- get_tile x y ;;
    match thread wp with
    | None => ret 0
    | Some _ =>
        s <- get ;;
        if wallpaper_shutdown s then clean_up x y ;; ret 0
        else
          emit (Fflush (image_fp wp)) ;;
          modify_tile x y
            (fun w => set_image_size (Z.of_nat (length (image_buf w))) w) ;;
          let og := get_relative_geometry (output s) in
          (if negb (box_width (geometry wp) =? box_width og)
              || negb (box_height (geometry wp) =? box_height og)
           then modify_tile x y (set_download_failed true)
           else ret tt) ;;
          wp <- get_tile x y ;;
          if download_failed wp || (image_size wp =? 0)
          then
            clean_up x y ;;
            modify_tile x y
              (fun w => set_failed_counter (failed_counter w + 1) w) ;;
            wp <- get_tile x y ;;
            (if 3 <? failed_counter wp
             then
               s <- get ;;
               if is_connected (timer s) then ret tt
               else timer_set_timeout RETRY_TIMEOUT
             else update_wallpaper fe x y) ;;
            modify_tile x y (set_download_failed false) ;;
            ret 0
          else
            modify_tile x y
              (fun w => set_failed_counter 0 (set_downloaded true w)) ;;
            match tex_tmp wp with
            | Some _ => ret tt
            | None => modify_tile x y (set_tex_tmp (Some new_texture))
            end ;;
            wp <- get_tile x y ;;
            r <- texture_from_jpeg_fp je (default new_texture (tex_tmp wp)) ;;
            modify_tile x y (set_tex_tmp (Some (snd r))) ;;
            let wsize := get_workspace_grid_size (output s) in
            all_done <- all_done_scan wsize ;;
            (if all_done then commit wsize else ret tt) ;;
            clean_up x y ;;
            ret 0
    end.

(** [void fini()] *)
Definition fini : M unit :=
  deactivate ;;
  timer_disconnect ;;
  emit SignalDisconnect ;;
  modify (set_wallpaper_shutdown true) ;;
  s <- get ;;
  for_grid (get_workspace_grid_size (output s))
    (fun x y =>
       wp <- get_tile x y ;;
       match thread wp with
       | Some _ => clean_up x y
       | None => ret tt
       end ;;
       modify_tile x y
         (fun w => set_tex_tmp None (set_tex_to None (set_tex_from None w))) ;;
       emit (ViewClose x y)) ;;
  emit DamageWhole.

(** The product of two [int]s as the machine computes it: a result that
    does not fit is wrapped to 32 bits. *)
Definition int_mul (a b : Z) : Z := (a * b + 2 ^ 31) mod 2 ^ 32 - 2 ^ 31.

(** The geometry [init] and [output_config_changed] give the view of
    [wallpapers[x][y]]: [{x * og.width, y * og.height, og.width,
    og.height}], with [x], [y] and the members of [og] of type [int]. *)
Definition view_box (og : wlr_box) (x y : nat) : wlr_box :=
  mk_box (int_mul (Z.of_nat x) (box_width og))
    (int_mul (Z.of_nat y) (box_height og))
    (box_width og) (box_height og).

(** [void init()]: one fresh wallpaper per workspace, each with its view
    placed, then the first round of fetches. *)
Definition init (os : nat -> nat -> fetch_env) : M unit :=
  modify (set_fade_animation (0, 0)) ;;
  s <- get ;;
  let wsize := get_workspace_grid_size (output s) in
  let og := get_relative_geometry (output s) in
  modify (set_wallpapers
            (replicate (Z.to_nat (dim_width wsize))
               (replicate (Z.to_nat (dim_height wsize)) fresh_wallpaper))) ;;
  for_grid wsize
    (fun x y => _ <- get_tile x y ;; emit (ViewSetGeometry x y (view_box og x y))) ;;
  update_textures os.

(** The plugin object before [init]: the members carry their
    initialisers; the options and the output are given. *)
Definition new_screen (cy : bool) (cy_time : Z) (o : output_t) : screen :=
  mk_screen None false false [] cy cy_time (0, 0) o.

(** ** The fetch worker

    The worker runs beside the compositor thread.  It is modelled by the
    list of actions it performs, in order.  Two of them write members of
    its wallpaper ([Fwrite] the stream behind [image_fp],
    [SetDownloadFailed] the flag), one writes the eventfd; the others are
    calls into libcurl and libc that touch nothing of the plugin. *)
Inductive worker_action :=
| CurlSetup (width height rnd : Z)   (* curl_global_init .. curl_multi_add_handle *)
| CurlMultiPerform (mc still_running : Z)
| Fwrite (data : list Byte.byte)     (* fwrite(ptr, size, nmemb, wp.image_fp) *)
| SetDownloadFailed                  (* wp.download_failed = true *)
| CurlMultiWait (mc numfds : Z)
| Usleep (usec : Z)
| CurlCleanup                        (* curl_multi_remove_handle .. curl_global_cleanup *)
| WriteSigFd (fd : Z).               (* write(wp.sig_fd, .., 8) *)

(** What one turn of the transfer loop meets: the code returned by
    [curl_multi_perform], the pieces of the body the library hands to
    [write_cb] during that call (each with the value of
    [wallpaper_shutdown] the callback reads), the number of running
    transfers it reports, what [curl_multi_wait] returns, and the value of
    [wallpaper_shutdown] read by the loop condition. *)
Record transfer_step := mk_step
  { perform_mc : Z;
    delivered : list (list Byte.byte * bool);
    still_running : Z;
    wait_mc : Z;
    numfds : Z;
    shutdown_seen : bool }.

(** A whole transfer: the value of [rand()], the turns of the loop, the
    status line of the HTTP response, and the result of the transfer (the
    [CURLcode] that [curl_multi_info_read] would report for it).  No call
    of [curl_download] asks libcurl for the status or for the result, so
    no definition below reads [response_code] or [transfer_result]. *)
Record transfer := mk_transfer
  { rand_value : Z;
    steps : nat -> transfer_step;
    response_code : Z;
    transfer_result : Z }.

(** [static size_t write_cb(void *ptr, size_t size, size_t nmemb, void *userdata)]
    with [size * nmemb] bytes at [ptr]; libcurl passes [size = 1]. *)
Definition write_cb (wp : wallpaper) (shutdown : bool) (data : list Byte.byte)
    : Z * list worker_action :=
  if shutdown then (0, [])
  else if image_fp wp =? 0 then (0, [])
  else (Z.of_nat (length data), [Fwrite data]).

(** libcurl hands the pieces to the callback one by one and gives the
    transfer up at the first one the callback does not take whole. *)
Fixpoint deliver (wp : wallpaper) (pieces : list (list Byte.byte * bool))
    : list worker_action :=
  match pieces with
  | [] => []
  | (data, sh) :: rest =>
      let r := write_cb wp sh data in
      if fst r =? Z.of_nat (length data) then snd r ++ deliver wp rest
      else snd r
  end.

(** The [do .. while] loop of [curl_download], from turn [i] on, with the
    current values of [repeats] and [chunks].  The result is the list of
    actions and the number of the turn after the last one; [None] when
    [fuel] turns were not enough to leave the loop. *)
Fixpoint transfer_loop (fuel : nat) (wp : wallpaper) (env : nat -> transfer_step)
    (i : nat) (repeats chunks : Z) : option (list worker_action * nat) :=
  match fuel with
  | O => None
  | S fuel' =>
      let st := env i in
      let a1 := deliver wp (delivered st)
                ++ [CurlMultiPerform (perform_mc st) (still_running st)] in
      if negb (perform_mc st =? CURLM_OK)
      then Some (a1 ++ [SetDownloadFailed], S i)
      else
        let a2 := a1 ++ [CurlMultiWait (wait_mc st) (numfds st)] in
        if negb (wait_mc st =? CURLM_OK)
        then Some (a2 ++ [SetDownloadFailed], S i)
        else
          let repeats' := if numfds st =? 0 then repeats + 1 else 0 in
          let a3 := a2 ++ (if (numfds st =? 0) && (1 <? repeats + 1)
                           then [Usleep 100000] else []) in
          (* while (still_running && (!wallpaper_shutdown || chunks++ < 10)) *)
          if still_running st =? 0 then Some (a3, S i)
          else if negb (shutdown_seen st)
          then match transfer_loop fuel' wp env (S i) repeats' chunks with
               | Some (rest, n) => Some (a3 ++ rest, n)
               | None => None
               end
          else if chunks <? 10
          then match transfer_loop fuel' wp env (S i) repeats' (chunks + 1) with
               | Some (rest, n) => Some (a3 ++ rest, n)
               | None => None
               end
          else Some (a3, S i)
  end.

(** [static void curl_download(wallpaper *pwp)] *)
Definition curl_download (fuel : nat) (wp : wallpaper) (tr : transfer)
    : option (list worker_action) :=
  match transfer_loop fuel wp (steps tr) 0 0 0 with
  | Some (acts, _) =>
      Some (CurlSetup (box_width (geometry wp)) (box_height (geometry wp))
              (rand_value tr mod 10000000)
            :: acts ++ [CurlCleanup; WriteSigFd (sig_fd wp)])
  | None => None
  end.

(** What an action of the worker does to its wallpaper. *)
Definition worker_write (w : wallpaper) (a : worker_action) : wallpaper :=
  match a with
  | Fwrite data => set_image_buf (image_buf w ++ data) w
  | SetDownloadFailed => set_download_failed true w
  | _ => w
  end.

Definition worker_writes (acts : list worker_action) (w : wallpaper) : wallpaper :=
  fold_left worker_write acts w.

(** The worker of [wallpapers[x][y]] has performed [acts]: its writes are
    in the object by the time the eventfd becomes readable. *)
Definition worker_done (acts : list worker_action) (x y : nat) (s : screen)
    : screen :=
  set_wallpapers (grid_alter (worker_writes acts) x y (wallpapers s)) s.

(** The number of writes to an eventfd among the actions. *)
Definition is_sig_write (a : worker_action) : bool :=
  match a with WriteSigFd _ => true | _ => false end.

Definition sig_writes (acts : list worker_action) : nat :=
  length (List.filter is_sig_write acts).

(** ** The handler beside the worker of its retry

    [download_complete] as it runs when the thread of its retry is
    already at work.  [update_wallpaper] creates the thread (line 461)
    before the handler comes to [wp.download_failed = false] (line 376);
    [early] is what that worker has done in between, and its writes go
    to the wallpaper before the handler's assignment does.  Nothing else
    in the handler runs beside a worker of this wallpaper: the one that
    sent the notification has written its eventfd, which is its last
    action. *)
Definition download_complete_racing (early : list worker_action)
    (fe : fetch_env) (je : jpeg_env) (fd mask : Z) (x y : nat) : M Z :=
  if Z.land mask WL_EVENT_READABLE =? 0 then ret 0
  else
    emit (Read fd) ;;
    wp <- get_tile x y ;;
    match thread wp with
    | None => ret 0
    | Some _ =>
        s <- get ;;
        if wallpaper_shutdown s then clean_up x y ;; ret 0
        else
          emit (Fflush (image_fp wp)) ;;
          modify_tile x y
            (fun w => set_image_size (Z.of_nat (length (image_buf w))) w) ;;
          let og := get_relative_geometry (output s) in
          (if negb (box_width (geometry wp) =? box_width og)
              || negb (box_height (geometry wp) =? box_height og)
           then modify_tile x y (set_download_failed true)
           else ret tt) ;;
          wp <- get_tile x y ;;
          if download_failed wp || (image_size wp =? 0)
          then
            clean_up x y ;;
            modify_tile x y
              (fun w => set_failed_counter (failed_counter w + 1) w) ;;
            wp <- get_tile x y ;;
            (if 3 <? failed_counter wp
             then
               s <- get ;;
               if is_connected (timer s) then ret tt
               else timer_set_timeout RETRY_TIMEOUT
             else
               update_wallpaper fe x y ;;
               wp <- get_tile x y ;;
               match thread wp with
               | Some _ => modify_tile x y (worker_writes early)
               | None => ret tt
               end) ;;
            modify_tile x y (set_download_failed false) ;;
            ret 0
          else
            modify_tile x y
              (fun w => set_failed_counter 0 (set_downloaded true w)) ;;
            match tex_tmp wp with
            | Some _ => ret tt
            | None => modify_tile x y (set_tex_tmp (Some new_texture))
            end ;;
            wp <- get_tile x y ;;
            r <- texture_from_jpeg_fp je (default new_texture (tex_tmp wp)) ;;
            modify_tile x y (set_tex_tmp (Some (snd r))) ;;
            let wsize := get_workspace_grid_size (output s) in
            all_done <- all_done_scan wsize ;;
            (if all_done then commit wsize else ret tt) ;;
            clean_up x y ;;
            ret 0
    end.

(** ** The other handlers of the plugin *)

Definition set_cycle v (s : screen) :=
  mk_screen (timer s) (hook_set s) (wallpaper_shutdown s) (wallpapers s) v
    (cycle_time s) (fade_animation s) (output s).

Definition set_cycle_time v (s : screen) :=
  mk_screen (timer s) (hook_set s) (wallpaper_shutdown s) (wallpapers s)
    (cycle s) v (fade_animation s) (output s).

(** [wf::OUTPUT_SOURCE_CHANGE] of wayfire/output-layout.hpp. *)
Definition OUTPUT_SOURCE_CHANGE : Z := 1.

(** The handler of the signal output-configuration-changed.  The output
    has its new geometry when the signal arrives; [ViewSetGeometry]
    records the [set_geometry] call on the view of each wallpaper. *)
Definition output_config_changed (os : nat -> nat -> fetch_env)
    (changed_fields : Z) : M unit :=
  if changed_fields =? 0 then ret tt
  else if negb (Z.land changed_fields OUTPUT_SOURCE_CHANGE =? 0) then ret tt
  else
    s <- get ;;
    let og := get_relative_geometry (output s) in
    for_grid (get_workspace_grid_size (output s))
      (fun x y =>
         _ <- get_tile x y ;; emit (ViewSetGeometry x y (view_box og x y))) ;;
    update_textures os.

(** The callback of the option [cycle]. *)
Definition cycle_changed (os : nat -> nat -> fetch_env) : M unit :=
  s <- get ;;
  (if is_connected (timer s) then timer_disconnect else ret tt) ;;
  if cycle s then update_textures os else ret tt.

(** [post_hook]; [running] is what [fade_animation.running()] answers. *)
Definition post_hook (running : bool) : M unit :=
  if running then ret tt
  else
    s <- get ;;
    for_grid (get_workspace_grid_size (output s))
      (fun x y => modify_tile x y (set_tex_from None)) ;;
    deactivate ;;
    emit DamageWhole.

(** The handler of the signal reserved-workarea, the pre-render hook and
    the callback of the timer. *)
Definition workarea_changed (os : nat -> nat -> fetch_env) : M unit :=
  update_textures os.

Definition pre_hook : M unit := damage_wallpapers.

Definition cycle_timeout (os : nat -> nat -> fetch_env) : M unit :=
  update_textures os.

(** ** Rendering *)

(** The calls [wallpaper::simple_render] makes to OpenGL, in order.  A
    texture is drawn over the whole geometry of the framebuffer, in white
    with the given alpha. *)
Inductive render_call :=
| RenderBegin
| LogicScissor (box : wlr_box)
| RenderTexture (name : Z) (og : wlr_box) (alpha : QArith_base.Q)
| RenderEnd.

(** [void wallpaper::simple_render(fb, x, y, damage)].  [og] is
    [fb.geometry] and [damage] the boxes of the damaged region;
    [running] and [progress] are what [wps->fade_animation] answers:
    whether it runs, and its current value. *)
Definition simple_render (running : bool) (progress : QArith_base.Q)
    (wp : wallpaper) (og : wlr_box) (damage : list wlr_box) : list render_call :=
  RenderBegin
  :: (damage ≫=
        (fun box =>
           LogicScissor box
           :: match tex_from wp with
              | Some from =>
                  if running && negb (tex from =? GLuint_minus_1)
                  then [RenderTexture (tex from) og (QArith_base.Qmake 1 1)]
                  else []
              | None => []
              end
           ++ match tex_to wp with
              | Some to =>
                  if negb (tex to =? GLuint_minus_1)
                  then [RenderTexture (tex to) og progress]
                  else []
              | None => []
              end))
  ++ [RenderEnd].

(** ** What the plugin can do

    One step of the plugin object: the worker of a wallpaper writes what
    its run makes it write, or the event loop runs one of the handlers to
    its end, or an option is given a new value.  A worker writes beside
    the handlers; its writes are put after the handler that started it,
    except for those a retry's worker makes before [download_complete]
    has cleared the flag: they are the [early] ones, and the step of the
    worker brings the [late] ones.  The output changes its size only
    together with the signal that announces it, and keeps its workspace
    grid. *)
Inductive step : screen -> screen -> Prop :=
| step_worker fuel tr early late x y w s :
    tile_at (wallpapers s) x y = Some w ->
    is_Some (thread w) ->
    curl_download fuel w tr = Some (early ++ late) ->
    step s (worker_done late x y s)
| step_download_complete fe je fd mask x y s r s' calls :
    download_complete fe je fd mask x y s = Ok (r, s', calls) ->
    step s s'
| step_download_complete_racing early fe je fd mask x y s r s' calls :
    (forall w, tile_at (wallpapers s') x y = Some w -> is_Some (thread w) ->
       exists fuel tr late, curl_download fuel w tr = Some (early ++ late)) ->
    download_complete_racing early fe je fd mask x y s = Ok (r, s', calls) ->
    step s s'
| step_cycle_timeout os s s' calls :
    is_connected (timer s) = true ->
    update_textures os s = Ok (tt, s', calls) ->
    step s s'
| step_workarea_changed os s s' calls :
    update_textures os s = Ok (tt, s', calls) ->
    step s s'
| step_output_config_changed os o changed_fields s s' calls :
    grid_size o = grid_size (output s) ->
    output_config_changed os changed_fields (set_output o s) = Ok (tt, s', calls) ->
    step s s'
| step_cycle_changed os b s s' calls :
    cycle_changed os (set_cycle b s) = Ok (tt, s', calls) ->
    step s s'
| step_cycle_time_changed ms s :
    step s (set_cycle_time ms s)
| step_post_hook running s s' calls :
    post_hook running s = Ok (tt, s', calls) ->
    step s s'
| step_fini s s' calls :
    fini s = Ok (tt, s', calls) ->
    step s s'.

(** The states the plugin object goes through, from [init] on. *)
Inductive reachable : screen -> Prop :=
| reachable_init cy cy_time o os s calls :
    init os (new_screen cy cy_time o) = Ok (tt, s, calls) ->
    reachable s
| reachable_step s s' :
    reachable s -> step s s' -> reachable s'.

(** ** Auxiliary definitions for the statements *)

(** A turn that leaves the loop whatever came before it: an error of
    [curl_multi_perform] or [curl_multi_wait], or no transfer left
    running. *)
Definition turn_ends (st : transfer_step) : bool :=
  negb (perform_mc st =? CURLM_OK) || negb (wait_mc st =? CURLM_OK)
  || (still_running st =? 0).

(** The vector has the shape [init] gave it: [width] columns of [height]
    wallpapers each. *)
Definition grid_ok (s : screen) : Prop :=
  length (wallpapers s) = Z.to_nat (dim_width (grid_size (output s)))
  /\ Forall (fun col => length col = Z.to_nat (dim_height (grid_size (output s))))
       (wallpapers s).

(** [es] happened before the result [r]. *)
Definition after {A} (es : list effect) (r : result (A * screen * list effect))
    : result (A * screen * list effect) :=
  match r with
  | Ok (a, s, t) => Ok (a, s, es ++ t)
  | Fault f => Fault f
  end.

(** What [clean_up] writes into the wallpaper. *)
Definition cleaned (w : wallpaper) : wallpaper :=
  set_image_size (Z.of_nat (length (image_buf w))) (set_thread None w).

(** The calls [clean_up] makes for a wallpaper whose thread is [t]. *)
Definition clean_up_calls (w : wallpaper) (t : Z) : list effect :=
  [EventSourceRemove (event_source w); ThreadJoin t; Fclose (image_fp w);
   FreeImagePtr; Close (sig_fd w)].

(** The pairs [(x, y)] in the order the two nested loops visit them. *)
Definition grid_coords (wsize : dimensions_t) : list (nat * nat) :=
  x ← seq 0 (Z.to_nat (dim_width wsize));
  (fun y => (x, y)) <$> seq 0 (Z.to_nat (dim_height wsize)).

(** [g'] has as many columns as [g], and columns as long. *)
Definition same_shape (g g' : list (list wallpaper)) : Prop :=
  length g' = length g
  /\ forall m, Forall (fun col => length col = m) g ->
               Forall (fun col => length col = m) g'.

(** The flag [downloaded] of [wallpapers[x][y]]. *)
Definition downloaded_at (g : list (list wallpaper)) (p : nat * nat) : bool :=
  from_option downloaded false (tile_at g p.1 p.2).

(** Every wallpaper of the grid is [downloaded]. *)
Definition all_downloaded (wsize : dimensions_t) (g : list (list wallpaper)) : bool :=
  forallb (downloaded_at g) (grid_coords wsize).

(** [wallpapers[x][y]] replaced by [w]. *)
Definition grid_set (x y : nat) (w : wallpaper) (g : list (list wallpaper))
    : list (list wallpaper) :=
  grid_alter (fun _ => w) x y g.

(** The image is out of date: the output no longer has the size the
    fetch was started for. *)
Definition geometry_stale (s : screen) (w : wallpaper) : bool :=
  negb (box_width (geometry w) =? box_width (get_relative_geometry (output s)))
  || negb (box_height (geometry w) =? box_height (get_relative_geometry (output s))).

(** The test [download_complete] makes after the geometry check:
    [wp.download_failed || !wp.image_size]. *)
Definition download_bad (s : screen) (w : wallpaper) : bool :=
  geometry_stale s w || download_failed w
  || (Z.of_nat (length (image_buf w)) =? 0).

(** The wallpaper as the failure branch has it when it decides between
    the timer and the retry. *)
Definition failed_tile (s : screen) (w : wallpaper) : wallpaper :=
  set_failed_counter (failed_counter w + 1)
    (set_thread None
       (set_image_size (Z.of_nat (length (image_buf w)))
          (set_download_failed (geometry_stale s w || download_failed w) w))).

(** The wallpaper once its fetch is started. *)
Definition started_tile (fe : fetch_env) (s : screen) (w : wallpaper) : wallpaper :=
  set_thread (Some (new_thread fe))
    (set_event_source (add_fd_ret fe)
       (set_geometry (get_relative_geometry (output s))
          (set_image_buf []
             (set_image_fp (open_memstream_ret fe)
                (set_sig_fd (eventfd_ret fe) w))))).

(** The texture [texture_from_jpeg_fp] leaves behind [wp.tmp]. *)
Definition decoded_texture (je : jpeg_env) (old : option simple_texture_t)
    : simple_texture_t :=
  mk_texture
    (if tex (default new_texture old) =? GLuint_minus_1
     then gen_texture je else tex (default new_texture old))
    (jpeg_output_width je) (jpeg_output_height je).

Definition decode_calls (je : jpeg_env) (old : option simple_texture_t)
    : list effect :=
  (if tex (default new_texture old) =? GLuint_minus_1
   then [GlGenTextures (gen_texture je)] else [])
  ++ [GlTexImage2D (tex (decoded_texture je old)) (jpeg_output_width je)
        (jpeg_output_height je)].

(** The wallpaper when the success branch reaches the scan of the grid. *)
Definition completed_tile (je : jpeg_env) (w : wallpaper) : wallpaper :=
  set_tex_tmp (Some (decoded_texture je (tex_tmp w)))
    (set_failed_counter 0
       (set_downloaded true
          (set_image_size (Z.of_nat (length (image_buf w))) w))).

(** The calls of [commit]. *)
Definition commit_calls (s : screen) : list effect :=
  FadeAnimate 0 1
  :: (if hook_set s then []
      else AddEffects
           :: (grid_coords (grid_size (output s)) ≫= (fun p => [Damage p.1 p.2])))
  ++ (if cycle s then [TimerSetTimeout (cycle_time s)] else []).

(** What [fini] leaves of a wallpaper: the fetch is cleaned up if one is
    live, and the three textures are dropped. *)
Definition fini_tile (w : wallpaper) : wallpaper :=
  set_tex_tmp None
    (set_tex_to None
       (set_tex_from None
          (match thread w with Some _ => cleaned w | None => w end))).

Definition fini_calls (p : nat * nat) (w : wallpaper) : list effect :=
  match thread w with Some t => clean_up_calls w t | None => [] end
  ++ [ViewClose p.1 p.2].

(** The members of a wallpaper the worker never writes. *)
Definition worker_frame (w w' : wallpaper) : Prop :=
  sig_fd w' = sig_fd w /\ image_fp w' = image_fp w
  /\ image_size w' = image_size w /\ geometry w' = geometry w
  /\ failed_counter w' = failed_counter w /\ event_source w' = event_source w
  /\ downloaded w' = downloaded w /\ thread w' = thread w
  /\ tex_from w' = tex_from w /\ tex_to w' = tex_to w /\ tex_tmp w' = tex_tmp w.

(** What holds of the plugin object whenever a fetch is in flight: a
    wallpaper with a live thread is not yet [downloaded], has failed at
    most 3 times in a row, and the timer is either disconnected or armed
    for the retry delay. *)
Definition fetch_inv (s : screen) : Prop :=
  grid_ok s
  /\ forall x y w,
       tile_at (wallpapers s) x y = Some w ->
       is_Some (thread w) ->
       downloaded w = false
       /\ 0 <= failed_counter w <= 3
       /\ (timer s = None \/ timer s = Some RETRY_TIMEOUT).

(** The loop invariant of [update_textures]: the invariant, with the
    timer disconnected or armed for the retry delay. *)
Definition restart_inv (o : output_t) (s : screen) : Prop :=
  fetch_inv s /\ output s = o
  /\ (timer s = None \/ timer s = Some RETRY_TIMEOUT).

(** Every wallpaper of the grid but [wallpapers[x][y]] is [downloaded]. *)
Definition others_downloaded (s : screen) (x y : nat) : Prop :=
  forall x' y' w',
    tile_at (wallpapers s) x' y' = Some w' -> (x', y') <> (x, y) ->
    downloaded w' = true.

(** A turn in which libcurl reports an error. *)
Definition turn_failed (st : transfer_step) : bool :=
  negb (perform_mc st =? CURLM_OK) || negb (wait_mc st =? CURLM_OK).

(** The bytes the actions write to the stream. *)
Definition received (acts : list worker_action) : list Byte.byte :=
  a ← acts; match a with Fwrite data => data | _ => [] end.

(** What [update_texture] leaves of a wallpaper: the failure count is
    reset; a wallpaper that is [downloaded] or has a live thread is
    otherwise left alone; for the others [update_wallpaper] gets as far
    as the environment lets it. *)
Definition restarted_tile (fe : fetch_env) (s : screen) (w : wallpaper) : wallpaper :=
  if downloaded w then set_failed_counter 0 w
  else match thread w with
       | Some _ => set_failed_counter 0 w
       | None =>
           if eventfd_ret fe =? -1
           then set_sig_fd (eventfd_ret fe) (set_failed_counter 0 w)
           else if open_memstream_ret fe =? 0
           then set_image_buf []
                  (set_image_fp (open_memstream_ret fe)
                     (set_sig_fd (eventfd_ret fe) (set_failed_counter 0 w)))
           else started_tile fe s (set_failed_counter 0 w)
       end.

(** The calls [update_texture] makes for [wallpapers[x][y]]. *)
Definition restart_calls (fe : fetch_env) (x y : nat) (w : wallpaper) : list effect :=
  if downloaded w then []
  else match thread w with
       | Some _ => [TimerSetTimeout RETRY_TIMEOUT]
       | None =>
           Eventfd (eventfd_ret fe)
           :: (if eventfd_ret fe =? -1 then [TimerDisconnect]
               else OpenMemstream (open_memstream_ret fe)
                    :: (if open_memstream_ret fe =? 0
                        then [TimerDisconnect; Close (eventfd_ret fe)]
                        else [EventLoopAddFd (eventfd_ret fe) (add_fd_ret fe);
                              ThreadCreate x y (new_thread fe)]))
       end.

(** What [update_texture] does to the timer. *)
Definition restart_timer (fe : fetch_env) (w : wallpaper) (tm : option Z) : option Z :=
  if downloaded w then tm
  else match thread w with
       | Some _ => Some RETRY_TIMEOUT
       | None =>
           if (eventfd_ret fe =? -1) || (open_memstream_ret fe =? 0) then None
           else tm
       end.

(** The timer after the loop of [update_textures] has visited the
    wallpapers at [l], in that order. *)
Definition restart_timers (os : nat -> nat -> fetch_env) (g : list (list wallpaper))
    (l : list (nat * nat)) (tm : option Z) : option Z :=
  fold_left
    (fun tm p => from_option (fun w => restart_timer (os p.1 p.2) w tm) tm
                   (tile_at g p.1 p.2))
    l tm.

(** The environment lets every fetch start: [eventfd] and
    [open_memstream] succeed for every wallpaper. *)
Definition fetches_can_start (os : nat -> nat -> fetch_env) : Prop :=
  forall x y, eventfd_ret (os x y) <> -1 /\ open_memstream_ret (os x y) <> 0.

(** A fetch is in flight for the wallpaper. *)
Definition in_flight (w : wallpaper) : bool :=
  negb (downloaded w) && is_connected (thread w).

(** [s'] differs from [s] in the timer and in the wallpapers at most. *)
Definition same_but_fetches (s s' : screen) : Prop :=
  hook_set s' = hook_set s /\ wallpaper_shutdown s' = wallpaper_shutdown s
  /\ cycle s' = cycle s /\ cycle_time s' = cycle_time s
  /\ fade_animation s' = fade_animation s /\ output s' = output s.

(** The calls the failure branch can make once it has cleaned up: the
    timer, or those of [update_wallpaper]. *)
Definition retry_call (fe : fetch_env) (x y : nat) (e : effect) : Prop :=
  e = TimerSetTimeout RETRY_TIMEOUT
  \/ e = Eventfd (eventfd_ret fe)
  \/ e = OpenMemstream (open_memstream_ret fe)
  \/ e = TimerDisconnect
  \/ e = Close (eventfd_ret fe)
  \/ e = EventLoopAddFd (eventfd_ret fe) (add_fd_ret fe)
  \/ e = ThreadCreate x y (new_thread fe).

(** What holds of a wallpaper in every state the plugin reaches; [sh] is
    [wallpaper_shutdown].  A texture waits in [tmp] only for a wallpaper
    that is [downloaded]; the failure count stays between 0 and 4; and
    until the plugin is shut down a [downloaded] wallpaper does have its
    texture in [tmp], and a wallpaper without a thread has its failure
    flag clear. *)
Definition tile_ok (sh : bool) (w : wallpaper) : Prop :=
  (is_Some (tex_tmp w) -> downloaded w = true)
  /\ 0 <= failed_counter w <= 4
  /\ (sh = false ->
      (downloaded w = true -> is_Some (tex_tmp w))
      /\ (thread w = None -> download_failed w = false)).

Definition barrier_inv (s : screen) : Prop :=
  grid_ok s
  /\ forall x y w,
       tile_at (wallpapers s) x y = Some w -> tile_ok (wallpaper_shutdown s) w.

(** The actions of one turn of the loop of [curl_download], entered with
    the given value of [repeats]. *)
Definition turn_actions (wp : wallpaper) (st : transfer_step) (repeats : Z)
    : list worker_action :=
  deliver wp (delivered st)
  ++ CurlMultiPerform (perform_mc st) (still_running st)
     :: (if negb (perform_mc st =? CURLM_OK) then [SetDownloadFailed]
         else CurlMultiWait (wait_mc st) (numfds st)
              :: (if negb (wait_mc st =? CURLM_OK) then [SetDownloadFailed]
                  else if (numfds st =? 0) && (1 <? repeats + 1)
                       then [Usleep 100000] else [])).

(** The value of [repeats] a turn leaves behind. *)
Definition next_repeats (st : transfer_step) (repeats : Z) : Z :=
  if numfds st =? 0 then repeats + 1 else 0.

(** The actions of [m] turns in a row, from turn [i] on. *)
Fixpoint turns_actions (wp : wallpaper) (env : nat -> transfer_step)
    (i : nat) (repeats : Z) (m : nat) : list worker_action :=
  match m with
  | O => []
  | S m' =>
      turn_actions wp (env i) repeats
      ++ turns_actions wp env (S i) (next_repeats (env i) repeats) m'
  end.

(** The bytes libcurl hands over in [m] turns, from turn [i] on. *)
Fixpoint body_of (env : nat -> transfer_step) (i m : nat) : list Byte.byte :=
  match m with
  | O => []
  | S m' => (delivered (env i) ≫= fst) ++ body_of env (S i) m'
  end.

(** The number of the turns, among [m] from turn [i] on, whose test of
    the loop condition reads [wallpaper_shutdown] as set. *)
Fixpoint flagged_turns (env : nat -> transfer_step) (i m : nat) : Z :=
  match m with
  | O => 0
  | S m' => (if shutdown_seen (env i) then 1 else 0) + flagged_turns env (S i) m'
  end.

(** The point [(px, py)] lies in the box. *)
Definition in_box (b : wlr_box) (px py : Z) : Prop :=
  box_x b <= px < box_x b + box_width b
  /\ box_y b <= py < box_y b + box_height b.

(** The texture an accepted download is decoded into when [tmp] is
    empty. *)
Definition fresh_texture (je : jpeg_env) : simple_texture_t :=
  mk_texture (gen_texture je) (jpeg_output_width je) (jpeg_output_height je).

(** Two more facts that hold in every state the plugin reaches: a
    wallpaper with a live thread has an open stream and a valid eventfd;
    and while the timer is armed for anything but the retry delay, no
    wallpaper is [downloaded]. *)
Definition rest_inv (s : screen) : Prop :=
  grid_ok s
  /\ (forall x y w,
        tile_at (wallpapers s) x y = Some w ->
        is_Some (thread w) -> image_fp w <> 0 /\ sig_fd w <> -1)
  /\ (forall ms,
        timer s = Some ms -> ms <> RETRY_TIMEOUT ->
        forall x y w, tile_at (wallpapers s) x y = Some w -> downloaded w = false).



(** ** Two runs on an output with two workspaces

    The states below are those of the model on concrete inputs; they are
    the inputs of the examples that close the development. *)

Definition example_output : output_t := mk_output 800 600 (mk_dimensions 2 1).

Definition example_output_resized : output_t :=
  mk_output 1024 768 (mk_dimensions 2 1).

Definition example_os (x y : nat) : fetch_env :=
  mk_fetch_env (10 + Z.of_nat x) (100 + Z.of_nat x) (200 + Z.of_nat x)
    (300 + Z.of_nat x).

Definition example_jpeg : jpeg_env := mk_jpeg_env JPEG_OK 800 600 7.
Definition example_jpeg_resized : jpeg_env := mk_jpeg_env JPEG_OK 1024 768 8.
Definition example_jpeg_corrupt : jpeg_env := mk_jpeg_env JPEG_CORRUPT 1024 768 8.

(** One turn in which the whole body arrives and the transfer ends. *)
Definition good_step : transfer_step :=
  mk_step 0 [([Byte.xff; Byte.xd8; Byte.xff], false)] 0 0 1 false.

(** One turn in which [curl_multi_perform] reports an error. *)
Definition failed_step : transfer_step := mk_step 1 [] 1 0 0 false.

(** A transfer that never ends by itself, with the shutdown flag set. *)
Definition shutdown_step : transfer_step := mk_step 0 [] 1 0 0 true.

Definition good_transfer : transfer :=
  mk_transfer 42 (fun _ => good_step) 200 CURLE_OK.
Definition failed_transfer : transfer :=
  mk_transfer 42 (fun _ => failed_step) 0 CURLE_COULDNT_CONNECT.

Definition state_after {A} (r : result (A * screen * list effect)) : screen :=
  match r with
  | Ok (_, s, _) => s
  | Fault _ => new_screen false 0 example_output
  end.

Definition tile_of (s : screen) (x y : nat) : wallpaper :=
  default fresh_wallpaper (tile_at (wallpapers s) x y).

Definition actions_of (s : screen) (x y : nat) (tr : transfer)
    : list worker_action :=
  default [] (curl_download 1 (tile_of s x y) tr).

(** Both wallpapers fetching, for an output of 800x600. *)
Definition run_0 : screen :=
  Eval vm_compute in state_after (init example_os (new_screen true 60000 example_output)).

(** First run: the download of [wallpapers[0][0]] fails four times. *)
Definition fail_1w : screen :=
  Eval vm_compute in worker_done (actions_of run_0 0 0 failed_transfer) 0 0 run_0.
Definition fail_1 : screen :=
  Eval vm_compute in
    state_after (download_complete (example_os 0 0) example_jpeg 10 1 0 0 fail_1w).
Definition fail_2w : screen :=
  Eval vm_compute in worker_done (actions_of fail_1 0 0 failed_transfer) 0 0 fail_1.
Definition fail_2 : screen :=
  Eval vm_compute in
    state_after (download_complete (example_os 0 0) example_jpeg 10 1 0 0 fail_2w).
Definition fail_3w : screen :=
  Eval vm_compute in worker_done (actions_of fail_2 0 0 failed_transfer) 0 0 fail_2.
Definition fail_3 : screen :=
  Eval vm_compute in
    state_after (download_complete (example_os 0 0) example_jpeg 10 1 0 0 fail_3w).
Definition fail_4w : screen :=
  Eval vm_compute in worker_done (actions_of fail_3 0 0 failed_transfer) 0 0 fail_3.

(** Second run: [wallpapers[0][0]] is downloaded for 800x600, the output
    is resized to 1024x768, and [wallpapers[1][0]] is then fetched again
    for the new size. *)
Definition mixed_1w : screen :=
  Eval vm_compute in worker_done (actions_of run_0 0 0 good_transfer) 0 0 run_0.
Definition mixed_1 : screen :=
  Eval vm_compute in
    state_after (download_complete (example_os 0 0) example_jpeg 10 1 0 0 mixed_1w).
Definition mixed_2 : screen :=
  Eval vm_compute in
    state_after (output_config_changed example_os 2
                   (set_output example_output_resized mixed_1)).
Definition mixed_3w : screen :=
  Eval vm_compute in worker_done (actions_of mixed_2 1 0 good_transfer) 1 0 mixed_2.
Definition mixed_3 : screen :=
  Eval vm_compute in
    state_after (download_complete (example_os 1 0) example_jpeg 11 1 1 0 mixed_3w).
Definition mixed_4w : screen :=
  Eval vm_compute in worker_done (actions_of mixed_3 1 0 good_transfer) 1 0 mixed_3.

(** The wallpapers of a grid were all fetched for one geometry. *)
Definition one_generation (g : list (list wallpaper)) : Prop :=
  exists geo, forall x y w, tile_at g x y = Some w -> geometry w = geo.

(** ** Further states and inputs of the examples *)

Definition calls_of {A} (r : result (A * screen * list effect)) : list effect :=
  match r with
  | Ok (_, _, c) => c
  | Fault _ => []
  end.

(** First run, after the fourth failure: [wallpapers[0][0]] has no
    thread and the timer is armed for the retry. *)
Definition fail_4 : screen :=
  Eval vm_compute in
    state_after (download_complete (example_os 0 0) example_jpeg 10 1 0 0 fail_4w).

(** Second run, after the commit. *)
Definition mixed_4 : screen :=
  Eval vm_compute in
    state_after
      (download_complete (example_os 1 0) example_jpeg_resized 11 1 1 0 mixed_4w).

(** A turn in which nothing arrives and no descriptor is ready, with the
    transfer still running. *)
Definition idle_step : transfer_step := mk_step 0 [] 1 0 0 false.

(** Two idle turns, then the body. *)
Definition slow_transfer : transfer :=
  mk_transfer 42 (fun j => if (j <? 2)%nat then idle_step else good_step) 200
    CURLE_OK.

(** An environment in which [open_memstream] fails. *)
Definition no_stream_env : fetch_env := mk_fetch_env 10 0 200 300.

(** A turn in which part of the body arrives and the transfer goes on,
    and a turn in which [curl_multi_wait] reports an error. *)
Definition more_step : transfer_step :=
  mk_step 0 [([Byte.xff; Byte.xd8; Byte.xff], false)] 1 0 1 false.
Definition wait_failed_step : transfer_step := mk_step 0 [] 1 1 0 false.

(** A transfer that breaks off after part of the body, which libcurl
    reports through [curl_multi_wait]. *)
Definition broken_transfer : transfer :=
  mk_transfer 42 (fun j => if (j =? 0)%nat then more_step else wait_failed_step)
    200 CURLE_PARTIAL_FILE.


(** First run, the retry of [wallpapers[0][0]]: what its worker does on
    the broken transfer. *)
Definition broken_actions : list worker_action :=
  Eval vm_compute in
    default [] (curl_download 2 (tile_of fail_1 0 0) broken_transfer).


(** * The worker: termination and the single notification *)

Section Worker.
Variable wp : wallpaper.
Variable env : nat -> transfer_step.

(** One turn of the loop. *)
Lemma transfer_loop_S fuel i repeats chunks :
  transfer_loop (S fuel) wp env i repeats chunks =
    let st := env i in
    let a1 := deliver wp (delivered st)
              ++ [CurlMultiPerform (perform_mc st) (still_running st)] in
    if negb (perform_mc st =? CURLM_OK)
    then Some (a1 ++ [SetDownloadFailed], S i)
    else
      let a2 := a1 ++ [CurlMultiWait (wait_mc st) (numfds st)] in
      if negb (wait_mc st =? CURLM_OK)
      then Some (a2 ++ [SetDownloadFailed], S i)
      else
        let repeats' := if numfds st =? 0 then repeats + 1 else 0 in
        let a3 := a2 ++ (if (numfds st =? 0) && (1 <? repeats + 1)
                         then [Usleep 100000] else []) in
        if still_running st =? 0 then Some (a3, S i)
        else if negb (shutdown_seen st)
        then match transfer_loop fuel wp env (S i) repeats' chunks with
             | Some (rest, n) => Some (a3 ++ rest, n)
             | None => None
             end
        else if chunks <? 10
        then match transfer_loop fuel wp env (S i) repeats' (chunks + 1) with
             | Some (rest, n) => Some (a3 ++ rest, n)
             | None => None
             end
        else Some (a3, S i).
Proof. reflexivity. Qed.

(** More fuel does not change a result. *)
Lemma transfer_loop_fuel_mono fuel :
  forall i repeats chunks r extra,
    transfer_loop fuel wp env i repeats chunks = Some r ->
    transfer_loop (fuel + extra) wp env i repeats chunks = Some r.
Proof.
  induction fuel as [|fuel IH]; intros i repeats chunks r extra H.
  - discriminate.
  - cbn [Nat.add]. rewrite transfer_loop_S in *. cbv zeta in *.
    destruct (negb (perform_mc (env i) =? CURLM_OK)); [exact H|].
    destruct (negb (wait_mc (env i) =? CURLM_OK)); [exact H|].
    destruct (still_running (env i) =? 0); [exact H|].
    destruct (negb (shutdown_seen (env i))).
    + destruct (transfer_loop fuel wp env (S i) _ chunks) as [[rest n]|] eqn:E;
        [|discriminate].
      now rewrite (IH _ _ _ _ extra E).
    + destruct (chunks <? 10); [|exact H].
      destruct (transfer_loop fuel wp env (S i) _ (chunks + 1)) as [[rest n]|] eqn:E;
        [|discriminate].
      now rewrite (IH _ _ _ _ extra E).
Qed.

(** Once every test of the loop condition sees the flag, [chunks] only
    grows: with [chunks >= 10 - d] at most [d + 1] turns are left. *)
Lemma transfer_loop_after_shutdown d :
  forall i repeats chunks,
    10 - Z.of_nat d <= chunks ->
    (forall j, (i <= j)%nat -> shutdown_seen (env j) = true) ->
    exists acts n,
      transfer_loop (S d) wp env i repeats chunks = Some (acts, n)
      /\ (i < n <= i + d + 1)%nat.
Proof.
  induction d as [|d IH]; intros i repeats chunks Hch Hsh;
    rewrite transfer_loop_S; cbv zeta;
    (destruct (negb (perform_mc (env i) =? CURLM_OK));
       [eexists _, _; split; [reflexivity|lia]|]);
    (destruct (negb (wait_mc (env i) =? CURLM_OK));
       [eexists _, _; split; [reflexivity|lia]|]);
    (destruct (still_running (env i) =? 0);
       [eexists _, _; split; [reflexivity|lia]|]);
    rewrite (Hsh i (Nat.le_refl i)); cbn [negb].
  - destruct (Z.ltb_spec chunks 10) as [Hlt|Hge]; [lia|].
    eexists _, _; split; [reflexivity|lia].
  - destruct (Z.ltb_spec chunks 10) as [Hlt|Hge].
    + destruct (IH (S i) (if numfds (env i) =? 0 then repeats + 1 else 0)
                  (chunks + 1)) as (acts & n & E & Hn).
      * lia.
      * intros j Hj. apply Hsh. lia.
      * rewrite E. eexists _, _; split; [reflexivity|lia].
    + eexists _, _; split; [reflexivity|lia].
Qed.

(** The flag is seen from turn [i + k] on: the loop is left after at
    most [k + 11] turns, whatever the transfer does. *)
Lemma transfer_loop_shutdown_from k :
  forall i repeats chunks,
    0 <= chunks ->
    (forall j, (i + k <= j)%nat -> shutdown_seen (env j) = true) ->
    exists acts n,
      transfer_loop (k + 11) wp env i repeats chunks = Some (acts, n)
      /\ (i < n <= i + k + 11)%nat.
Proof.
  induction k as [|k IH]; intros i repeats chunks Hch Hsh.
  - destruct (transfer_loop_after_shutdown 10 i repeats chunks)
      as (acts & n & E & Hn); [lia | intros j Hj; apply Hsh; lia |].
    exists acts, n. split; [exact E|lia].
  - change (S k + 11)%nat with (S (k + 11)). rewrite transfer_loop_S. cbv zeta.
    destruct (negb (perform_mc (env i) =? CURLM_OK));
      [eexists _, _; split; [reflexivity|lia]|].
    destruct (negb (wait_mc (env i) =? CURLM_OK));
      [eexists _, _; split; [reflexivity|lia]|].
    destruct (still_running (env i) =? 0);
      [eexists _, _; split; [reflexivity|lia]|].
    destruct (negb (shutdown_seen (env i))).
    + destruct (IH (S i) (if numfds (env i) =? 0 then repeats + 1 else 0) chunks)
        as (acts & n & E & Hn); [lia | intros j Hj; apply Hsh; lia |].
      rewrite E. eexists _, _; split; [reflexivity|lia].
    + destruct (Z.ltb_spec chunks 10) as [Hlt|Hge].
      * destruct (IH (S i) (if numfds (env i) =? 0 then repeats + 1 else 0)
                    (chunks + 1))
          as (acts & n & E & Hn); [lia | intros j Hj; apply Hsh; lia |].
        rewrite E. eexists _, _; split; [reflexivity|lia].
      * eexists _, _; split; [reflexivity|lia].
Qed.

Lemma transfer_loop_ends_by k :
  forall i repeats chunks,
    turn_ends (env (i + k)%nat) = true ->
    exists acts n,
      transfer_loop (S k) wp env i repeats chunks = Some (acts, n)
      /\ (i < n <= i + k + 1)%nat.
Proof.
  unfold turn_ends.
  induction k as [|k IH]; intros i repeats chunks Hend;
    rewrite transfer_loop_S; cbv zeta.
  - rewrite Nat.add_0_r in Hend.
    destruct (negb (perform_mc (env i) =? CURLM_OK));
      [eexists _, _; split; [reflexivity|lia]|].
    destruct (negb (wait_mc (env i) =? CURLM_OK));
      [eexists _, _; split; [reflexivity|lia]|].
    cbn [orb] in Hend. rewrite Hend.
    eexists _, _; split; [reflexivity|lia].
  - destruct (negb (perform_mc (env i) =? CURLM_OK));
      [eexists _, _; split; [reflexivity|lia]|].
    destruct (negb (wait_mc (env i) =? CURLM_OK));
      [eexists _, _; split; [reflexivity|lia]|].
    destruct (still_running (env i) =? 0);
      [eexists _, _; split; [reflexivity|lia]|].
    replace (i + S k)%nat with (S i + k)%nat in Hend by lia.
    destruct (negb (shutdown_seen (env i))).
    + destruct (IH (S i) (if numfds (env i) =? 0 then repeats + 1 else 0)
                  chunks Hend) as (acts & n & E & Hn).
      rewrite E. eexists _, _; split; [reflexivity|lia].
    + destruct (chunks <? 10).
      * destruct (IH (S i) (if numfds (env i) =? 0 then repeats + 1 else 0)
                    (chunks + 1) Hend) as (acts & n & E & Hn).
        rewrite E. eexists _, _; split; [reflexivity|lia].
      * eexists _, _; split; [reflexivity|lia].
Qed.
End Worker.

(** * The grid *)

Lemma tile_at_alter_eq f x y (g : list (list wallpaper)) w :
  tile_at g x y = Some w -> tile_at (grid_alter f x y g) x y = Some (f w).
Proof.
  unfold tile_at, grid_alter. intros H.
  rewrite list_lookup_alter_eq.
  destruct (g !! x) as [col|]; [|discriminate]. cbn in *.
  rewrite list_lookup_alter_eq, H. reflexivity.
Qed.

Lemma tile_at_alter_ne f x y x' y' (g : list (list wallpaper)) :
  (x, y) <> (x', y') ->
  tile_at (grid_alter f x y g) x' y' = tile_at g x' y'.
Proof.
  unfold tile_at, grid_alter. intros H.
  destruct (decide (x = x')) as [->|Hx].
  - rewrite list_lookup_alter_eq.
    destruct (g !! x') as [col|]; [|reflexivity]. cbn.
    apply list_lookup_alter_ne. congruence.
  - rewrite list_lookup_alter_ne by exact Hx. reflexivity.
Qed.

Lemma tile_at_alter f x y x' y' (g : list (list wallpaper)) :
  tile_at (grid_alter f x y g) x' y' =
    if decide ((x, y) = (x', y')) then f <$> tile_at g x' y' else tile_at g x' y'.
Proof.
  destruct (decide ((x, y) = (x', y'))) as [E|N].
  - inversion E; subst.
    destruct (tile_at g x' y') as [w|] eqn:H.
    + now apply tile_at_alter_eq.
    + unfold tile_at, grid_alter in *. rewrite list_lookup_alter_eq.
      destruct (g !! x') as [col|]; [|reflexivity]. cbn in *.
      rewrite list_lookup_alter_eq, H. reflexivity.
  - now apply tile_at_alter_ne.
Qed.

Lemma grid_alter_compose f h x y (g : list (list wallpaper)) :
  grid_alter f x y (grid_alter h x y g) = grid_alter (fun w => f (h w)) x y g.
Proof.
  unfold grid_alter.
  rewrite list_alter_alter_eq.
  apply list_alter_ext; [|reflexivity].
  intros col _. cbn. now rewrite list_alter_alter_eq.
Qed.

Lemma grid_ok_lookup s x y :
  grid_ok s ->
  (x < Z.to_nat (dim_width (grid_size (output s))))%nat ->
  (y < Z.to_nat (dim_height (grid_size (output s))))%nat ->
  exists w, tile_at (wallpapers s) x y = Some w.
Proof.
  intros [Hw Hh] Hx Hy. unfold tile_at.
  destruct (lookup_lt_is_Some_2 (wallpapers s) x) as [col Hcol]; [lia|].
  rewrite Hcol. cbn.
  apply lookup_lt_is_Some_2.
  rewrite Forall_forall in Hh.
  rewrite (Hh col); [exact Hy|].
  eapply list_elem_of_lookup_2. exact Hcol.
Qed.

Lemma grid_ok_range s x y w :
  grid_ok s -> tile_at (wallpapers s) x y = Some w ->
  (x < Z.to_nat (dim_width (grid_size (output s))))%nat
  /\ (y < Z.to_nat (dim_height (grid_size (output s))))%nat.
Proof.
  intros [Hw Hh] H. unfold tile_at in H.
  destruct (wallpapers s !! x) as [col|] eqn:Hcol; [|discriminate]. cbn in H.
  split.
  - rewrite <- Hw. eapply lookup_lt_Some. exact Hcol.
  - rewrite Forall_forall in Hh. rewrite <- (Hh col).
    + eapply lookup_lt_Some. exact H.
    + eapply list_elem_of_lookup_2. exact Hcol.
Qed.

Lemma grid_alter_shape f x y (g : list (list wallpaper)) n m :
  length g = n /\ Forall (fun col => length col = m) g ->
  length (grid_alter f x y g) = n
  /\ Forall (fun col => length col = m) (grid_alter f x y g).
Proof.
  intros [Hn Hm]. unfold grid_alter. split.
  - now rewrite length_alter.
  - rewrite Forall_forall in *. intros col Hin.
    apply list_elem_of_lookup_1 in Hin as [i Hi].
    rewrite list_lookup_alter in Hi.
    destruct (decide (x = i)) as [->|Hne].
    + destruct (g !! i) as [c|] eqn:Hc; [|discriminate]. cbn in Hi.
      injection Hi as <-. rewrite length_alter. apply Hm.
      eapply list_elem_of_lookup_2. exact Hc.
    + apply Hm. eapply list_elem_of_lookup_2. exact Hi.
Qed.

Ltac sproj :=
  cbn [timer hook_set wallpaper_shutdown wallpapers cycle cycle_time
       fade_animation output set_timer set_hook_set set_wallpaper_shutdown
       set_wallpapers set_fade_animation set_output] in *.

(** * Running the monad *)

Lemma after_nil {A} (r : result (A * screen * list effect)) : after [] r = r.
Proof. destruct r as [[[a s] t]|f]; reflexivity. Qed.

Lemma after_after {A} es1 es2 (r : result (A * screen * list effect)) :
  after es1 (after es2 r) = after (es1 ++ es2) r.
Proof.
  destruct r as [[[a s] t]|f]; cbn; [|reflexivity].
  now rewrite app_assoc.
Qed.

Lemma after_Ok {A} es (a : A) s t : after es (Ok (a, s, t)) = Ok (a, s, es ++ t).
Proof. reflexivity. Qed.

Lemma bind_Ok {A B} (m : M A) (k : A -> M B) s a s1 e1 :
  m s = Ok (a, s1, e1) -> bind m k s = after e1 (k a s1).
Proof. intros H. unfold bind, after. rewrite H. reflexivity. Qed.

Lemma bind_Fault {A B} (m : M A) (k : A -> M B) s f :
  m s = Fault f -> bind m k s = Fault f.
Proof. intros H. unfold bind. rewrite H. reflexivity. Qed.

Lemma bind_ret {A B} (a : A) (k : A -> M B) s : bind (ret a) k s = k a s.
Proof. rewrite (bind_Ok _ _ s a s []) by reflexivity. apply after_nil. Qed.

Lemma bind_get {B} (k : screen -> M B) s : bind get k s = k s s.
Proof. rewrite (bind_Ok _ _ s s s []) by reflexivity. apply after_nil. Qed.

Lemma bind_modify {B} f (k : unit -> M B) s : bind (modify f) k s = k tt (f s).
Proof. rewrite (bind_Ok _ _ s tt (f s) []) by reflexivity. apply after_nil. Qed.

Lemma bind_emit {B} e (k : unit -> M B) s : bind (emit e) k s = after [e] (k tt s).
Proof. now rewrite (bind_Ok _ _ s tt s [e]). Qed.

Lemma bind_assoc {A B C} (m : M A) (k : A -> M B) (h : B -> M C) s :
  bind (bind m k) h s = bind m (fun a => bind (k a) h) s.
Proof.
  unfold bind. destruct (m s) as [[[a s1] e1]|f]; [|reflexivity].
  destruct (k a s1) as [[[b s2] e2]|f]; [|reflexivity].
  destruct (h b s2) as [[[c s3] e3]|f]; [|reflexivity].
  now rewrite app_assoc.
Qed.

Lemma get_tile_Ok x y s w :
  tile_at (wallpapers s) x y = Some w -> get_tile x y s = Ok (w, s, []).
Proof. intros H. unfold get_tile. now rewrite H. Qed.

Lemma bind_get_tile {B} x y (k : wallpaper -> M B) s w :
  tile_at (wallpapers s) x y = Some w -> bind (get_tile x y) k s = k w s.
Proof.
  intros H. rewrite (bind_Ok _ _ s w s []) by now apply get_tile_Ok.
  apply after_nil.
Qed.

Lemma modify_tile_Ok x y f s w :
  tile_at (wallpapers s) x y = Some w ->
  modify_tile x y f s = Ok (tt, set_wallpapers (grid_alter f x y (wallpapers s)) s, []).
Proof.
  intros H. unfold modify_tile. rewrite (bind_get_tile _ _ _ _ w H). reflexivity.
Qed.

Lemma bind_modify_tile {B} x y f (k : unit -> M B) s w :
  tile_at (wallpapers s) x y = Some w ->
  bind (modify_tile x y f) k s
  = k tt (set_wallpapers (grid_alter f x y (wallpapers s)) s).
Proof.
  intros H. rewrite (bind_Ok _ _ s tt _ []) by now apply (modify_tile_Ok _ _ _ _ w).
  apply after_nil.
Qed.

Lemma timer_set_timeout_Ok ms s :
  timer_set_timeout ms s = Ok (tt, set_timer (Some ms) s, [TimerSetTimeout ms]).
Proof. reflexivity. Qed.

Lemma timer_disconnect_Ok s :
  timer_disconnect s = Ok (tt, set_timer None s, [TimerDisconnect]).
Proof. reflexivity. Qed.

Lemma clean_up_Ok x y s w t :
  tile_at (wallpapers s) x y = Some w -> thread w = Some t ->
  clean_up x y s
  = Ok (tt, set_wallpapers (grid_alter cleaned x y (wallpapers s)) s,
        clean_up_calls w t).
Proof.
  intros H Ht. unfold clean_up.
  rewrite (bind_get_tile _ _ _ _ w H), bind_emit, Ht, bind_emit.
  rewrite (bind_modify_tile _ _ _ _ _ w H), bind_emit.
  erewrite bind_modify_tile
    by (cbn [wallpapers set_wallpapers]; apply tile_at_alter_eq; exact H).
  cbn [wallpapers set_wallpapers]. rewrite grid_alter_compose.
  rewrite bind_emit. cbn. reflexivity.
Qed.

(** * Loops over the grid *)

Lemma for_each_app {A} (l1 l2 : list A) body s :
  for_each (l1 ++ l2) body s = bind (for_each l1 body) (fun _ => for_each l2 body) s.
Proof.
  revert s. induction l1 as [|a l1 IH]; intros s; cbn [for_each app].
  - now rewrite bind_ret.
  - rewrite bind_assoc.
    destruct (body a s) as [[[u s1] e1]|f] eqn:E.
    + rewrite !(bind_Ok _ _ _ _ _ _ E). now rewrite IH.
    + now rewrite !(bind_Fault _ _ _ _ E).
Qed.

Lemma for_each_fmap {A B} (h : A -> B) (l : list A) body s :
  for_each (h <$> l) body s = for_each l (fun a => body (h a)) s.
Proof.
  revert s. induction l as [|a l IH]; intros s; [reflexivity|].
  cbn [fmap list_fmap for_each].
  destruct (body (h a) s) as [[[u s1] e1]|f] eqn:E.
  + rewrite !(bind_Ok _ _ _ _ _ _ E). now rewrite <- IH.
  + now rewrite !(bind_Fault _ _ _ _ E).
Qed.

Lemma for_grid_coords wsize body s :
  for_grid wsize body s
  = for_each (grid_coords wsize) (fun p => body p.1 p.2) s.
Proof.
  unfold for_grid, grid_coords.
  generalize (seq 0 (Z.to_nat (dim_width wsize))) as xs.
  intros xs. revert s.
  induction xs as [|x xs IH]; intros s; [reflexivity|].
  cbn [for_each mbind list_bind]. rewrite for_each_app.
  destruct (for_each (seq 0 (Z.to_nat (dim_height wsize))) (body x) s)
    as [[[u s1] e1]|f] eqn:E.
  + rewrite (bind_Ok _ _ _ _ _ _ E).
    erewrite bind_Ok by (rewrite for_each_fmap; exact E).
    now rewrite IH.
  + rewrite (bind_Fault _ _ _ _ E).
    erewrite bind_Fault by (rewrite for_each_fmap; exact E). reflexivity.
Qed.

Lemma elem_of_grid_coords wsize x y :
  (x, y) ∈ grid_coords wsize
  <-> (x < Z.to_nat (dim_width wsize))%nat /\ (y < Z.to_nat (dim_height wsize))%nat.
Proof.
  unfold grid_coords. rewrite list_elem_of_bind. split.
  - intros (x' & Hin & Hx'). apply list_elem_of_fmap in Hin as (y' & E & Hy').
    injection E as -> ->.
    apply elem_of_seq in Hx', Hy'. lia.
  - intros [Hx Hy]. exists x. split.
    + apply list_elem_of_fmap. exists y. split; [reflexivity|].
      apply elem_of_seq. lia.
    + apply elem_of_seq. lia.
Qed.

Lemma NoDup_grid_coords wsize : NoDup (grid_coords wsize).
Proof.
  unfold grid_coords.
  generalize (Z.to_nat (dim_height wsize)) as h. intros h.
  generalize (Z.to_nat (dim_width wsize)) as w. intros w.
  apply NoDup_bind.
  - intros x1 x2 p _ _ H1 H2.
    apply list_elem_of_fmap in H1 as (? & -> & _).
    apply list_elem_of_fmap in H2 as (? & E & _). now injection E.
  - intros x _. apply NoDup_fmap_2; [|apply NoDup_seq].
    intros y1 y2 E. now injection E.
  - apply NoDup_seq.
Qed.

Lemma list_bind_ext_elem {A B} (f g : A -> list B) (l : list A) :
  (forall a, a ∈ l -> f a = g a) -> l ≫= f = l ≫= g.
Proof.
  induction l as [|a l IH]; intros H; [reflexivity|].
  cbn [mbind list_bind]. rewrite (H a) by left.
  f_equal. apply IH. intros b Hb. apply H. now right.
Qed.

(** A loop whose body leaves the plugin object alone. *)
Lemma for_each_read_only {A} (l : list A) body (calls : A -> list effect) s :
  (forall a, a ∈ l -> body a s = Ok (tt, s, calls a)) ->
  for_each l body s = Ok (tt, s, l ≫= calls).
Proof.
  induction l as [|a l IH]; intros H; [reflexivity|].
  cbn [for_each]. rewrite (bind_Ok _ _ _ _ _ _ (H a ltac:(left))).
  rewrite IH by (intros b Hb; apply H; now right). reflexivity.
Qed.

Lemma same_shape_refl g : same_shape g g.
Proof. split; [reflexivity|auto]. Qed.

Lemma same_shape_trans g1 g2 g3 :
  same_shape g1 g2 -> same_shape g2 g3 -> same_shape g1 g3.
Proof. intros [H1 H2] [H3 H4]. split; [congruence|auto]. Qed.

Lemma same_shape_alter f x y g : same_shape g (grid_alter f x y g).
Proof.
  split.
  - unfold grid_alter. now rewrite length_alter.
  - intros m Hm. now apply (grid_alter_shape f x y g (length g) m).
Qed.

(** A loop whose body rewrites the wallpaper it visits by [f] and makes
    the calls [calls p w], [w] being the wallpaper it finds: every
    wallpaper visited is rewritten once, the others are left alone, and
    the calls are those made for the wallpapers as they were before the
    loop. *)
Lemma for_each_tiles (f : wallpaper -> wallpaper)
    (calls : nat * nat -> wallpaper -> list effect) body :
  (forall p s w, tile_at (wallpapers s) p.1 p.2 = Some w ->
     body p s = Ok (tt, set_wallpapers (grid_alter f p.1 p.2 (wallpapers s)) s,
                    calls p w)) ->
  forall (l : list (nat * nat)) s,
    NoDup l ->
    (forall p, p ∈ l -> is_Some (tile_at (wallpapers s) p.1 p.2)) ->
    exists g',
      for_each l body s
      = Ok (tt, set_wallpapers g' s,
            p ← l; from_option (calls p) [] (tile_at (wallpapers s) p.1 p.2))
      /\ (forall x y,
           tile_at g' x y
           = if decide ((x, y) ∈ l) then f <$> tile_at (wallpapers s) x y
             else tile_at (wallpapers s) x y)
      /\ same_shape (wallpapers s) g'.
Proof.
  intros Hbody l. induction l as [|[x y] l IH]; intros s Hnd Hin.
  - exists (wallpapers s). split; [|split].
    + cbn. destruct s; reflexivity.
    + intros x y. destruct (decide ((x, y) ∈ [])) as [H|_]; [|reflexivity].
      now apply elem_of_nil in H.
    + apply same_shape_refl.
  - apply NoDup_cons in Hnd as [Hnotin Hnd].
    destruct (Hin (x, y) ltac:(left)) as [w Hw]. cbn [fst snd] in Hw.
    set (s1 := set_wallpapers (grid_alter f x y (wallpapers s)) s).
    assert (Hother : forall p, p ∈ l ->
              tile_at (wallpapers s1) p.1 p.2 = tile_at (wallpapers s) p.1 p.2).
    { intros [x' y'] Hp. cbn. apply tile_at_alter_ne.
      intros E. apply Hnotin. now rewrite E. }
    destruct (IH s1 Hnd) as (g' & Hrun & Hg' & Hshape).
    { intros p Hp. rewrite Hother by exact Hp. apply Hin. now right. }
    exists g'. split; [|split].
    + cbn [for_each]. rewrite (bind_Ok _ _ _ _ _ _ (Hbody (x, y) s w Hw)).
      cbn [fst snd]. fold s1. rewrite Hrun. cbn [after mbind list_bind fst snd].
      rewrite Hw. cbn [from_option]. do 3 f_equal.
      apply list_bind_ext_elem.
      intros p Hp. now rewrite Hother.
    + intros x' y'. rewrite Hg'. cbn [wallpapers s1 set_wallpapers].
      rewrite tile_at_alter.
      destruct (decide ((x', y') ∈ l)) as [Hl|Hl].
      * rewrite (decide_True (P := (x', y') ∈ (x, y) :: l))
          by (apply elem_of_cons; now right).
        rewrite decide_False; [reflexivity|].
        intros E. apply Hnotin. now rewrite E.
      * destruct (decide ((x, y) = (x', y'))) as [E|N].
        -- rewrite (decide_True (P := (x', y') ∈ (x, y) :: l));
             [reflexivity|]. rewrite E. apply elem_of_cons. now left.
        -- rewrite (decide_False (P := (x', y') ∈ (x, y) :: l));
             [reflexivity|].
           intros H. apply elem_of_cons in H as [H|H]; [|tauto]. congruence.
    + eapply same_shape_trans; [|exact Hshape].
      subst s1. sproj. apply same_shape_alter.
Qed.

Lemma all_done_column_Ok x ys s :
  (forall y, y ∈ ys -> is_Some (tile_at (wallpapers s) x y)) ->
  all_done_column x ys s
  = Ok (forallb (fun y => downloaded_at (wallpapers s) (x, y)) ys, s, []).
Proof.
  induction ys as [|y ys IH]; intros Hin; [reflexivity|].
  destruct (Hin y ltac:(left)) as [w Hw].
  cbn [all_done_column forallb]. rewrite (bind_get_tile _ _ _ _ w Hw).
  unfold downloaded_at at 1. cbn [fst snd]. rewrite Hw. cbn [from_option].
  destruct (downloaded w); [|reflexivity].
  apply IH. intros y' Hy'. apply Hin. now right.
Qed.

Lemma all_done_columns_Ok xs ys s :
  (forall x y, x ∈ xs -> y ∈ ys -> is_Some (tile_at (wallpapers s) x y)) ->
  all_done_columns xs ys s
  = Ok (forallb (fun x => forallb (fun y => downloaded_at (wallpapers s) (x, y)) ys) xs,
        s, []).
Proof.
  induction xs as [|x xs IH]; intros Hin; [reflexivity|].
  cbn [all_done_columns forallb].
  rewrite (bind_Ok _ _ _ _ _ _ (all_done_column_Ok x ys s
             (fun y Hy => Hin x y ltac:(left) Hy))).
  rewrite after_nil.
  destruct (forallb _ ys); [|reflexivity].
  apply IH. intros x' y' Hx' Hy'. apply Hin; [now right|exact Hy'].
Qed.

Lemma forallb_grid_coords (P : nat * nat -> bool) wsize :
  forallb (fun x => forallb (fun y => P (x, y)) (seq 0 (Z.to_nat (dim_height wsize))))
    (seq 0 (Z.to_nat (dim_width wsize)))
  = forallb P (grid_coords wsize).
Proof.
  unfold grid_coords.
  induction (seq 0 (Z.to_nat (dim_width wsize))) as [|x xs IH]; [reflexivity|].
  cbn [forallb mbind list_bind]. rewrite forallb_app, IH. f_equal.
  clear IH.
  induction (seq 0 (Z.to_nat (dim_height wsize))) as [|y ys IHy]; [reflexivity|].
  cbn [forallb fmap list_fmap]. now rewrite IHy.
Qed.

Lemma all_done_scan_Ok s :
  grid_ok s ->
  all_done_scan (grid_size (output s)) s
  = Ok (all_downloaded (grid_size (output s)) (wallpapers s), s, []).
Proof.
  intros Hok. unfold all_done_scan, all_downloaded.
  rewrite all_done_columns_Ok.
  - now rewrite forallb_grid_coords.
  - intros x y Hx Hy. apply elem_of_seq in Hx, Hy.
    apply grid_ok_lookup; [exact Hok|lia|lia].
Qed.

Lemma all_downloaded_spec wsize g :
  all_downloaded wsize g = true
  <-> forall x y, (x, y) ∈ grid_coords wsize -> downloaded_at g (x, y) = true.
Proof.
  unfold all_downloaded. rewrite forallb_forall. split.
  - intros H x y Hin. apply H. now apply list_elem_of_In.
  - intros H [x y] Hin. apply H. now apply list_elem_of_In.
Qed.

(** * The paths through [download_complete] *)

Lemma grid_alter_at f x y (g : list (list wallpaper)) w :
  tile_at g x y = Some w -> grid_alter f x y g = grid_set x y (f w) g.
Proof.
  unfold tile_at, grid_set, grid_alter. intros H.
  apply list_alter_ext; [|reflexivity]. intros col Hcol.
  rewrite Hcol in H. cbn in H.
  apply list_alter_ext; [|reflexivity]. intros w' Hw'. congruence.
Qed.

Lemma grid_set_set x y w1 w2 (g : list (list wallpaper)) :
  grid_set x y w2 (grid_set x y w1 g) = grid_set x y w2 g.
Proof. unfold grid_set. now rewrite grid_alter_compose. Qed.

Lemma tile_at_grid_set_eq x y w0 w (g : list (list wallpaper)) :
  tile_at g x y = Some w0 -> tile_at (grid_set x y w g) x y = Some w.
Proof. intros H. unfold grid_set. now rewrite (tile_at_alter_eq _ _ _ _ w0). Qed.

Lemma tile_at_grid_set_ne x y x' y' w (g : list (list wallpaper)) :
  (x, y) <> (x', y') -> tile_at (grid_set x y w g) x' y' = tile_at g x' y'.
Proof. apply tile_at_alter_ne. Qed.

Lemma bind_modify_tile_at {B} x y f (k : unit -> M B) s w :
  tile_at (wallpapers s) x y = Some w ->
  bind (modify_tile x y f) k s
  = k tt (set_wallpapers (grid_set x y (f w) (wallpapers s)) s).
Proof.
  intros H. rewrite (bind_modify_tile _ _ _ _ _ w H).
  now rewrite (grid_alter_at _ _ _ _ w H).
Qed.

Lemma clean_up_at x y s w t :
  tile_at (wallpapers s) x y = Some w -> thread w = Some t ->
  clean_up x y s
  = Ok (tt, set_wallpapers (grid_set x y (cleaned w) (wallpapers s)) s,
        clean_up_calls w t).
Proof.
  intros H Ht. rewrite (clean_up_Ok _ _ _ w t H Ht).
  now rewrite (grid_alter_at _ _ _ _ w H).
Qed.

Ltac wproj :=
  cbn [sig_fd image_fp image_buf image_size geometry failed_counter
       event_source downloaded download_failed thread tex_from tex_to tex_tmp
       set_sig_fd set_image_fp set_image_buf set_image_size set_geometry
       set_failed_counter set_event_source set_downloaded set_download_failed
       set_thread set_tex_from set_tex_to set_tex_tmp cleaned] in *.

Ltac mnorm := sproj; rewrite ?grid_set_set; wproj.

Ltac find_tile :=
  sproj; rewrite ?grid_set_set;
  first [eassumption | eapply tile_at_grid_set_eq; eassumption].

Ltac mstep :=
  cbv beta iota;
  first [ rewrite bind_assoc | rewrite bind_ret | rewrite bind_get
        | rewrite bind_modify | rewrite bind_emit
        | erewrite bind_get_tile by find_tile
        | erewrite bind_modify_tile_at by find_tile ];
  mnorm.

Lemma modify_tile_at x y f s w :
  tile_at (wallpapers s) x y = Some w ->
  modify_tile x y f s
  = Ok (tt, set_wallpapers (grid_set x y (f w) (wallpapers s)) s, []).
Proof.
  intros H. rewrite (modify_tile_Ok _ _ _ _ w H).
  now rewrite (grid_alter_at _ _ _ _ w H).
Qed.

Ltac mlast :=
  try (erewrite modify_tile_at by find_tile); mnorm;
  cbn [after app]; unfold ret; cbn [after app].

Ltac mclean Ht :=
  erewrite bind_Ok by (eapply clean_up_at; [find_tile | wproj; exact Ht]);
  mnorm.

(** The handler up to that decision: the notification is read, the
    stream flushed, the resources of the fetch are released and the
    failure is counted. *)
Lemma download_complete_failed fe je fd mask x y s w t :
  Z.land mask WL_EVENT_READABLE <> 0 ->
  tile_at (wallpapers s) x y = Some w ->
  thread w = Some t ->
  wallpaper_shutdown s = false ->
  download_bad s w = true ->
  download_complete fe je fd mask x y s
  = after ([Read fd; Fflush (image_fp w)] ++ clean_up_calls w t)
      (bind (if 3 <? failed_counter w + 1
             then s' <- get ;;
                  if is_connected (timer s') then ret tt
                  else timer_set_timeout RETRY_TIMEOUT
             else update_wallpaper fe x y)
         (fun _ => modify_tile x y (set_download_failed false) ;; ret 0)
         (set_wallpapers (grid_set x y (failed_tile s w) (wallpapers s)) s)).
Proof.
  intros Hmask Hw Ht Hsh Hbad. unfold download_complete.
  apply Z.eqb_neq in Hmask. rewrite Hmask.
  repeat mstep. rewrite Ht. repeat mstep. rewrite Hsh. repeat mstep.
  unfold download_bad in Hbad. fold (geometry_stale s w).
  rewrite !after_after. cbn [app].
  unfold failed_tile.
  destruct (geometry_stale s w) eqn:Hst; cbn [orb] in *.
  - repeat mstep. cbn [orb]. repeat mstep.
    mclean Ht. repeat mstep. rewrite after_after. reflexivity.
  - repeat mstep. rewrite Hbad. repeat mstep.
    mclean Ht. repeat mstep. rewrite after_after.
    reflexivity.
Qed.

Lemma download_complete_not_readable fe je fd mask x y s :
  Z.land mask WL_EVENT_READABLE = 0 ->
  download_complete fe je fd mask x y s = Ok (0, s, []).
Proof. intros H. unfold download_complete. now rewrite H. Qed.

Lemma download_complete_no_thread fe je fd mask x y s w :
  Z.land mask WL_EVENT_READABLE <> 0 ->
  tile_at (wallpapers s) x y = Some w ->
  thread w = None ->
  download_complete fe je fd mask x y s = Ok (0, s, [Read fd]).
Proof.
  intros Hmask Hw Ht. unfold download_complete.
  apply Z.eqb_neq in Hmask. rewrite Hmask.
  repeat mstep. rewrite Ht. reflexivity.
Qed.

Lemma download_complete_shutdown fe je fd mask x y s w t :
  Z.land mask WL_EVENT_READABLE <> 0 ->
  tile_at (wallpapers s) x y = Some w ->
  thread w = Some t ->
  wallpaper_shutdown s = true ->
  download_complete fe je fd mask x y s
  = Ok (0, set_wallpapers (grid_set x y (cleaned w) (wallpapers s)) s,
        Read fd :: clean_up_calls w t).
Proof.
  intros Hmask Hw Ht Hsh. unfold download_complete.
  apply Z.eqb_neq in Hmask. rewrite Hmask.
  repeat mstep. rewrite Ht. repeat mstep. rewrite Hsh.
  mclean Ht. repeat mstep. mlast. now rewrite app_nil_r.
Qed.

(** ** [update_wallpaper] *)

Lemma update_wallpaper_live fe x y s w t :
  tile_at (wallpapers s) x y = Some w ->
  thread w = Some t ->
  update_wallpaper fe x y s
  = Ok (tt, set_timer (Some RETRY_TIMEOUT) s, [TimerSetTimeout RETRY_TIMEOUT]).
Proof.
  intros Hw Ht. unfold update_wallpaper.
  repeat mstep. rewrite Ht. reflexivity.
Qed.

Lemma update_wallpaper_started fe x y s w :
  tile_at (wallpapers s) x y = Some w ->
  thread w = None ->
  eventfd_ret fe <> -1 ->
  open_memstream_ret fe <> 0 ->
  update_wallpaper fe x y s
  = Ok (tt, set_wallpapers (grid_set x y (started_tile fe s w) (wallpapers s)) s,
        [Eventfd (eventfd_ret fe); OpenMemstream (open_memstream_ret fe);
         EventLoopAddFd (eventfd_ret fe) (add_fd_ret fe);
         ThreadCreate x y (new_thread fe)]).
Proof.
  intros Hw Ht Hfd Hfp. unfold update_wallpaper.
  apply Z.eqb_neq in Hfd, Hfp.
  repeat mstep. rewrite Ht. repeat mstep. rewrite Hfd. repeat mstep.
  rewrite Hfp. repeat mstep. mlast. reflexivity.
Qed.

Lemma update_wallpaper_no_eventfd fe x y s w :
  tile_at (wallpapers s) x y = Some w ->
  thread w = None ->
  eventfd_ret fe = -1 ->
  update_wallpaper fe x y s
  = Ok (tt,
        set_timer None
          (set_wallpapers (grid_set x y (set_sig_fd (-1) w) (wallpapers s)) s),
        [Eventfd (-1); TimerDisconnect]).
Proof.
  intros Hw Ht Hfd. unfold update_wallpaper.
  repeat mstep. rewrite Ht. repeat mstep. rewrite Hfd.
  reflexivity.
Qed.

Lemma update_wallpaper_no_stream fe x y s w :
  tile_at (wallpapers s) x y = Some w ->
  thread w = None ->
  eventfd_ret fe <> -1 ->
  open_memstream_ret fe = 0 ->
  update_wallpaper fe x y s
  = Ok (tt,
        set_timer None
          (set_wallpapers
             (grid_set x y
                (set_image_buf [] (set_image_fp 0 (set_sig_fd (eventfd_ret fe) w)))
                (wallpapers s)) s),
        [Eventfd (eventfd_ret fe); OpenMemstream 0; TimerDisconnect;
         Close (eventfd_ret fe)]).
Proof.
  intros Hw Ht Hfd Hfp. unfold update_wallpaper.
  apply Z.eqb_neq in Hfd.
  repeat mstep. rewrite Ht. repeat mstep. rewrite Hfd. repeat mstep.
  rewrite Hfp. reflexivity.
Qed.

(** The failure branch when it retries at once and the fetch starts. *)
Lemma download_complete_retried fe je fd mask x y s w t :
  Z.land mask WL_EVENT_READABLE <> 0 ->
  tile_at (wallpapers s) x y = Some w ->
  thread w = Some t ->
  wallpaper_shutdown s = false ->
  download_bad s w = true ->
  failed_counter w + 1 <= 3 ->
  eventfd_ret fe <> -1 ->
  open_memstream_ret fe <> 0 ->
  download_complete fe je fd mask x y s
  = Ok (0,
        set_wallpapers
          (grid_set x y
             (set_download_failed false (started_tile fe s (failed_tile s w)))
             (wallpapers s)) s,
        [Read fd; Fflush (image_fp w)] ++ clean_up_calls w t
        ++ [Eventfd (eventfd_ret fe); OpenMemstream (open_memstream_ret fe);
            EventLoopAddFd (eventfd_ret fe) (add_fd_ret fe);
            ThreadCreate x y (new_thread fe)]).
Proof.
  intros Hm Hw Ht Hsh Hbad Hn Hfd Hfp.
  rewrite (download_complete_failed fe je fd mask x y s w t) by assumption.
  destruct (Z.ltb_spec 3 (failed_counter w + 1)) as [Hgt|_]; [lia|].
  set (s1 := set_wallpapers (grid_set x y (failed_tile s w) (wallpapers s)) s).
  assert (Hw1 : tile_at (wallpapers s1) x y = Some (failed_tile s w))
    by (subst s1; find_tile).
  rewrite (bind_Ok _ _ _ _ _ _
             (update_wallpaper_started fe x y s1 _ Hw1 eq_refl Hfd Hfp)).
  subst s1. repeat mstep. mlast. rewrite ?app_nil_r. reflexivity.
Qed.

(** ** The success branch *)

Lemma texture_from_jpeg_fp_Ok je old s :
  jpeg_outcome je <> JPEG_FATAL ->
  texture_from_jpeg_fp je (default new_texture old) s
  = Ok ((true, decoded_texture je old), s, decode_calls je old).
Proof.
  intros Hje. unfold texture_from_jpeg_fp, decoded_texture, decode_calls.
  cbn [tex tex_width tex_height].
  destruct (jpeg_outcome je); [| |congruence];
    destruct (tex (default new_texture old) =? GLuint_minus_1) eqn:E;
    cbv [bind emit ret]; unfold decoded_texture; rewrite ?E;
    cbn [tex tex_width tex_height app]; reflexivity.
Qed.

Lemma texture_from_jpeg_fp_fatal je t0 s :
  jpeg_outcome je = JPEG_FATAL ->
  texture_from_jpeg_fp je t0 s = Fault ProcessExit.
Proof. intros H. unfold texture_from_jpeg_fp. now rewrite H. Qed.

Lemma download_complete_succeeded fe je fd mask x y s w t :
  Z.land mask WL_EVENT_READABLE <> 0 ->
  tile_at (wallpapers s) x y = Some w ->
  thread w = Some t ->
  wallpaper_shutdown s = false ->
  download_bad s w = false ->
  jpeg_outcome je <> JPEG_FATAL ->
  download_complete fe je fd mask x y s
  = after ([Read fd; Fflush (image_fp w)] ++ decode_calls je (tex_tmp w))
      (bind (all_done_scan (grid_size (output s)))
         (fun all_done =>
            (if all_done then commit (grid_size (output s)) else ret tt) ;;
            clean_up x y ;; ret 0)
         (set_wallpapers (grid_set x y (completed_tile je w) (wallpapers s)) s)).
Proof.
  intros Hmask Hw Ht Hsh Hbad Hje. unfold download_complete.
  apply Z.eqb_neq in Hmask. rewrite Hmask.
  repeat mstep. rewrite Ht. repeat mstep. rewrite Hsh. repeat mstep.
  unfold download_bad in Hbad. fold (geometry_stale s w).
  apply orb_false_elim in Hbad as [Hbad Hsz].
  apply orb_false_elim in Hbad as [Hst Hdf].
  rewrite Hst. repeat mstep. rewrite Hdf, Hsz. cbn [orb].
  repeat mstep. rewrite !after_after. cbn [app].
  unfold completed_tile, get_workspace_grid_size.
  destruct (tex_tmp w) as [old|] eqn:Htmp.
  - repeat mstep.
    erewrite bind_Ok by (apply texture_from_jpeg_fp_Ok; exact Hje).
    repeat mstep. rewrite after_after. rewrite ?Htmp. reflexivity.
  - repeat mstep.
    erewrite bind_Ok
      by (apply (texture_from_jpeg_fp_Ok je (Some new_texture)); exact Hje).
    repeat mstep. rewrite after_after. reflexivity.
Qed.

Lemma download_complete_fatal fe je fd mask x y s w t :
  Z.land mask WL_EVENT_READABLE <> 0 ->
  tile_at (wallpapers s) x y = Some w ->
  thread w = Some t ->
  wallpaper_shutdown s = false ->
  download_bad s w = false ->
  jpeg_outcome je = JPEG_FATAL ->
  download_complete fe je fd mask x y s = Fault ProcessExit.
Proof.
  intros Hmask Hw Ht Hsh Hbad Hje. unfold download_complete.
  apply Z.eqb_neq in Hmask. rewrite Hmask.
  repeat mstep. rewrite Ht. repeat mstep. rewrite Hsh. repeat mstep.
  unfold download_bad in Hbad. fold (geometry_stale s w).
  apply orb_false_elim in Hbad as [Hbad Hsz].
  apply orb_false_elim in Hbad as [Hst Hdf].
  rewrite Hst. repeat mstep. rewrite Hdf, Hsz. cbn [orb].
  repeat mstep.
  destruct (tex_tmp w) as [old|] eqn:Htmp; repeat mstep;
    erewrite bind_Fault by (apply texture_from_jpeg_fp_fatal; exact Hje);
    reflexivity.
Qed.

(** ** The commit *)

Lemma grid_ok_set_wallpapers s g :
  length g = length (wallpapers s) ->
  Forall (fun col => length col = Z.to_nat (dim_height (grid_size (output s)))) g ->
  grid_ok s -> grid_ok (set_wallpapers g s).
Proof. intros Hl Hf [H1 H2]. split; sproj; [congruence|exact Hf]. Qed.

Lemma grid_ok_grid_set s x y w :
  grid_ok s -> grid_ok (set_wallpapers (grid_set x y w (wallpapers s)) s).
Proof.
  intros [H1 H2].
  destruct (grid_alter_shape (fun _ => w) x y (wallpapers s) _ _ (conj H1 H2))
    as [H3 H4].
  split; sproj; assumption.
Qed.

Lemma bind_nil {A B} (f : A -> list B) (l : list A) :
  (forall a, f a = []) -> l ≫= f = [].
Proof.
  intros H. induction l as [|a l IH]; [reflexivity|].
  cbn [mbind list_bind]. now rewrite H, IH.
Qed.

Lemma damage_wallpapers_Ok s :
  grid_ok s ->
  damage_wallpapers s
  = Ok (tt, s, grid_coords (grid_size (output s)) ≫= (fun p => [Damage p.1 p.2])).
Proof.
  intros Hok. unfold damage_wallpapers. rewrite bind_get.
  unfold get_workspace_grid_size. rewrite for_grid_coords.
  apply for_each_read_only. intros [x y] Hin.
  apply elem_of_grid_coords in Hin as [Hx Hy].
  destruct (grid_ok_lookup s x y Hok Hx Hy) as [w Hw].
  cbn [fst snd]. now rewrite (bind_get_tile _ _ _ _ w Hw).
Qed.

Lemma commit_Ok s :
  grid_ok s ->
  exists s',
    commit (grid_size (output s)) s = Ok (tt, s', commit_calls s)
    /\ (forall x y, tile_at (wallpapers s') x y = swap_in <$> tile_at (wallpapers s) x y)
    /\ timer s' = (if cycle s then Some (cycle_time s) else timer s)
    /\ hook_set s' = true
    /\ fade_animation s' = (0, 1)
    /\ wallpaper_shutdown s' = wallpaper_shutdown s
    /\ cycle s' = cycle s /\ cycle_time s' = cycle_time s
    /\ output s' = output s
    /\ grid_ok s'.
Proof.
  intros Hok. unfold commit, commit_calls.
  destruct (for_each_tiles swap_in (fun _ _ => [])
              (fun p => modify_tile p.1 p.2 swap_in)
              (fun p s w H => modify_tile_Ok p.1 p.2 swap_in s w H)
              (grid_coords (grid_size (output s))) s
              (NoDup_grid_coords _)) as (g' & Hrun & Hg' & Hshape).
  { intros [x y] Hin. apply elem_of_grid_coords in Hin as [Hx Hy].
    now apply grid_ok_lookup. }
  assert (Hswap : forall x y, tile_at g' x y = swap_in <$> tile_at (wallpapers s) x y).
  { intros x y. rewrite Hg'.
    destruct (decide ((x, y) ∈ grid_coords (grid_size (output s)))) as [Hin|Hout];
      [reflexivity|].
    destruct (tile_at (wallpapers s) x y) as [w|] eqn:Hw; [|reflexivity].
    exfalso. apply Hout. apply elem_of_grid_coords. now apply grid_ok_range with w. }
  assert (Hok' : grid_ok (set_wallpapers g' s)).
  { destruct Hok as [H1 H2]. destruct Hshape as [H3 H4].
    split; sproj; [congruence|now apply H4]. }
  erewrite bind_Ok by (rewrite for_grid_coords; exact Hrun).
  rewrite bind_nil, after_nil
    by (intros p; now destruct (tile_at (wallpapers s) p.1 p.2)).
  repeat mstep.
  unfold activate. repeat mstep.
  assert (Hfacts : forall s' : screen,
            wallpapers s' = g' -> output s' = output s ->
            (forall x y, tile_at (wallpapers s') x y
                         = swap_in <$> tile_at (wallpapers s) x y)
            /\ grid_ok s').
  { intros s' Hg Ho. split; [now rewrite Hg|].
    unfold grid_ok in *. now rewrite Hg, Ho. }
  destruct (hook_set s) eqn:Hhook.
  - repeat mstep. destruct (cycle s) eqn:Hcy.
    + eexists. split; [reflexivity|].
      destruct (Hfacts (set_timer (Some (cycle_time s))
                          (set_fade_animation (0, 1) (set_wallpapers g' s))))
        as [F1 F2]; [reflexivity|reflexivity|].
      sproj. rewrite Hhook. tauto.
    + eexists. split; [reflexivity|].
      destruct (Hfacts (set_fade_animation (0, 1) (set_wallpapers g' s)))
        as [F1 F2]; [reflexivity|reflexivity|].
      sproj. rewrite Hhook. tauto.
  - repeat mstep.
    erewrite bind_Ok.
    2:{ apply damage_wallpapers_Ok.
        apply (Hfacts (set_fade_animation (0, 1) (set_wallpapers g' s)));
          reflexivity. }
    sproj. repeat mstep. rewrite !after_after.
    destruct (cycle s) eqn:Hcy.
    + eexists. split; [reflexivity|].
      destruct (Hfacts (set_timer (Some (cycle_time s))
                          (set_hook_set true
                             (set_fade_animation (0, 1) (set_wallpapers g' s)))))
        as [F1 F2]; [reflexivity|reflexivity|].
      sproj. tauto.
    + eexists. split; [cbn [after app ret]; rewrite app_nil_r; reflexivity|].
      destruct (Hfacts (set_hook_set true
                          (set_fade_animation (0, 1) (set_wallpapers g' s))))
        as [F1 F2]; [reflexivity|reflexivity|].
      sproj. tauto.
Qed.

(** The success branch as a whole.  [s1] is the plugin object when the
    grid is scanned: the completing wallpaper is marked [downloaded] and
    holds the new texture in [tmp]. *)
Lemma download_complete_success fe je fd mask x y s w t :
  grid_ok s ->
  Z.land mask WL_EVENT_READABLE <> 0 ->
  tile_at (wallpapers s) x y = Some w ->
  thread w = Some t ->
  wallpaper_shutdown s = false ->
  download_bad s w = false ->
  jpeg_outcome je <> JPEG_FATAL ->
  let s1 := set_wallpapers (grid_set x y (completed_tile je w) (wallpapers s)) s in
  let all_done := all_downloaded (grid_size (output s)) (wallpapers s1) in
  exists s',
    download_complete fe je fd mask x y s
    = Ok (0, s',
          [Read fd; Fflush (image_fp w)] ++ decode_calls je (tex_tmp w)
          ++ (if all_done then commit_calls s else [])
          ++ clean_up_calls w t)
    /\ wallpaper_shutdown s' = false
    /\ cycle s' = cycle s /\ cycle_time s' = cycle_time s /\ output s' = output s
    /\ grid_ok s'
    /\ if all_done
       then (forall x' y',
               tile_at (wallpapers s') x' y'
               = (fun w1 => if decide ((x', y') = (x, y))
                            then cleaned (swap_in w1) else swap_in w1)
                 <$> tile_at (wallpapers s1) x' y')
            /\ timer s' = (if cycle s then Some (cycle_time s) else timer s)
            /\ hook_set s' = true
            /\ fade_animation s' = (0, 1)
       else s' = set_wallpapers
                   (grid_set x y (cleaned (completed_tile je w)) (wallpapers s)) s.
Proof.
  intros Hok Hmask Hw Ht Hsh Hbad Hje s1 all_done.
  rewrite (download_complete_succeeded fe je fd mask x y s w t) by assumption.
  fold s1.
  assert (Hok1 : grid_ok s1) by apply (grid_ok_grid_set s x y _ Hok).
  assert (Hw1 : tile_at (wallpapers s1) x y = Some (completed_tile je w))
    by (subst s1; find_tile).
  rewrite (bind_Ok _ _ _ _ _ _ (all_done_scan_Ok s1 Hok1)), after_nil.
  change (all_downloaded (grid_size (output s1)) (wallpapers s1)) with all_done.
  destruct all_done eqn:Hall.
  - destruct (commit_Ok s1 Hok1)
      as (s2 & Hc & Htiles & Htimer & Hhook & Hfade & Hsh2 & Hcy & Hct & Hout & Hok2).
    change (grid_size (output s)) with (grid_size (output s1)).
    rewrite (bind_Ok _ _ _ _ _ _ Hc).
    assert (Hw2 : tile_at (wallpapers s2) x y = Some (swap_in (completed_tile je w)))
      by (rewrite Htiles, Hw1; reflexivity).
    erewrite bind_Ok by (eapply clean_up_at; [exact Hw2|exact Ht]).
    mlast. rewrite app_nil_r.
    eexists. split; [reflexivity|]. sproj.
    split; [rewrite Hsh2; exact Hsh|]. split; [exact Hcy|]. split; [exact Hct|].
    split; [exact Hout|].
    split; [apply grid_ok_grid_set; exact Hok2|].
    split; [|tauto].
    intros x' y'. destruct (decide ((x', y') = (x, y))) as [E|N].
    + injection E as -> ->.
      rewrite (tile_at_grid_set_eq _ _ _ _ _ Hw2), Hw1. reflexivity.
    + rewrite tile_at_grid_set_ne by congruence.
      rewrite Htiles. destruct (tile_at (wallpapers s1) x' y'); reflexivity.
  - subst s1. repeat mstep. mclean Ht. repeat mstep. mlast. rewrite ?app_nil_r.
    eexists. split; [reflexivity|]. sproj.
    split; [exact Hsh|]. do 3 (split; [reflexivity|]).
    split; [|reflexivity].
    apply (grid_ok_grid_set s x y _ Hok).
Qed.

(** ** Teardown *)

Lemma fini_body p s w :
  tile_at (wallpapers s) p.1 p.2 = Some w ->
  (wp <- get_tile p.1 p.2 ;;
   match thread wp with
   | Some _ => clean_up p.1 p.2
   | None => ret tt
   end ;;
   modify_tile p.1 p.2
     (fun w => set_tex_tmp None (set_tex_to None (set_tex_from None w))) ;;
   emit (ViewClose p.1 p.2)) s
  = Ok (tt, set_wallpapers (grid_alter fini_tile p.1 p.2 (wallpapers s)) s,
        fini_calls p w).
Proof.
  destruct p as [x y]. cbn [fst snd]. intros Hw.
  rewrite (grid_alter_at _ _ _ _ w Hw). unfold fini_tile, fini_calls.
  repeat mstep. destruct (thread w) as [t|] eqn:Ht.
  - mclean Ht. repeat mstep. reflexivity.
  - repeat mstep. reflexivity.
Qed.

Lemma fini_Ok s :
  grid_ok s ->
  exists s' calls,
    fini s = Ok (tt, s', calls)
    /\ wallpaper_shutdown s' = true
    /\ timer s' = None
    /\ output s' = output s
    /\ grid_ok s'
    /\ (forall x y, tile_at (wallpapers s') x y = fini_tile <$> tile_at (wallpapers s) x y)
    /\ (forall x y w, tile_at (wallpapers s) x y = Some w ->
          forall e, In e (fini_calls (x, y) w) -> In e calls).
Proof.
  intros Hok. unfold fini, deactivate.
  set (s0 := set_wallpaper_shutdown true
               (set_timer None (if hook_set s then set_hook_set false s else s))).
  assert (Hg0 : wallpapers s0 = wallpapers s) by (subst s0; now destruct (hook_set s)).
  assert (Ho0 : output s0 = output s) by (subst s0; now destruct (hook_set s)).
  assert (Hok0 : grid_ok s0) by (unfold grid_ok in *; now rewrite Hg0, Ho0).
  destruct (for_each_tiles fini_tile fini_calls _ fini_body
              (grid_coords (grid_size (output s0))) s0 (NoDup_grid_coords _))
    as (g' & Hrun & Hg' & Hshape).
  { intros [x y] Hin. apply elem_of_grid_coords in Hin as [Hx Hy].
    now apply grid_ok_lookup. }
  assert (Htiles : forall x y, tile_at g' x y = fini_tile <$> tile_at (wallpapers s) x y).
  { intros x y. rewrite Hg', Hg0.
    destruct (decide ((x, y) ∈ grid_coords (grid_size (output s0)))) as [Hin|Hout];
      [reflexivity|].
    destruct (tile_at (wallpapers s) x y) as [w|] eqn:Hw; [|reflexivity].
    exfalso. apply Hout. apply elem_of_grid_coords. rewrite Ho0.
    now apply grid_ok_range with w. }
  assert (Hloop :
    for_grid (get_workspace_grid_size (output s0))
      (fun x y =>
         wp <- get_tile x y ;;
         match thread wp with
         | Some _ => clean_up x y
         | None => ret tt
         end ;;
         modify_tile x y
           (fun w => set_tex_tmp None (set_tex_to None (set_tex_from None w))) ;;
         emit (ViewClose x y)) s0
    = Ok (tt, set_wallpapers g' s0,
          p ← grid_coords (grid_size (output s0));
          from_option (fini_calls p) [] (tile_at (wallpapers s0) p.1 p.2)))
    by (rewrite for_grid_coords; exact Hrun).
  assert (Hrest :
    (for_grid (get_workspace_grid_size (output s))
       (fun x y =>
          wp <- get_tile x y ;;
          match thread wp with
          | Some _ => clean_up x y
          | None => ret tt
          end ;;
          modify_tile x y
            (fun w => set_tex_tmp None (set_tex_to None (set_tex_from None w))) ;;
          emit (ViewClose x y)) ;;
     emit DamageWhole) s0
    = Ok (tt, set_wallpapers g' s0,
          (p ← grid_coords (grid_size (output s0));
           from_option (fini_calls p) [] (tile_at (wallpapers s0) p.1 p.2))
          ++ [DamageWhole])).
  { rewrite <- Ho0 at 1. rewrite (bind_Ok _ _ _ _ _ _ Hloop). reflexivity. }
  assert (Hfacts :
    wallpaper_shutdown (set_wallpapers g' s0) = true
    /\ timer (set_wallpapers g' s0) = None
    /\ output (set_wallpapers g' s0) = output s
    /\ grid_ok (set_wallpapers g' s0)
    /\ (forall x y, tile_at (wallpapers (set_wallpapers g' s0)) x y
                    = fini_tile <$> tile_at (wallpapers s) x y)).
  { sproj. split; [subst s0; reflexivity|]. split; [subst s0; reflexivity|].
    split; [exact Ho0|]. split; [|exact Htiles].
    destruct Hok0 as [H1 H2], Hshape as [H3 H4].
    split; sproj; [congruence|now apply H4]. }
  assert (Hcalls : forall x y w, tile_at (wallpapers s) x y = Some w ->
            forall e, In e (fini_calls (x, y) w) ->
            In e (p ← grid_coords (grid_size (output s0));
                  from_option (fini_calls p) [] (tile_at (wallpapers s0) p.1 p.2))).
  { intros x y w Hw e He. apply list_elem_of_In, list_elem_of_bind.
    exists (x, y). cbn [fst snd]. rewrite Hg0, Hw. split.
    - now apply list_elem_of_In.
    - apply elem_of_grid_coords. rewrite Ho0. now apply grid_ok_range with w. }
  destruct (hook_set s) eqn:Hhook.
  - repeat mstep. rewrite Hhook. unfold timer_disconnect. repeat mstep.
    change (set_wallpaper_shutdown true (set_timer None (set_hook_set false s)))
      with s0.
    rewrite Hrest. cbn [after app].
    eexists _, _. split; [reflexivity|].
    destruct Hfacts as (F1 & F2 & F3 & F4 & F5).
    repeat (split; [assumption|]).
    intros x y w Hw e He. do 3 right.
    apply in_or_app. left. now apply (Hcalls x y w).
  - repeat mstep. rewrite Hhook. unfold timer_disconnect. repeat mstep.
    change (set_wallpaper_shutdown true (set_timer None s)) with s0.
    rewrite Hrest. cbn [after app].
    eexists _, _. split; [reflexivity|].
    destruct Hfacts as (F1 & F2 & F3 & F4 & F5).
    repeat (split; [assumption|]).
    intros x y w Hw e He. do 2 right.
    apply in_or_app. left. now apply (Hcalls x y w).
Qed.

(** * The fetch-start guard *)

(** C10.  [update_wallpaper] on a wallpaper whose thread handle is still
    live arms the shared timer with [RETRY_TIMEOUT] = 1000 ms and does
    nothing else: the only call is the one to the timer (no [eventfd], no
    [open_memstream], no new thread), and the plugin object is the one
    before but for the timer, so every member of every wallpaper is
    unchanged and the wallpaper keeps its one worker. *)
Theorem update_wallpaper_live_thread_only_arms_timer fe x y s w t :
  tile_at (wallpapers s) x y = Some w ->
  thread w = Some t ->
  RETRY_TIMEOUT = 1000
  /\ update_wallpaper fe x y s
     = Ok (tt, set_timer (Some RETRY_TIMEOUT) s, [TimerSetTimeout RETRY_TIMEOUT])
  /\ wallpapers (set_timer (Some RETRY_TIMEOUT) s) = wallpapers s
  /\ tile_at (wallpapers (set_timer (Some RETRY_TIMEOUT) s)) x y = Some w
  /\ timer (set_timer (Some RETRY_TIMEOUT) s) = Some 1000.
Proof.
  intros Hw Ht. split; [reflexivity|]. split.
  - now apply update_wallpaper_live with w t.
  - sproj. repeat split. exact Hw.
Qed.

(** * The commit *)

(** C3.  Right after the commit block every wallpaper of the grid has in
    [from] the texture it had in [to], in [to] the one it had in [tmp],
    an empty [tmp], and its two completion flags cleared. *)
Theorem commit_rotates_every_wallpaper s :
  grid_ok s ->
  exists s',
    commit (get_workspace_grid_size (output s)) s = Ok (tt, s', commit_calls s)
    /\ forall x y w,
         tile_at (wallpapers s) x y = Some w ->
         exists w',
           tile_at (wallpapers s') x y = Some w'
           /\ tex_from w' = tex_to w
           /\ tex_to w' = tex_tmp w
           /\ tex_tmp w' = None
           /\ downloaded w' = false
           /\ download_failed w' = false.
Proof.
  intros Hok. destruct (commit_Ok s Hok) as (s' & Hc & Htiles & _).
  exists s'. split; [exact Hc|].
  intros x y w Hw. exists (swap_in w). split.
  - now rewrite Htiles, Hw.
  - repeat split.
Qed.

(** * The worker's actions *)

Lemma sig_writes_app a b : sig_writes (a ++ b) = (sig_writes a + sig_writes b)%nat.
Proof. unfold sig_writes. now rewrite List.filter_app, length_app. Qed.

Lemma deliver_no_sig_write wp pieces : sig_writes (deliver wp pieces) = 0%nat.
Proof.
  induction pieces as [|[data sh] rest IH]; [reflexivity|].
  cbn [deliver]. unfold write_cb.
  destruct sh; [now destruct (fst _ =? _)|].
  destruct (image_fp wp =? 0); [now destruct (fst _ =? _)|].
  cbn [fst snd]. rewrite Z.eqb_refl. cbn [app]. exact IH.
Qed.

Lemma transfer_loop_no_sig_write wp env fuel :
  forall i repeats chunks acts n,
    transfer_loop fuel wp env i repeats chunks = Some (acts, n) ->
    sig_writes acts = 0%nat.
Proof.
  induction fuel as [|fuel IH]; intros i repeats chunks acts n H; [discriminate|].
  rewrite transfer_loop_S in H. cbv zeta in H.
  assert (Hturn : forall tail, sig_writes tail = 0%nat ->
            sig_writes (deliver wp (delivered (env i))
                        ++ [CurlMultiPerform (perform_mc (env i)) (still_running (env i))]
                        ++ tail) = 0%nat).
  { intros tail Htail. now rewrite !sig_writes_app, deliver_no_sig_write, Htail. }
  destruct (negb (perform_mc (env i) =? CURLM_OK)).
  { injection H as <- <-. rewrite <- app_assoc. now apply Hturn. }
  destruct (negb (wait_mc (env i) =? CURLM_OK)).
  { injection H as <- <-. rewrite <- !app_assoc. now apply Hturn. }
  assert (Hus : sig_writes (if (numfds (env i) =? 0) && (1 <? repeats + 1)
                            then [Usleep 100000] else []) = 0%nat)
    by now destruct ((numfds (env i) =? 0) && (1 <? repeats + 1)).
  destruct (still_running (env i) =? 0).
  { injection H as <- <-. rewrite <- !app_assoc. apply Hturn.
    cbn [app]. exact Hus. }
  destruct (negb (shutdown_seen (env i))).
  - destruct (transfer_loop fuel wp env (S i) _ chunks) as [[rest n']|] eqn:E;
      [|discriminate].
    injection H as <- <-. rewrite <- !app_assoc. apply Hturn.
    cbn [app]. change (CurlMultiWait _ _ :: ?l) with ([CurlMultiWait (wait_mc (env i)) (numfds (env i))] ++ l).
    rewrite !sig_writes_app, Hus, (IH _ _ _ _ _ E). reflexivity.
  - destruct (chunks <? 10).
    + destruct (transfer_loop fuel wp env (S i) _ (chunks + 1)) as [[rest n']|] eqn:E;
        [|discriminate].
      injection H as <- <-. rewrite <- !app_assoc. apply Hturn.
      cbn [app]. change (CurlMultiWait _ _ :: ?l) with ([CurlMultiWait (wait_mc (env i)) (numfds (env i))] ++ l).
      rewrite !sig_writes_app, Hus, (IH _ _ _ _ _ E). reflexivity.
    + injection H as <- <-. rewrite <- !app_assoc. apply Hturn.
      cbn [app]. exact Hus.
Qed.

Lemma worker_writes_frame acts : forall w, worker_frame w (worker_writes acts w).
Proof.
  unfold worker_writes.
  induction acts as [|a acts IH]; intros w; [repeat split|].
  cbn [fold_left]. specialize (IH (worker_write w a)).
  unfold worker_frame in *.
  destruct a; cbn [worker_write] in *; wproj; exact IH.
Qed.

(** C6.  Let turn [s] of the transfer loop be one from which on every
    test of the loop condition reads [wallpaper_shutdown] as set.  Then
    the loop is left, whatever libcurl reports: [s + 11] turns of fuel
    give a result, and every run ends after at most [s + 11] turns, that
    is at most 10 turns after turn [s].  A write callback that reads the
    flag as set takes no data. *)
Theorem shutdown_bounds_the_transfer_loop wp env s :
  (forall j, (s <= j)%nat -> shutdown_seen (env j) = true) ->
  (exists acts n,
     transfer_loop (s + 11) wp env 0 0 0 = Some (acts, n)
     /\ (n <= s + 1 + 10)%nat)
  /\ (forall fuel acts n,
        transfer_loop fuel wp env 0 0 0 = Some (acts, n) -> (n <= s + 1 + 10)%nat)
  /\ (forall data, write_cb wp true data = (0, [])).
Proof.
  intros Hsh.
  destruct (transfer_loop_shutdown_from wp env s 0 0 0) as (acts & n & E & Hn);
    [lia | intros j Hj; apply Hsh; lia |].
  split; [|split].
  - exists acts, n. split; [exact E|lia].
  - intros fuel acts' n' E'.
    apply (transfer_loop_fuel_mono wp env _ _ _ _ _ (s + 11)%nat) in E'.
    apply (transfer_loop_fuel_mono wp env _ _ _ _ _ fuel) in E.
    rewrite (Nat.add_comm (s + 11) fuel) in E. rewrite E in E'.
    injection E' as _ <-. lia.
  - reflexivity.
Qed.

(** C4.  A run of [curl_download] that returns has written its eventfd
    exactly once, as its last action, and has written nothing of its
    wallpaper but the stream and [download_failed]; applied to the plugin
    object, its writes leave every other wallpaper and every member of the
    screen as they were.  The run does return when the transfer ends
    (nothing left running, or an error of libcurl: [turn_ends]) and when
    the worker is shut down. *)
Theorem curl_download_notifies_exactly_once wp tr :
  (forall fuel acts,
     curl_download fuel wp tr = Some acts ->
     sig_writes acts = 1%nat
     /\ last acts = Some (WriteSigFd (sig_fd wp))
     /\ (forall w, worker_frame w (worker_writes acts w))
     /\ (forall x y s,
           timer (worker_done acts x y s) = timer s
           /\ hook_set (worker_done acts x y s) = hook_set s
           /\ wallpaper_shutdown (worker_done acts x y s) = wallpaper_shutdown s
           /\ cycle (worker_done acts x y s) = cycle s
           /\ cycle_time (worker_done acts x y s) = cycle_time s
           /\ fade_animation (worker_done acts x y s) = fade_animation s
           /\ output (worker_done acts x y s) = output s
           /\ forall x' y', (x, y) <> (x', y') ->
                tile_at (wallpapers (worker_done acts x y s)) x' y'
                = tile_at (wallpapers s) x' y'))
  /\ (forall k, turn_ends (steps tr k) = true ->
        exists acts, curl_download (S k) wp tr = Some acts)
  /\ (forall s, (forall j, (s <= j)%nat -> shutdown_seen (steps tr j) = true) ->
        exists acts, curl_download (s + 11) wp tr = Some acts).
Proof.
  split; [|split].
  - intros fuel acts H. unfold curl_download in H.
    destruct (transfer_loop fuel wp (steps tr) 0 0 0) as [[loop n]|] eqn:E;
      [|discriminate].
    injection H as <-.
    split; [|split; [|split]].
    + change (CurlSetup ?a ?b ?c :: ?l) with ([CurlSetup a b c] ++ l).
      rewrite !sig_writes_app, (transfer_loop_no_sig_write _ _ _ _ _ _ _ _ E).
      reflexivity.
    + rewrite app_comm_cons.
      change [CurlCleanup; WriteSigFd (sig_fd wp)]
        with ([CurlCleanup] ++ [WriteSigFd (sig_fd wp)]).
      rewrite app_assoc. apply last_snoc.
    + intros w. apply worker_writes_frame.
    + intros x y s. unfold worker_done. sproj. repeat (split; [reflexivity|]).
      intros x' y' Hne. now apply tile_at_alter_ne.
  - intros k Hk.
    destruct (transfer_loop_ends_by wp (steps tr) k 0 0 0 Hk) as (acts & n & E & _).
    unfold curl_download. rewrite E. eauto.
  - intros s Hs.
    destruct (transfer_loop_shutdown_from wp (steps tr) s 0 0 0)
      as (acts & n & E & _); [lia | intros j Hj; apply Hs; lia |].
    unfold curl_download. rewrite E. eauto.
Qed.

(** * The invariant of the fetch cycle *)

Lemma fetch_inv_update_tile s x y w' tm :
  fetch_inv s ->
  (tm = timer s \/ tm = None \/ tm = Some RETRY_TIMEOUT) ->
  (is_Some (thread w') ->
   downloaded w' = false /\ 0 <= failed_counter w' <= 3
   /\ (tm = None \/ tm = Some RETRY_TIMEOUT)) ->
  forall s',
    wallpapers s' = grid_set x y w' (wallpapers s) ->
    timer s' = tm ->
    output s' = output s ->
    fetch_inv s'.
Proof.
  intros [Hok Hinv] Htm Hw' s' Hg Ht Ho. split.
  - destruct (grid_ok_grid_set s x y w' Hok) as [H1 H2]. sproj.
    unfold grid_ok. now rewrite Hg, Ho.
  - intros x' y' w Hw Hlive. rewrite Hg in Hw. rewrite Ht.
    destruct (decide ((x, y) = (x', y'))) as [E|N].
    + injection E as <- <-.
      unfold grid_set in Hw. rewrite tile_at_alter in Hw.
      rewrite decide_True in Hw by reflexivity.
      destruct (tile_at (wallpapers s) x y); [|discriminate].
      injection Hw as <-. now apply Hw'.
    + rewrite tile_at_grid_set_ne in Hw by exact N.
      destruct (Hinv x' y' w Hw Hlive) as (H1 & H2 & H3).
      split; [exact H1|]. split; [exact H2|].
      destruct Htm as [->|[->| ->]]; auto.
Qed.

Lemma fetch_inv_pointwise (f : wallpaper -> wallpaper) s s' :
  fetch_inv s ->
  (forall w, thread (f w) = thread w /\ downloaded (f w) = downloaded w
             /\ failed_counter (f w) = failed_counter w) ->
  grid_ok s' ->
  timer s' = timer s ->
  (forall x y, tile_at (wallpapers s') x y = f <$> tile_at (wallpapers s) x y) ->
  fetch_inv s'.
Proof.
  intros [Hok Hinv] Hf Hok' Ht Htiles. split; [exact Hok'|].
  intros x y w' Hw' Hlive. rewrite Htiles in Hw'.
  destruct (tile_at (wallpapers s) x y) as [w|] eqn:Hw; [|discriminate].
  injection Hw' as <-. destruct (Hf w) as (F1 & F2 & F3).
  rewrite F1 in Hlive. rewrite F2, F3, Ht. now apply (Hinv x y w).
Qed.

Lemma fetch_inv_pointwise_at (f : wallpaper -> wallpaper) x0 y0 s s' :
  fetch_inv s ->
  (forall w, thread (f w) = thread w /\ downloaded (f w) = downloaded w
             /\ failed_counter (f w) = failed_counter w) ->
  grid_ok s' ->
  timer s' = timer s ->
  (forall x y, tile_at (wallpapers s') x y
               = if decide ((x0, y0) = (x, y)) then f <$> tile_at (wallpapers s) x y
                 else tile_at (wallpapers s) x y) ->
  fetch_inv s'.
Proof.
  intros [Hok Hinv] Hf Hok' Ht Htiles. split; [exact Hok'|].
  intros x y w' Hw' Hlive. rewrite Htiles in Hw'. rewrite Ht.
  destruct (decide ((x0, y0) = (x, y))) as [E|N]; [|now apply (Hinv x y w')].
  destruct (tile_at (wallpapers s) x y) as [w|] eqn:Hw; [|discriminate].
  injection Hw' as <-. destruct (Hf w) as (F1 & F2 & F3).
  rewrite F1 in Hlive. rewrite F2, F3. now apply (Hinv x y w).
Qed.

Lemma Ok_inj {A} (a a' : A) (s s' : screen) (c c' : list effect) :
  Ok (a, s, c) = Ok (a', s', c') -> a = a' /\ s = s' /\ c = c'.
Proof. intros H. inversion H. auto. Qed.

Lemma jpeg_status_eq_dec (a b : jpeg_status) : {a = b} + {a <> b}.
Proof. decide equality. Qed.

Lemma fetch_inv_no_thread s :
  grid_ok s ->
  (forall x y w, tile_at (wallpapers s) x y = Some w -> thread w = None) ->
  fetch_inv s.
Proof.
  intros Hok Hnone. split; [exact Hok|].
  intros x y w Hw [t Ht]. rewrite (Hnone x y w Hw) in Ht. discriminate.
Qed.

(** A loop whose body keeps [I] and always returns. *)
Lemma for_each_invariant {A} (I : screen -> Prop) (l : list A) body :
  (forall a s, a ∈ l -> I s -> exists s' calls, body a s = Ok (tt, s', calls) /\ I s') ->
  forall s, I s -> exists s' calls, for_each l body s = Ok (tt, s', calls) /\ I s'.
Proof.
  induction l as [|a l IH]; intros Hbody s HI.
  - exists s, []. now split.
  - destruct (Hbody a s ltac:(left) HI) as (s1 & c1 & E1 & HI1).
    destruct (IH (fun b s Hb => Hbody b s ltac:(now right)) s1 HI1)
      as (s2 & c2 & E2 & HI2).
    exists s2, (c1 ++ c2). split; [|exact HI2].
    cbn [for_each]. rewrite (bind_Ok _ _ _ _ _ _ E1), E2. reflexivity.
Qed.

Lemma update_texture_inv fe o x y s :
  (x, y) ∈ grid_coords (grid_size o) ->
  restart_inv o s ->
  exists s' calls,
    update_texture fe x y s = Ok (tt, s', calls) /\ restart_inv o s'.
Proof.
  intros Hin (Hinv & Ho & Htm). subst o.
  apply elem_of_grid_coords in Hin as [Hx Hy].
  destruct (grid_ok_lookup s x y (proj1 Hinv) Hx Hy) as [w Hw].
  unfold update_texture. repeat mstep.
  assert (Hlive : is_Some (thread w) -> downloaded w = false)
    by (intros H; now apply (proj2 Hinv x y w Hw H)).
  destruct (downloaded w) eqn:Hdl.
  - eexists _, _. split; [reflexivity|].
    split; [|split; [reflexivity|exact Htm]].
    apply (fetch_inv_update_tile s x y (set_failed_counter 0 w) (timer s) Hinv);
      [now left| |reflexivity..].
    intros Hl. wproj. specialize (Hlive Hl). discriminate.
  - destruct (thread w) as [t|] eqn:Ht.
    + erewrite update_wallpaper_live by (first [find_tile | wproj; exact Ht]).
      eexists _, _. split; [reflexivity|].
      assert (Hi : fetch_inv
                (set_timer (Some RETRY_TIMEOUT)
                   (set_wallpapers
                      (grid_set x y (set_failed_counter 0 w) (wallpapers s)) s))).
      { apply (fetch_inv_update_tile s x y (set_failed_counter 0 w)
                 (Some RETRY_TIMEOUT) Hinv); [now right; right| |reflexivity..].
        intros _. wproj. split; [exact Hdl|]. split; [lia|now right]. }
      split; [exact Hi|]. split; [reflexivity|now right].
    + destruct (Z.eq_dec (eventfd_ret fe) (-1)) as [Hfd|Hfd].
      * erewrite update_wallpaper_no_eventfd
          by (first [find_tile | wproj; exact Ht | exact Hfd]).
        mnorm. eexists _, _. split; [reflexivity|].
        assert (Hi : fetch_inv
                  (set_timer None
                     (set_wallpapers
                        (grid_set x y (set_sig_fd (-1) (set_failed_counter 0 w))
                           (wallpapers s)) s))).
        { apply (fetch_inv_update_tile s x y
                   (set_sig_fd (-1) (set_failed_counter 0 w)) None Hinv);
            [now right; left| |reflexivity..].
          wproj. rewrite Ht. intros [? ?]. discriminate. }
        split; [exact Hi|]. split; [reflexivity|now left].
      * destruct (Z.eq_dec (open_memstream_ret fe) 0) as [Hfp|Hfp].
        -- erewrite update_wallpaper_no_stream
             by (first [find_tile | wproj; exact Ht | exact Hfd | exact Hfp]).
           mnorm. eexists _, _. split; [reflexivity|].
           assert (Hi : fetch_inv
                     (set_timer None
                        (set_wallpapers
                           (grid_set x y
                              (set_image_buf []
                                 (set_image_fp 0
                                    (set_sig_fd (eventfd_ret fe)
                                       (set_failed_counter 0 w))))
                              (wallpapers s)) s))).
           { apply (fetch_inv_update_tile s x y
                      (set_image_buf []
                         (set_image_fp 0
                            (set_sig_fd (eventfd_ret fe)
                               (set_failed_counter 0 w)))) None Hinv);
               [now right; left| |reflexivity..].
             wproj. rewrite Ht. intros [? ?]. discriminate. }
           split; [exact Hi|]. split; [reflexivity|now left].
        -- erewrite update_wallpaper_started
             by (first [find_tile | wproj; exact Ht | exact Hfd | exact Hfp]).
           mnorm. eexists _, _. split; [reflexivity|].
           split; [|split; [reflexivity|exact Htm]].
           apply (fetch_inv_update_tile s x y
                    (started_tile fe s (set_failed_counter 0 w)) (timer s) Hinv);
             [now left| |reflexivity..].
           intros _. unfold started_tile. wproj.
           split; [exact Hdl|]. split; [lia|exact Htm].
Qed.

Lemma update_textures_inv os s :
  fetch_inv s ->
  exists s' calls,
    update_textures os s = Ok (tt, s', calls)
    /\ fetch_inv s' /\ output s' = output s.
Proof.
  intros Hinv. unfold update_textures. rewrite bind_get.
  set (s0 := if is_connected (timer s) then set_timer None s else s).
  assert (H0 : restart_inv (output s) s0).
  { subst s0. destruct (timer s) as [ms|] eqn:Htm; cbn [is_connected].
    - split; [|split; [reflexivity|now left]].
      destruct Hinv as [Hok Ht]. split; [exact Hok|].
      intros x y w Hw Hl. destruct (Ht x y w Hw Hl) as (H1 & H2 & _).
      sproj. auto.
    - split; [exact Hinv|]. split; [reflexivity|now left]. }
  destruct (for_each_invariant (restart_inv (output s))
              (grid_coords (grid_size (output s)))
              (fun p => update_texture (os p.1 p.2) p.1 p.2)) with (s := s0)
    as (s' & calls & E & Hinv' & Ho' & _).
  { intros [x y] s1 Hin H1. now apply update_texture_inv. }
  { exact H0. }
  assert (Hloop :
    for_grid (get_workspace_grid_size (output s))
      (fun x y => update_texture (os x y) x y) s0 = Ok (tt, s', calls))
    by (rewrite for_grid_coords; exact E).
  destruct (timer s) as [ms|] eqn:Htm; cbn [is_connected] in *.
  - unfold timer_disconnect. repeat mstep.
    change (set_timer None s) with s0.
    rewrite (bind_Ok _ _ _ _ _ _ Hloop). repeat mstep. mlast.
    eexists _, _. split; [reflexivity|]. split; assumption.
  - repeat mstep. rewrite (bind_Ok _ _ _ _ _ _ Hloop). repeat mstep. mlast.
    eexists _, _. split; [reflexivity|]. split; assumption.
Qed.

Lemma fetch_inv_worker_done acts x y s :
  fetch_inv s -> fetch_inv (worker_done acts x y s).
Proof.
  intros Hinv.
  apply (fetch_inv_pointwise_at (worker_writes acts) x y s); try assumption.
  - intros w. destruct (worker_writes_frame acts w)
      as (_ & _ & _ & _ & F5 & _ & F7 & F8 & _). auto.
  - destruct Hinv as [[H1 H2] _].
    destruct (grid_alter_shape (worker_writes acts) x y (wallpapers s) _ _
                (conj H1 H2)) as [H3 H4].
    split; assumption.
  - reflexivity.
  - intros x' y'. unfold worker_done. sproj. apply tile_at_alter.
Qed.

Lemma fetch_inv_download_complete fe je fd mask x y s r s' calls :
  fetch_inv s ->
  download_complete fe je fd mask x y s = Ok (r, s', calls) ->
  fetch_inv s'.
Proof.
  intros Hinv H.
  destruct (Z.eq_dec (Z.land mask WL_EVENT_READABLE) 0) as [Hm|Hm].
  { rewrite download_complete_not_readable in H by exact Hm. now apply Ok_inj in H as (_ & <- & _). }
  destruct (tile_at (wallpapers s) x y) as [w|] eqn:Hw.
  2:{ unfold download_complete in H. apply Z.eqb_neq in Hm. rewrite Hm in H.
      rewrite bind_emit in H. erewrite bind_Fault in H; [discriminate|].
      unfold get_tile. now rewrite Hw. }
  destruct (thread w) as [t|] eqn:Ht.
  2:{ rewrite (download_complete_no_thread _ _ _ _ _ _ _ w) in H by assumption.
      now apply Ok_inj in H as (_ & <- & _). }
  assert (Hw_inv := proj2 Hinv x y w Hw ltac:(rewrite Ht; eauto)).
  destruct Hw_inv as (Hdl & Hfc & Htm).
  destruct (wallpaper_shutdown s) eqn:Hsh.
  { rewrite (download_complete_shutdown _ _ _ _ _ _ _ w t) in H by assumption.
    apply Ok_inj in H as (_ & <- & _).
    apply (fetch_inv_update_tile s x y (cleaned w) (timer s) Hinv);
      [now left| |reflexivity..].
    wproj. intros [? ?]. discriminate. }
  destruct (download_bad s w) eqn:Hbad.
  - rewrite (download_complete_failed _ _ _ _ _ _ _ w t) in H by assumption.
    destruct (Z.ltb_spec 3 (failed_counter w + 1)) as [Hgt|Hle].
    + (* the timer *)
      revert H. repeat mstep.
      destruct (timer s) as [ms|] eqn:Htimer; cbn [is_connected].
      * repeat mstep. mlast. intros H. apply Ok_inj in H as (_ & <- & _).
        apply (fetch_inv_update_tile s x y
                 (set_download_failed false (failed_tile s w)) (timer s) Hinv);
          [now left| |reflexivity|sproj; now rewrite Htimer|reflexivity].
        unfold failed_tile. wproj. intros [? ?]. discriminate.
      * unfold timer_set_timeout. repeat mstep. mlast. intros H.
        apply Ok_inj in H as (_ & <- & _).
        apply (fetch_inv_update_tile s x y
                 (set_download_failed false (failed_tile s w))
                 (Some RETRY_TIMEOUT) Hinv);
          [now right; right| |reflexivity..].
        unfold failed_tile. wproj. intros [? ?]. discriminate.
    + (* the retry *)
      set (s1 := set_wallpapers (grid_set x y (failed_tile s w) (wallpapers s)) s) in *.
      assert (Hw1 : tile_at (wallpapers s1) x y = Some (failed_tile s w))
        by (subst s1; find_tile).
      assert (Ht1 : thread (failed_tile s w) = None) by reflexivity.
      destruct (Z.eq_dec (eventfd_ret fe) (-1)) as [Hfd|Hfd].
      * rewrite (bind_Ok _ _ _ _ _ _
                   (update_wallpaper_no_eventfd fe x y s1 _ Hw1 Ht1 Hfd)) in H.
        subst s1. revert H. repeat mstep. mlast. intros H.
        apply Ok_inj in H as (_ & <- & _).
        apply (fetch_inv_update_tile s x y
                 (set_download_failed false (set_sig_fd (-1) (failed_tile s w)))
                 None Hinv); [now right; left| |reflexivity..].
        unfold failed_tile. wproj. intros [? ?]. discriminate.
      * destruct (Z.eq_dec (open_memstream_ret fe) 0) as [Hfp|Hfp].
        -- rewrite (bind_Ok _ _ _ _ _ _
                      (update_wallpaper_no_stream fe x y s1 _ Hw1 Ht1 Hfd Hfp)) in H.
           subst s1. revert H. repeat mstep. mlast. intros H.
        apply Ok_inj in H as (_ & <- & _).
           apply (fetch_inv_update_tile s x y
                    (set_download_failed false
                       (set_image_buf []
                          (set_image_fp 0
                             (set_sig_fd (eventfd_ret fe) (failed_tile s w)))))
                    None Hinv); [now right; left| |reflexivity..].
           unfold failed_tile. wproj. intros [? ?]. discriminate.
        -- rewrite (bind_Ok _ _ _ _ _ _
                      (update_wallpaper_started fe x y s1 _ Hw1 Ht1 Hfd Hfp)) in H.
           subst s1. revert H. repeat mstep. mlast. intros H.
        apply Ok_inj in H as (_ & <- & _).
           apply (fetch_inv_update_tile s x y
                    (set_download_failed false
                       (started_tile fe s (failed_tile s w)))
                    (timer s) Hinv); [now left| |reflexivity..].
           intros _. unfold started_tile, failed_tile. wproj.
           split; [exact Hdl|]. split; [lia|exact Htm].
  - destruct (jpeg_status_eq_dec (jpeg_outcome je) JPEG_FATAL) as [Hje|Hje].
    { rewrite (download_complete_fatal _ _ _ _ _ _ _ w t) in H by assumption.
      discriminate. }
    destruct (download_complete_success fe je fd mask x y s w t (proj1 Hinv)
                Hm Hw Ht Hsh Hbad Hje)
      as (s2 & E & Hsh2 & _ & _ & Hout & Hok2 & Hres).
    rewrite E in H. apply Ok_inj in H as (_ & <- & _). clear E.
    set (s1 := set_wallpapers (grid_set x y (completed_tile je w) (wallpapers s)) s) in *.
    destruct (all_downloaded (grid_size (output s)) (wallpapers s1)) eqn:Hall.
    + destruct Hres as (Htiles & _).
      apply fetch_inv_no_thread; [exact Hok2|].
      intros x' y' w2 Hw2. rewrite Htiles in Hw2.
      destruct (tile_at (wallpapers s1) x' y') as [w1|] eqn:Hw1; [|discriminate].
      injection Hw2 as <-.
      destruct (decide ((x', y') = (x, y))) as [E|N]; [reflexivity|].
      change (thread (swap_in w1)) with (thread w1).
      assert (Hw1s : tile_at (wallpapers s) x' y' = Some w1).
      { subst s1. sproj. rewrite tile_at_grid_set_ne in Hw1; [exact Hw1|congruence]. }
      destruct (thread w1) as [t1|] eqn:Ht1; [|reflexivity].
      destruct (proj2 Hinv x' y' w1 Hw1s ltac:(rewrite Ht1; eauto)) as (Hd1 & _).
      rewrite all_downloaded_spec in Hall.
      specialize (Hall x' y').
      unfold downloaded_at in Hall. cbn [fst snd] in Hall. rewrite Hw1 in Hall.
      cbn [from_option] in Hall. rewrite Hd1 in Hall.
      exfalso. enough (false = true) by discriminate. apply Hall.
      apply elem_of_grid_coords. now apply (grid_ok_range s x' y' w1 (proj1 Hinv)).
    + subst s2.
      apply (fetch_inv_update_tile s x y (cleaned (completed_tile je w))
               (timer s) Hinv); [now left| |reflexivity..].
      wproj. intros [? ?]. discriminate.
Qed.

Lemma fetch_inv_fini s s' calls :
  fetch_inv s -> fini s = Ok (tt, s', calls) -> fetch_inv s'.
Proof.
  intros Hinv H.
  destruct (fini_Ok s (proj1 Hinv)) as (s2 & c2 & E & _ & _ & _ & Hok2 & Htiles & _).
  rewrite E in H. apply Ok_inj in H as (_ & <- & _).
  apply fetch_inv_no_thread; [exact Hok2|].
  intros x y w' Hw'. rewrite Htiles in Hw'.
  destruct (tile_at (wallpapers s) x y) as [w|]; [|discriminate].
  injection Hw' as <-. unfold fini_tile. wproj.
  destruct (thread w) eqn:Ht; [reflexivity|exact Ht].
Qed.

Lemma fetch_inv_frame s s' :
  fetch_inv s ->
  wallpapers s' = wallpapers s -> timer s' = timer s ->
  grid_size (output s') = grid_size (output s) ->
  fetch_inv s'.
Proof.
  intros [Hok Hinv] Hg Ht Ho. split.
  - unfold grid_ok in *. now rewrite Hg, Ho.
  - intros x y w. rewrite Hg, Ht. apply Hinv.
Qed.

Lemma fetch_inv_post_hook running s s' calls :
  fetch_inv s -> post_hook running s = Ok (tt, s', calls) -> fetch_inv s'.
Proof.
  intros Hinv H. unfold post_hook in H.
  destruct running; [now apply Ok_inj in H as (_ & <- & _)|].
  destruct (for_each_tiles (set_tex_from None) (fun _ _ => [])
              (fun p => modify_tile p.1 p.2 (set_tex_from None))
              (fun p s w H => modify_tile_Ok p.1 p.2 _ s w H)
              (grid_coords (grid_size (output s))) s
              (NoDup_grid_coords _)) as (g' & Hrun & Hg' & Hshape).
  { intros [x y] Hin. apply elem_of_grid_coords in Hin as [Hx Hy].
    apply grid_ok_lookup; [exact (proj1 Hinv)|exact Hx|exact Hy]. }
  revert H. rewrite bind_get.
  erewrite bind_Ok by (unfold get_workspace_grid_size; rewrite for_grid_coords; exact Hrun).
  unfold deactivate. repeat mstep.
  assert (Hg : fetch_inv (set_wallpapers g' s)).
  { apply (fetch_inv_pointwise (set_tex_from None) s); try assumption.
    - intros w. repeat split.
    - destruct Hinv as [[H1 H2] _], Hshape as [H3 H4].
      split; sproj; [congruence|now apply H4].
    - reflexivity.
    - intros x y. sproj. rewrite Hg'.
      destruct (decide ((x, y) ∈ grid_coords (grid_size (output s)))) as [Hin|Hout];
        [reflexivity|].
      destruct (tile_at (wallpapers s) x y) as [w|] eqn:Hw; [|reflexivity].
      exfalso. apply Hout. apply elem_of_grid_coords.
      now apply (grid_ok_range s x y w (proj1 Hinv)). }
  destruct (hook_set s); repeat mstep; mlast; intros H;
    apply Ok_inj in H as (_ & <- & _);
    apply (fetch_inv_frame (set_wallpapers g' s)); try reflexivity; exact Hg.
Qed.

Lemma read_only_grid_loop (e : nat -> nat -> effect) s :
  grid_ok s ->
  for_grid (grid_size (output s)) (fun x y => _ <- get_tile x y ;; emit (e x y)) s
  = Ok (tt, s, grid_coords (grid_size (output s)) ≫= (fun p => [e p.1 p.2])).
Proof.
  intros Hok. rewrite for_grid_coords.
  apply for_each_read_only. intros [x y] Hin.
  apply elem_of_grid_coords in Hin as [Hx Hy].
  destruct (grid_ok_lookup s x y Hok Hx Hy) as [w Hw].
  cbn [fst snd]. now rewrite (bind_get_tile _ _ _ _ w Hw).
Qed.

Lemma fetch_inv_output_config_changed os changed_fields s s' calls :
  fetch_inv s ->
  output_config_changed os changed_fields s = Ok (tt, s', calls) ->
  fetch_inv s'.
Proof.
  intros Hinv H. unfold output_config_changed in H.
  destruct (changed_fields =? 0); [now apply Ok_inj in H as (_ & <- & _)|].
  destruct (negb (Z.land changed_fields OUTPUT_SOURCE_CHANGE =? 0));
    [now apply Ok_inj in H as (_ & <- & _)|].
  revert H. rewrite bind_get. cbv zeta. unfold get_workspace_grid_size.
  rewrite (bind_Ok _ _ _ _ _ _ (read_only_grid_loop _ s (proj1 Hinv))).
  destruct (update_textures_inv os s Hinv) as (s2 & c2 & E & Hinv2 & _).
  rewrite E. cbn [after]. intros H. now apply Ok_inj in H as (_ & <- & _).
Qed.

Lemma fetch_inv_cycle_changed os s s' calls :
  fetch_inv s -> cycle_changed os s = Ok (tt, s', calls) -> fetch_inv s'.
Proof.
  intros Hinv H. revert H. unfold cycle_changed. rewrite bind_get.
  assert (Hdis : fetch_inv (set_timer None s)).
  { destruct Hinv as [Hok Ht]. split; [exact Hok|].
    intros x y w Hw Hl. destruct (Ht x y w Hw Hl) as (H1 & H2 & _). sproj. auto. }
  destruct (timer s) as [ms|] eqn:Htm; cbn [is_connected].
  - unfold timer_disconnect. repeat mstep.
    destruct (cycle s).
    + destruct (update_textures_inv os _ Hdis) as (s2 & c2 & E & Hinv2 & _).
      rewrite E. cbn [after]. intros H. now apply Ok_inj in H as (_ & <- & _).
    + mlast. intros H. now apply Ok_inj in H as (_ & <- & _).
  - repeat mstep. destruct (cycle s).
    + destruct (update_textures_inv os _ Hinv) as (s2 & c2 & E & Hinv2 & _).
      rewrite E. intros H. now apply Ok_inj in H as (_ & <- & _).
    + intros H. now apply Ok_inj in H as (_ & <- & _).
Qed.

Lemma tile_at_replicate n m w x y w' :
  tile_at (replicate n (replicate m w)) x y = Some w' -> w' = w.
Proof.
  unfold tile_at. intros H.
  destruct (replicate n (replicate m w) !! x) as [col|] eqn:Hcol; [|discriminate].
  apply lookup_replicate in Hcol as [-> _]. cbn in H.
  now apply lookup_replicate in H as [-> _].
Qed.

Lemma fetch_inv_init os cy cy_time o s calls :
  init os (new_screen cy cy_time o) = Ok (tt, s, calls) -> fetch_inv s.
Proof.
  intros H. revert H. unfold init. repeat mstep. cbv zeta.
  set (s0 := set_wallpapers _ _).
  assert (Hinv0 : fetch_inv s0).
  { apply fetch_inv_no_thread.
    - subst s0. split; sproj.
      + apply length_replicate.
      + apply Forall_replicate. apply length_replicate.
    - intros x y w Hw. subst s0. sproj.
      now apply tile_at_replicate in Hw as ->. }
  change (get_workspace_grid_size (output (set_fade_animation (0, 0) (new_screen cy cy_time o))))
    with (grid_size (output s0)).
  rewrite (bind_Ok _ _ _ _ _ _ (read_only_grid_loop _ s0 (proj1 Hinv0))).
  destruct (update_textures_inv os s0 Hinv0) as (s2 & c2 & E & Hinv2 & _).
  rewrite E. cbn [after]. intros H. now apply Ok_inj in H as (_ & <- & _).
Qed.

(** Every state the plugin goes through satisfies the invariant. *)
(** * The handler beside the worker of its retry *)

(** The handler up to the decision between the timer and the retry, as
    [download_complete_failed] has it for the handler alone. *)
Lemma download_complete_racing_failed early fe je fd mask x y s w t :
  Z.land mask WL_EVENT_READABLE <> 0 ->
  tile_at (wallpapers s) x y = Some w ->
  thread w = Some t ->
  wallpaper_shutdown s = false ->
  download_bad s w = true ->
  download_complete_racing early fe je fd mask x y s
  = after ([Read fd; Fflush (image_fp w)] ++ clean_up_calls w t)
      (bind (if 3 <? failed_counter w + 1
             then s' <- get ;;
                  if is_connected (timer s') then ret tt
                  else timer_set_timeout RETRY_TIMEOUT
             else update_wallpaper fe x y ;;
                  wp <- get_tile x y ;;
                  match thread wp with
                  | Some _ => modify_tile x y (worker_writes early)
                  | None => ret tt
                  end)
         (fun _ => modify_tile x y (set_download_failed false) ;; ret 0)
         (set_wallpapers (grid_set x y (failed_tile s w) (wallpapers s)) s)).
Proof.
  intros Hmask Hw Ht Hsh Hbad. unfold download_complete_racing.
  apply Z.eqb_neq in Hmask. rewrite Hmask.
  repeat mstep. rewrite Ht. repeat mstep. rewrite Hsh. repeat mstep.
  unfold download_bad in Hbad. fold (geometry_stale s w).
  rewrite !after_after. cbn [app].
  unfold failed_tile.
  destruct (geometry_stale s w) eqn:Hst; cbn [orb] in *.
  - repeat mstep. cbn [orb]. repeat mstep.
    mclean Ht. repeat mstep. rewrite after_after. reflexivity.
  - repeat mstep. rewrite Hbad. repeat mstep.
    mclean Ht. repeat mstep. rewrite after_after.
    reflexivity.
Qed.

(** The retry starts its fetch: what the worker has written by then is
    in the wallpaper when the handler clears the flag. *)
Lemma download_complete_racing_retried early fe je fd mask x y s w t :
  Z.land mask WL_EVENT_READABLE <> 0 ->
  tile_at (wallpapers s) x y = Some w ->
  thread w = Some t ->
  wallpaper_shutdown s = false ->
  download_bad s w = true ->
  failed_counter w + 1 <= 3 ->
  eventfd_ret fe <> -1 ->
  open_memstream_ret fe <> 0 ->
  download_complete_racing early fe je fd mask x y s
  = Ok (0,
        set_wallpapers
          (grid_set x y
             (set_download_failed false
                (worker_writes early (started_tile fe s (failed_tile s w))))
             (wallpapers s)) s,
        [Read fd; Fflush (image_fp w)] ++ clean_up_calls w t
        ++ [Eventfd (eventfd_ret fe); OpenMemstream (open_memstream_ret fe);
            EventLoopAddFd (eventfd_ret fe) (add_fd_ret fe);
            ThreadCreate x y (new_thread fe)]).
Proof.
  intros Hm Hw Ht Hsh Hbad Hn Hfd Hfp.
  rewrite (download_complete_racing_failed early fe je fd mask x y s w t)
    by assumption.
  destruct (Z.ltb_spec 3 (failed_counter w + 1)) as [Hgt|_]; [lia|].
  set (s1 := set_wallpapers (grid_set x y (failed_tile s w) (wallpapers s)) s).
  assert (Hw1 : tile_at (wallpapers s1) x y = Some (failed_tile s w))
    by (subst s1; find_tile).
  rewrite bind_assoc.
  rewrite (bind_Ok _ _ _ _ _ _
             (update_wallpaper_started fe x y s1 _ Hw1 eq_refl Hfd Hfp)).
  subst s1. repeat mstep. unfold started_tile at 1. wproj.
  repeat mstep. mlast. rewrite ?app_nil_r. reflexivity.
Qed.

(** Where the retry starts no thread the handler runs beside no worker. *)
Lemma download_complete_racing_other early fe je fd mask x y s :
  (forall w t,
     Z.land mask WL_EVENT_READABLE <> 0 ->
     tile_at (wallpapers s) x y = Some w ->
     thread w = Some t ->
     wallpaper_shutdown s = false ->
     download_bad s w = true ->
     failed_counter w + 1 <= 3 ->
     eventfd_ret fe <> -1 ->
     open_memstream_ret fe <> 0 -> False) ->
  download_complete_racing early fe je fd mask x y s
  = download_complete fe je fd mask x y s.
Proof.
  intros Hnot.
  destruct (Z.eq_dec (Z.land mask WL_EVENT_READABLE) 0) as [Hm|Hm].
  { unfold download_complete_racing, download_complete. now rewrite Hm. }
  destruct (tile_at (wallpapers s) x y) as [w|] eqn:Hw.
  2:{ unfold download_complete_racing, download_complete.
      apply Z.eqb_neq in Hm. rewrite Hm. rewrite !bind_emit.
      assert (Hg : get_tile x y s = Fault OutOfRange)
        by (unfold get_tile; now rewrite Hw).
      now rewrite !(bind_Fault _ _ _ _ Hg). }
  destruct (thread w) as [t|] eqn:Ht.
  2:{ rewrite (download_complete_no_thread _ _ _ _ _ _ _ w) by assumption.
      unfold download_complete_racing.
      apply Z.eqb_neq in Hm. rewrite Hm.
      repeat mstep. rewrite Ht. reflexivity. }
  destruct (wallpaper_shutdown s) eqn:Hsh.
  { rewrite (download_complete_shutdown _ _ _ _ _ _ _ w t) by assumption.
    unfold download_complete_racing.
    apply Z.eqb_neq in Hm. rewrite Hm.
    repeat mstep. rewrite Ht. repeat mstep. rewrite Hsh.
    mclean Ht. repeat mstep. mlast. now rewrite app_nil_r. }
  destruct (download_bad s w) eqn:Hbad.
  - rewrite (download_complete_racing_failed early fe je fd mask x y s w t),
      (download_complete_failed fe je fd mask x y s w t) by assumption.
    f_equal.
    destruct (Z.ltb_spec 3 (failed_counter w + 1)) as [Hgt|Hle]; [reflexivity|].
    set (s1 := set_wallpapers (grid_set x y (failed_tile s w) (wallpapers s)) s).
    assert (Hw1 : tile_at (wallpapers s1) x y = Some (failed_tile s w))
      by (subst s1; find_tile).
    rewrite bind_assoc.
    destruct (Z.eq_dec (eventfd_ret fe) (-1)) as [Hfd|Hfd].
    { rewrite !(bind_Ok _ _ _ _ _ _
                  (update_wallpaper_no_eventfd fe x y s1 _ Hw1 eq_refl Hfd)).
      f_equal. subst s1. repeat mstep. unfold failed_tile. wproj.
      repeat mstep. reflexivity. }
    destruct (Z.eq_dec (open_memstream_ret fe) 0) as [Hfp|Hfp].
    { rewrite !(bind_Ok _ _ _ _ _ _
                  (update_wallpaper_no_stream fe x y s1 _ Hw1 eq_refl Hfd Hfp)).
      f_equal. subst s1. repeat mstep. unfold failed_tile. wproj.
      repeat mstep. reflexivity. }
    exfalso. apply (Hnot w t); first [assumption | reflexivity | lia].
  - unfold download_complete_racing, download_complete.
    apply Z.eqb_neq in Hm. rewrite Hm.
    repeat mstep. rewrite Ht. repeat mstep. rewrite Hsh. repeat mstep.
    unfold download_bad in Hbad. fold (geometry_stale s w).
    apply orb_false_elim in Hbad as [Hbad Hsz].
    apply orb_false_elim in Hbad as [Hst Hdf].
    rewrite Hst. repeat mstep. rewrite Hdf, Hsz. cbn [orb].
    reflexivity.
Qed.

(** The handler's assignment drops the flag the worker has set and keeps
    what it has written to the stream. *)
Lemma worker_writes_before_clear early :
  forall w,
    exists acts,
      set_download_failed false (worker_writes early w)
      = worker_writes acts (set_download_failed false w).
Proof.
  unfold worker_writes.
  induction early as [|a early IH]; intros w; [now exists []|].
  cbn [fold_left]. destruct (IH (worker_write w a)) as (acts & E).
  rewrite E.
  destruct a; cbn [worker_write];
    try (exists acts; reflexivity).
  exists (Fwrite data :: acts). reflexivity.
Qed.

(** So the handler beside a worker ends where the handler alone ends,
    followed, where the retry has started a fetch, by writes of its
    worker. *)
Lemma download_complete_racing_steps early fe je fd mask x y s r s' calls :
  download_complete_racing early fe je fd mask x y s = Ok (r, s', calls) ->
  exists s0,
    download_complete fe je fd mask x y s = Ok (r, s0, calls)
    /\ (s' = s0
        \/ exists acts w0,
             tile_at (wallpapers s0) x y = Some w0
             /\ is_Some (thread w0)
             /\ s' = worker_done acts x y s0).
Proof.
  intros H.
  assert (Hcases :
    (exists w t,
       Z.land mask WL_EVENT_READABLE <> 0
       /\ tile_at (wallpapers s) x y = Some w
       /\ thread w = Some t
       /\ wallpaper_shutdown s = false
       /\ download_bad s w = true
       /\ failed_counter w + 1 <= 3
       /\ eventfd_ret fe <> -1
       /\ open_memstream_ret fe <> 0)
    \/ (forall w t,
          Z.land mask WL_EVENT_READABLE <> 0 ->
          tile_at (wallpapers s) x y = Some w ->
          thread w = Some t ->
          wallpaper_shutdown s = false ->
          download_bad s w = true ->
          failed_counter w + 1 <= 3 ->
          eventfd_ret fe <> -1 ->
          open_memstream_ret fe <> 0 -> False)).
  { destruct (tile_at (wallpapers s) x y) as [w|] eqn:Hw;
      [|right; intros; discriminate].
    destruct (thread w) as [t|] eqn:Ht; [|right; intros; congruence].
    destruct (Z.eq_dec (Z.land mask WL_EVENT_READABLE) 0);
      [right; intros; congruence|].
    destruct (wallpaper_shutdown s) eqn:Hsh; [right; intros; congruence|].
    destruct (download_bad s w) eqn:Hbad; [|right; intros; congruence].
    destruct (Z_le_dec (failed_counter w + 1) 3);
      [|right; intros w' t' ? Hw'; injection Hw' as <-; intros; lia].
    destruct (Z.eq_dec (eventfd_ret fe) (-1)); [right; intros; congruence|].
    destruct (Z.eq_dec (open_memstream_ret fe) 0); [right; intros; congruence|].
    left. exists w, t. repeat split; assumption. }
  destruct Hcases as [(w & t & Hm & Hw & Ht & Hsh & Hbad & Hn & Hfd & Hfp)|Hnot].
  - rewrite (download_complete_racing_retried early fe je fd mask x y s w t)
      in H by assumption.
    apply Ok_inj in H as (<- & <- & <-).
    rewrite (download_complete_retried fe je fd mask x y s w t) by assumption.
    eexists. split; [reflexivity|]. right.
    destruct (worker_writes_before_clear early
                (started_tile fe s (failed_tile s w))) as (acts & E).
    exists acts. eexists. split; [find_tile|].
    split; [unfold started_tile; wproj; eauto|].
    rewrite E. unfold worker_done. sproj.
    erewrite grid_alter_at by (eapply tile_at_grid_set_eq; exact Hw).
    now rewrite grid_set_set.
  - rewrite (download_complete_racing_other early) in H by exact Hnot.
    exists s'. split; [exact H|now left].
Qed.

(** A worker that has done nothing yet leaves the handler as it is
    alone. *)
Lemma download_complete_racing_nil fe je fd mask x y s :
  download_complete_racing [] fe je fd mask x y s
  = download_complete fe je fd mask x y s.
Proof.
  destruct (tile_at (wallpapers s) x y) as [w|] eqn:Hw;
    [|apply download_complete_racing_other; intros; congruence].
  destruct (thread w) as [t|] eqn:Ht;
    [|apply download_complete_racing_other; intros; congruence].
  destruct (Z.eq_dec (Z.land mask WL_EVENT_READABLE) 0);
    [apply download_complete_racing_other; intros; congruence|].
  destruct (wallpaper_shutdown s) eqn:Hsh;
    [apply download_complete_racing_other; intros; congruence|].
  destruct (download_bad s w) eqn:Hbad;
    [|apply download_complete_racing_other; intros; congruence].
  destruct (Z_le_dec (failed_counter w + 1) 3);
    [|apply download_complete_racing_other;
      intros w' t' ? Hw'; assert (w' = w) as -> by congruence; intros; lia].
  destruct (Z.eq_dec (eventfd_ret fe) (-1));
    [apply download_complete_racing_other; intros; congruence|].
  destruct (Z.eq_dec (open_memstream_ret fe) 0);
    [apply download_complete_racing_other; intros; congruence|].
  rewrite (download_complete_racing_retried [] fe je fd mask x y s w t),
    (download_complete_retried fe je fd mask x y s w t) by assumption.
  reflexivity.
Qed.

Lemma reachable_fetch_inv s : reachable s -> fetch_inv s.
Proof.
  induction 1 as [cy cy_time o os s calls Hinit | s s' _ IH Hstep].
  - now apply (fetch_inv_init os cy cy_time o s calls).
  - destruct Hstep as
      [ fuel tr early late x y w s _ _ _
      | fe je fd mask x y s r s' calls H
      | early fe je fd mask x y s r s' calls _ H
      | os s s' calls _ H
      | os s s' calls H
      | os o changed_fields s s' calls Hgrid H
      | os b s s' calls H
      | ms s
      | running s s' calls H
      | s s' calls H ].
    + now apply fetch_inv_worker_done.
    + now apply (fetch_inv_download_complete fe je fd mask x y s r s' calls).
    + destruct (download_complete_racing_steps _ _ _ _ _ _ _ _ _ _ _ H)
        as (s0 & E0 & [->|(acts & w0 & _ & _ & ->)]).
      * now apply (fetch_inv_download_complete fe je fd mask x y s r s0 calls).
      * apply fetch_inv_worker_done.
        now apply (fetch_inv_download_complete fe je fd mask x y s r s0 calls).
    + destruct (update_textures_inv os s IH) as (s2 & c2 & E & Hinv2 & _).
      rewrite E in H. now apply Ok_inj in H as (_ & <- & _).
    + destruct (update_textures_inv os s IH) as (s2 & c2 & E & Hinv2 & _).
      rewrite E in H. now apply Ok_inj in H as (_ & <- & _).
    + apply (fetch_inv_output_config_changed os changed_fields (set_output o s) s' calls);
        [|exact H].
      apply (fetch_inv_frame s); [exact IH|reflexivity|reflexivity|exact Hgrid].
    + apply (fetch_inv_cycle_changed os (set_cycle b s) s' calls); [|exact H].
      apply (fetch_inv_frame s); [exact IH|reflexivity..].
    + apply (fetch_inv_frame s); [exact IH|reflexivity..].
    + now apply (fetch_inv_post_hook running s s' calls).
    + now apply (fetch_inv_fini s s' calls).
Qed.

(** * Shutdown *)

(** C5.  When [wallpaper_shutdown] is set, the handler of a wallpaper
    with a live thread only reads the notification and cleans up: the
    source is removed, the thread joined, the stream closed, the buffer
    freed and the eventfd closed; no fetch is started, nothing is swapped
    and the timer is not touched.  [fini] sets the flag and returns with
    no thread handle left in the grid, after the same five calls for
    every wallpaper that had one. *)
Theorem shutdown_joins_and_releases :
  (forall fe je fd mask x y s w t,
     Z.land mask WL_EVENT_READABLE <> 0 ->
     tile_at (wallpapers s) x y = Some w ->
     thread w = Some t ->
     wallpaper_shutdown s = true ->
     download_complete fe je fd mask x y s
     = Ok (0, set_wallpapers (grid_set x y (cleaned w) (wallpapers s)) s,
           [Read fd; EventSourceRemove (event_source w); ThreadJoin t;
            Fclose (image_fp w); FreeImagePtr; Close (sig_fd w)])
     /\ thread (cleaned w) = None
     /\ tex_from (cleaned w) = tex_from w /\ tex_to (cleaned w) = tex_to w
     /\ tex_tmp (cleaned w) = tex_tmp w
     /\ downloaded (cleaned w) = downloaded w
     /\ failed_counter (cleaned w) = failed_counter w)
  /\ (forall s,
        grid_ok s ->
        exists s' calls,
          fini s = Ok (tt, s', calls)
          /\ wallpaper_shutdown s' = true
          /\ (forall x y w', tile_at (wallpapers s') x y = Some w' -> thread w' = None)
          /\ (forall x y w t,
                tile_at (wallpapers s) x y = Some w ->
                thread w = Some t ->
                In (EventSourceRemove (event_source w)) calls
                /\ In (ThreadJoin t) calls
                /\ In (Fclose (image_fp w)) calls
                /\ In FreeImagePtr calls
                /\ In (Close (sig_fd w)) calls)).
Proof.
  split.
  - intros fe je fd mask x y s w t Hm Hw Ht Hsh.
    split; [|repeat split].
    now apply download_complete_shutdown.
  - intros s Hok.
    destruct (fini_Ok s Hok) as (s' & calls & E & Hsh & _ & _ & _ & Htiles & Hcalls).
    exists s', calls. split; [exact E|]. split; [exact Hsh|]. split.
    + intros x y w' Hw'. rewrite Htiles in Hw'.
      destruct (tile_at (wallpapers s) x y) as [w|]; [|discriminate].
      injection Hw' as <-. unfold fini_tile. wproj.
      destruct (thread w) eqn:Ht; [reflexivity|exact Ht].
    + intros x y w t Hw Ht.
      assert (H : forall e, In e (clean_up_calls w t) -> In e calls).
      { intros e He. apply (Hcalls x y w Hw). unfold fini_calls. rewrite Ht.
        apply in_or_app. now left. }
      unfold clean_up_calls in H. cbn [In] in H.
      repeat split; apply H; auto 10.
Qed.

(** * The failure branch *)


(** C7.  A wallpaper whose [geometry], taken from the output when its
    fetch was started, is no longer the geometry of the output when the
    handler runs: the handler sets [download_failed] and takes the
    failure branch whatever the worker left in the flag and in the
    stream.  The retry it makes at once (the first three failures in a
    row, as soon as the fetch can start) is for the geometry the output
    has now, as is any fetch started later. *)
Theorem stale_geometry_is_a_failed_download fe je fd mask x y s w t o0 :
  Z.land mask WL_EVENT_READABLE <> 0 ->
  tile_at (wallpapers s) x y = Some w ->
  thread w = Some t ->
  wallpaper_shutdown s = false ->
  geometry w = get_relative_geometry o0 ->
  get_relative_geometry o0 <> get_relative_geometry (output s) ->
  let s1 := set_wallpapers (grid_set x y (failed_tile s w) (wallpapers s)) s in
  geometry_stale s w = true
  /\ download_failed (failed_tile s w) = true
  /\ download_complete fe je fd mask x y s
     = after ([Read fd; Fflush (image_fp w)] ++ clean_up_calls w t)
         (((if 3 <? failed_counter w + 1
            then s' <- get ;;
                 if is_connected (timer s') then ret tt
                 else timer_set_timeout RETRY_TIMEOUT
            else update_wallpaper fe x y) ;;
           modify_tile x y (set_download_failed false) ;; ret 0) s1)
  /\ (forall flag buf,
        failed_tile s (set_image_buf buf (set_download_failed flag w))
        = set_image_size (Z.of_nat (length buf))
            (set_image_buf buf (failed_tile s w)))
  /\ (failed_counter w + 1 <= 3 ->
      eventfd_ret fe <> -1 -> open_memstream_ret fe <> 0 ->
      exists s' calls w',
        download_complete fe je fd mask x y s = Ok (0, s', calls)
        /\ In (ThreadCreate x y (new_thread fe)) calls
        /\ tile_at (wallpapers s') x y = Some w'
        /\ thread w' = Some (new_thread fe)
        /\ geometry w' = get_relative_geometry (output s))
  /\ (forall fe' s2 w2,
        geometry (started_tile fe' s2 w2) = get_relative_geometry (output s2)).
Proof.
  intros Hm Hw Ht Hsh Hgeo Hne s1.
  assert (Hst : geometry_stale s w = true).
  { unfold geometry_stale. rewrite Hgeo.
    unfold get_relative_geometry in *. cbn [box_width box_height].
    destruct (Z.eqb_spec (output_width o0) (output_width (output s))) as [Ew|Nw];
      [|reflexivity].
    destruct (Z.eqb_spec (output_height o0) (output_height (output s))) as [Eh|Nh];
      [|reflexivity].
    exfalso. apply Hne. now rewrite Ew, Eh. }
  split; [exact Hst|].
  split; [unfold failed_tile; wproj; now rewrite Hst|].
  split.
  - apply download_complete_failed; try assumption.
    unfold download_bad. now rewrite Hst.
  - split; [|split; [|reflexivity]].
    + intros flag buf. unfold failed_tile, geometry_stale. wproj.
      fold (geometry_stale s w). rewrite Hst. reflexivity.
    + intros Hn Hfd Hfp. eexists _, _, _. split.
      * apply (download_complete_retried fe je fd mask x y s w t);
          try assumption.
        unfold download_bad. now rewrite Hst.
      * split; [apply in_or_app; right; apply in_or_app; right; cbn; tauto|].
        split; [find_tile|]. split; reflexivity.
Qed.

(** * The barrier *)

Lemma all_downloaded_others je s x y w :
  grid_ok s ->
  tile_at (wallpapers s) x y = Some w ->
  all_downloaded (grid_size (output s))
    (grid_set x y (completed_tile je w) (wallpapers s)) = true
  <-> others_downloaded s x y.
Proof.
  intros Hok Hw. rewrite all_downloaded_spec. unfold others_downloaded. split.
  - intros H x' y' w' Hw' Hne.
    specialize (H x' y').
    unfold downloaded_at in H. cbn [fst snd] in H.
    rewrite tile_at_grid_set_ne in H by congruence.
    rewrite Hw' in H. apply H.
    apply elem_of_grid_coords. now apply (grid_ok_range s x' y' w').
  - intros H x' y' Hin. unfold downloaded_at. cbn [fst snd].
    destruct (decide ((x, y) = (x', y'))) as [E|N].
    + injection E as <- <-. now rewrite (tile_at_grid_set_eq _ _ _ _ _ Hw).
    + rewrite tile_at_grid_set_ne by exact N.
      apply elem_of_grid_coords in Hin as [Hx Hy].
      destruct (grid_ok_lookup s x' y' Hok Hx Hy) as [w' Hw']. rewrite Hw'.
      apply (H x' y' w' Hw'). congruence.
Qed.

(** C1, as the code has it.  When the handler has taken a download for
    good (the success branch, and libjpeg returns), the commit is made if
    and only if every other wallpaper of the grid has its [downloaded]
    flag set; the flag says nothing of the geometry the wallpaper was
    fetched for.  With the commit the fade is started, the hooks are set,
    the textures of every wallpaper are rotated, and the timer is armed
    with [cycle_time] if [cycle] is on.  Without it nothing of that
    happens, and the completing wallpaper stays [downloaded]: as long as
    one wallpaper is not [downloaded], no completion of another one
    commits. *)
Theorem commit_iff_every_wallpaper_downloaded fe je fd mask x y s w t :
  grid_ok s ->
  Z.land mask WL_EVENT_READABLE <> 0 ->
  tile_at (wallpapers s) x y = Some w ->
  thread w = Some t ->
  wallpaper_shutdown s = false ->
  download_bad s w = false ->
  jpeg_outcome je <> JPEG_FATAL ->
  exists s' calls,
    download_complete fe je fd mask x y s = Ok (0, s', calls)
    /\ (In (FadeAnimate 0 1) calls <-> others_downloaded s x y)
    /\ (others_downloaded s x y ->
        fade_animation s' = (0, 1)
        /\ hook_set s' = true
        /\ (cycle s = true ->
            timer s' = Some (cycle_time s)
            /\ In (TimerSetTimeout (cycle_time s)) calls)
        /\ (cycle s = false -> timer s' = timer s)
        /\ (forall x' y' w',
              tile_at (wallpapers s) x' y' = Some w' -> (x', y') <> (x, y) ->
              exists w'',
                tile_at (wallpapers s') x' y' = Some w''
                /\ tex_from w'' = tex_to w' /\ tex_to w'' = tex_tmp w'
                /\ tex_tmp w'' = None /\ downloaded w'' = false)
        /\ (exists w'',
              tile_at (wallpapers s') x y = Some w''
              /\ tex_from w'' = tex_to w
              /\ tex_to w'' = Some (decoded_texture je (tex_tmp w))
              /\ tex_tmp w'' = None /\ downloaded w'' = false
              /\ thread w'' = None))
    /\ (~ others_downloaded s x y ->
        s' = set_wallpapers
               (grid_set x y (cleaned (completed_tile je w)) (wallpapers s)) s
        /\ downloaded (cleaned (completed_tile je w)) = true
        /\ tex_to (cleaned (completed_tile je w)) = tex_to w
        /\ ~ In (TimerSetTimeout (cycle_time s)) calls)
    /\ (forall x0 y0 w0,
          tile_at (wallpapers s) x0 y0 = Some w0 -> (x0, y0) <> (x, y) ->
          downloaded w0 = false ->
          ~ In (FadeAnimate 0 1) calls).
Proof.
  intros Hok Hm Hw Ht Hsh Hbad Hje.
  destruct (download_complete_success fe je fd mask x y s w t Hok Hm Hw Ht Hsh
              Hbad Hje) as (s' & E & _ & _ & _ & _ & _ & Hres).
  cbv zeta in E, Hres. sproj.
  pose proof (all_downloaded_others je s x y w Hok Hw) as Hiff.
  destruct (all_downloaded (grid_size (output s))
              (grid_set x y (completed_tile je w) (wallpapers s))) eqn:Hall.
  - assert (Hothers : others_downloaded s x y) by now apply Hiff.
    destruct Hres as (Htiles & Htimer & Hhook & Hfade).
    eexists s', _. split; [exact E|].
    split; [|split; [|split]].
    + split; [intros _; exact Hothers|intros _].
      apply in_or_app. right. apply in_or_app. right. apply in_or_app. left.
      unfold commit_calls. now left.
    + intros _. split; [exact Hfade|]. split; [exact Hhook|].
      split; [|split; [|split]].
      * intros Hcy. rewrite Htimer, Hcy. split; [reflexivity|].
        apply in_or_app. right. apply in_or_app. right. apply in_or_app. left.
        unfold commit_calls. right. apply in_or_app. right. rewrite Hcy. now left.
      * intros Hcy. now rewrite Htimer, Hcy.
      * intros x' y' w' Hw' Hne. exists (swap_in w'). split; [|repeat split].
        rewrite Htiles, tile_at_grid_set_ne, Hw' by congruence.
        cbn [fmap option_fmap option_map]. now rewrite decide_False.
      * exists (cleaned (swap_in (completed_tile je w))). split; [|repeat split].
        rewrite Htiles, (tile_at_grid_set_eq _ _ _ _ _ Hw).
        cbn [fmap option_fmap option_map]. now rewrite decide_True.
    + intros Hnot. contradiction.
    + intros x0 y0 w0 Hw0 Hne Hd0.
      rewrite (Hothers x0 y0 w0 Hw0 Hne) in Hd0. discriminate.
  - assert (Hnone : ~ others_downloaded s x y)
      by (intros H; apply Hiff in H; discriminate).
    assert (Hnofade : forall a b ms,
              ~ In (FadeAnimate a b)
                  ([Read fd; Fflush (image_fp w)] ++ decode_calls je (tex_tmp w)
                   ++ [] ++ clean_up_calls w t)
              /\ ~ In (TimerSetTimeout ms)
                  ([Read fd; Fflush (image_fp w)] ++ decode_calls je (tex_tmp w)
                   ++ [] ++ clean_up_calls w t)).
    { intros a b ms. unfold decode_calls, clean_up_calls.
      destruct (tex (default new_texture (tex_tmp w)) =? GLuint_minus_1);
        cbn; intuition discriminate. }
    eexists s', _. split; [exact E|].
    split; [|split; [|split]].
    + split; [intros H; now apply (proj1 (Hnofade 0 1 0)) in H|contradiction].
    + contradiction.
    + intros _. split; [exact Hres|]. repeat split.
      apply (proj2 (Hnofade 0 1 (cycle_time s))).
    + intros x0 y0 w0 _ _ _. apply (proj1 (Hnofade 0 1 0)).
Qed.

(** * Decoding *)

Lemma in_grid_calls (e : effect) (f : nat * nat -> list effect) l :
  In e (l ≫= f) -> exists p, In e (f p).
Proof.
  intros H. apply list_elem_of_In, list_elem_of_bind in H as (p & Hp & _).
  exists p. now apply list_elem_of_In.
Qed.

Lemma no_thread_create_in_success_calls je fd w t s (all_done : bool) a b c :
  ~ In (ThreadCreate a b c)
      ([Read fd; Fflush (image_fp w)] ++ decode_calls je (tex_tmp w)
       ++ (if all_done then commit_calls s else []) ++ clean_up_calls w t).
Proof.
  intros H.
  apply in_app_or in H as [H|H]; [cbn in H; intuition discriminate|].
  apply in_app_or in H as [H|H].
  { unfold decode_calls in H.
    destruct (tex (default new_texture (tex_tmp w)) =? GLuint_minus_1);
      cbn in H; intuition discriminate. }
  apply in_app_or in H as [H|H]; [|cbn in H; intuition discriminate].
  destruct all_done; [|contradiction].
  unfold commit_calls in H. destruct H as [H|H]; [discriminate|].
  apply in_app_or in H as [H|H].
  - destruct (hook_set s); [contradiction|].
    destruct H as [H|H]; [discriminate|].
    apply in_grid_calls in H as (p & [H|[]]). discriminate.
  - destruct (cycle s); [|contradiction]. destruct H as [H|[]]. discriminate.
Qed.

(** C9, as the code has it.  [texture_from_jpeg_fp] returns [true]
    whenever it returns, and the handler does not look at what it
    returns; the wallpaper is marked [downloaded] and its failure counter
    set to 0 before the image is decoded.  So no outcome of the decoder
    takes the failure branch: on corrupt data the handler does exactly
    what it does on a good image of that size (no failure counted, no
    retry, the texture goes to the barrier), and on a fatal error of
    libjpeg the process ends. *)
Theorem decode_outcome_is_not_inspected fe je fd mask x y s w t :
  grid_ok s ->
  Z.land mask WL_EVENT_READABLE <> 0 ->
  tile_at (wallpapers s) x y = Some w ->
  thread w = Some t ->
  wallpaper_shutdown s = false ->
  download_bad s w = false ->
  (forall t0 s0 r s0' c,
     texture_from_jpeg_fp je t0 s0 = Ok (r, s0', c) -> fst r = true)
  /\ (jpeg_outcome je = JPEG_FATAL ->
      download_complete fe je fd mask x y s = Fault ProcessExit)
  /\ (jpeg_outcome je <> JPEG_FATAL ->
      download_complete fe je fd mask x y s
      = download_complete fe
          (mk_jpeg_env JPEG_OK (jpeg_output_width je) (jpeg_output_height je)
             (gen_texture je)) fd mask x y s
      /\ exists s' calls w',
           download_complete fe je fd mask x y s = Ok (0, s', calls)
           /\ (forall a b c, ~ In (ThreadCreate a b c) calls)
           /\ tile_at (wallpapers s') x y = Some w'
           /\ failed_counter w' = 0
           /\ thread w' = None).
Proof.
  intros Hok Hm Hw Ht Hsh Hbad. split; [|split].
  - intros t0 s0 r s0' c H. unfold texture_from_jpeg_fp in H.
    destruct (jpeg_outcome je); [| |discriminate];
      destruct (tex _ =? GLuint_minus_1); cbv [bind emit ret] in H;
      apply Ok_inj in H as (<- & _ & _); reflexivity.
  - intros Hje. now apply download_complete_fatal with w t.
  - intros Hje. split.
    + rewrite (download_complete_succeeded fe je fd mask x y s w t) by assumption.
      rewrite (download_complete_succeeded fe _ fd mask x y s w t)
        by (try assumption; cbn; discriminate).
      reflexivity.
    + destruct (download_complete_success fe je fd mask x y s w t Hok Hm Hw Ht
                  Hsh Hbad Hje) as (s' & E & _ & _ & _ & _ & _ & Hres).
      cbv zeta in E, Hres. sproj.
      destruct (all_downloaded (grid_size (output s))
                  (grid_set x y (completed_tile je w) (wallpapers s))) eqn:Hall.
      * destruct Hres as (Htiles & _).
        eexists s', _, (cleaned (swap_in (completed_tile je w))).
        split; [exact E|]. split.
        { intros a b c. apply (no_thread_create_in_success_calls je fd w t s true). }
        split; [|split; reflexivity].
        rewrite Htiles, (tile_at_grid_set_eq _ _ _ _ _ Hw).
        cbn [fmap option_fmap option_map]. now rewrite decide_True.
      * eexists s', _, (cleaned (completed_tile je w)).
        split; [exact E|]. split.
        { intros a b c. apply (no_thread_create_in_success_calls je fd w t s false). }
        split; [|split; reflexivity].
        subst s'. find_tile.
Qed.

(** * What the worker flags *)


Lemma transfer_loop_turns wp env fuel :
  forall i repeats chunks acts n,
    transfer_loop fuel wp env i repeats chunks = Some (acts, n) -> (i < n)%nat.
Proof.
  induction fuel as [|fuel IH]; intros i repeats chunks acts n H; [discriminate|].
  rewrite transfer_loop_S in H. cbv zeta in H.
  destruct (negb (perform_mc (env i) =? CURLM_OK));
    [apply (inj Some) in H; injection H as _ <-; lia|].
  destruct (negb (wait_mc (env i) =? CURLM_OK));
    [apply (inj Some) in H; injection H as _ <-; lia|].
  destruct (still_running (env i) =? 0);
    [apply (inj Some) in H; injection H as _ <-; lia|].
  destruct (negb (shutdown_seen (env i))).
  - destruct (transfer_loop fuel wp env (S i) _ chunks) as [[rest n']|] eqn:E;
      [|discriminate].
    apply (inj Some) in H. injection H as _ <-. apply IH in E. lia.
  - destruct (chunks <? 10); [|apply (inj Some) in H; injection H as _ <-; lia].
    destruct (transfer_loop fuel wp env (S i) _ (chunks + 1)) as [[rest n']|] eqn:E;
      [|discriminate].
    apply (inj Some) in H. injection H as _ <-. apply IH in E. lia.
Qed.



Lemma worker_writes_image_buf acts :
  forall w, image_buf (worker_writes acts w) = image_buf w ++ received acts.
Proof.
  unfold worker_writes, received.
  induction acts as [|a acts IH]; intros w; cbn [fold_left mbind list_bind].
  - now rewrite app_nil_r.
  - rewrite IH. destruct a; cbn [worker_write]; wproj; try reflexivity.
    now rewrite app_assoc.
Qed.





(** * The two runs *)

Ltac by_worker s x y tr :=
  refine (step_worker 1 tr [] (actions_of s x y tr) x y (tile_of s x y) s
            eq_refl _ eq_refl);
  eexists; reflexivity.

Ltac by_handler fe je fd x y :=
  eapply (step_download_complete fe je fd 1 x y); vm_compute; reflexivity.

Lemma reachable_run_0 : reachable run_0.
Proof.
  eapply (reachable_init true 60000 example_output example_os).
  vm_compute. reflexivity.
Qed.

Lemma reachable_fail_4w : reachable fail_4w.
Proof.
  apply (reachable_step fail_3); [|by_worker fail_3 0%nat 0%nat failed_transfer].
  apply (reachable_step fail_3w);
    [|by_handler (example_os 0 0) example_jpeg 10 0%nat 0%nat].
  apply (reachable_step fail_2); [|by_worker fail_2 0%nat 0%nat failed_transfer].
  apply (reachable_step fail_2w);
    [|by_handler (example_os 0 0) example_jpeg 10 0%nat 0%nat].
  apply (reachable_step fail_1); [|by_worker fail_1 0%nat 0%nat failed_transfer].
  apply (reachable_step fail_1w);
    [|by_handler (example_os 0 0) example_jpeg 10 0%nat 0%nat].
  apply (reachable_step run_0); [|by_worker run_0 0%nat 0%nat failed_transfer].
  exact reachable_run_0.
Qed.

Lemma reachable_mixed_4w : reachable mixed_4w.
Proof.
  apply (reachable_step mixed_3); [|by_worker mixed_3 1%nat 0%nat good_transfer].
  apply (reachable_step mixed_3w);
    [|by_handler (example_os 1 0) example_jpeg 11 1%nat 0%nat].
  apply (reachable_step mixed_2); [|by_worker mixed_2 1%nat 0%nat good_transfer].
  apply (reachable_step mixed_1).
  2:{ eapply (step_output_config_changed example_os example_output_resized 2);
        [reflexivity|vm_compute; reflexivity]. }
  apply (reachable_step mixed_1w);
    [|by_handler (example_os 0 0) example_jpeg 10 0%nat 0%nat].
  apply (reachable_step run_0); [|by_worker run_0 0%nat 0%nat good_transfer].
  exact reachable_run_0.
Qed.

Lemma grid_ok_mixed_4w : grid_ok mixed_4w.
Proof. split; [reflexivity|]. repeat constructor. Qed.

Lemma grid_ok_run_0 : grid_ok run_0.
Proof. split; [reflexivity|]. repeat constructor. Qed.

(** * Examples *)

(** C1, as stated, fails in the second run.  The state [mixed_4w] is
    reached from [init]; [wallpapers[0][0]] was downloaded for 800x600,
    [wallpapers[1][0]] for 1024x768 after the output was resized.  The
    handler of [wallpapers[1][0]] commits all the same. *)
Lemma commit_with_two_geometries :
  reachable mixed_4w
  /\ download_bad mixed_4w (tile_of mixed_4w 1 0) = false
  /\ (exists s' calls,
        download_complete (example_os 1 0) example_jpeg_resized 11 1 1 0 mixed_4w
        = Ok (0, s', calls)
        /\ In (FadeAnimate 0 1) calls
        /\ tex_to (tile_of s' 0 0) = Some (mk_texture 7 800 600)
        /\ tex_to (tile_of s' 1 0) = Some (mk_texture 8 1024 768))
  /\ geometry (tile_of mixed_4w 0 0) = mk_box 0 0 800 600
  /\ geometry (tile_of mixed_4w 1 0) = mk_box 0 0 1024 768
  /\ ~ one_generation (wallpapers mixed_4w).
Proof.
  split; [exact reachable_mixed_4w|]. split; [reflexivity|]. split.
  - eexists _, _. split; [vm_compute; reflexivity|].
    split; [cbn; tauto|]. split; reflexivity.
  - split; [reflexivity|]. split; [reflexivity|].
    intros [geo H].
    pose proof (H 0%nat 0%nat _ eq_refl) as H0.
    pose proof (H 1%nat 0%nat _ eq_refl) as H1.
    rewrite <- H1 in H0. discriminate.
Qed.

Lemma commit_iff_every_wallpaper_downloaded_witness :
  exists s' calls,
    download_complete (example_os 1 0) example_jpeg_resized 11 1 1 0 mixed_4w
    = Ok (0, s', calls)
    /\ (In (FadeAnimate 0 1) calls <-> others_downloaded mixed_4w 1 0).
Proof.
  destruct (commit_iff_every_wallpaper_downloaded (example_os 1 0)
              example_jpeg_resized 11 1 1 0 mixed_4w (tile_of mixed_4w 1 0) 301)
    as (s' & calls & E & Hiff & _).
  - exact grid_ok_mixed_4w.
  - vm_compute. discriminate.
  - reflexivity.
  - reflexivity.
  - reflexivity.
  - reflexivity.
  - vm_compute. discriminate.
  - exists s', calls. split; [exact E|exact Hiff].
Defined.


Lemma commit_rotates_every_wallpaper_witness :
  exists s',
    commit (get_workspace_grid_size (output mixed_4w)) mixed_4w
    = Ok (tt, s', commit_calls mixed_4w)
    /\ forall x y w,
         tile_at (wallpapers mixed_4w) x y = Some w ->
         exists w',
           tile_at (wallpapers s') x y = Some w'
           /\ tex_from w' = tex_to w
           /\ tex_to w' = tex_tmp w
           /\ tex_tmp w' = None
           /\ downloaded w' = false
           /\ download_failed w' = false.
Proof.
  apply (commit_rotates_every_wallpaper mixed_4w).
  split; [reflexivity|]. repeat constructor.
Defined.

Lemma curl_download_notifies_exactly_once_witness :
  exists acts,
    curl_download 1 (tile_of run_0 0 0) good_transfer = Some acts
    /\ sig_writes acts = 1%nat
    /\ last acts = Some (WriteSigFd 10).
Proof.
  destruct (curl_download_notifies_exactly_once (tile_of run_0 0 0) good_transfer)
    as (Honce & Hends & _).
  destruct (Hends 0%nat) as [acts E]; [reflexivity|].
  exists acts. split; [exact E|].
  destruct (Honce 1%nat acts E) as (H1 & H2 & _). split; [exact H1|exact H2].
Defined.

Lemma shutdown_joins_and_releases_witness :
  download_complete (example_os 0 0) example_jpeg 10 1 0 0
    (set_wallpaper_shutdown true run_0)
  = Ok (0,
        set_wallpapers
          (grid_set 0 0 (cleaned (tile_of run_0 0 0))
             (wallpapers (set_wallpaper_shutdown true run_0)))
          (set_wallpaper_shutdown true run_0),
        [Read 10; EventSourceRemove 200; ThreadJoin 300; Fclose 100;
         FreeImagePtr; Close 10])
  /\ exists s' calls,
       fini run_0 = Ok (tt, s', calls)
       /\ wallpaper_shutdown s' = true
       /\ (forall x y w', tile_at (wallpapers s') x y = Some w' -> thread w' = None).
Proof.
  destruct shutdown_joins_and_releases as [Hhandler Hfini]. split.
  - apply (Hhandler (example_os 0 0) example_jpeg 10 1 0%nat 0%nat
             (set_wallpaper_shutdown true run_0) (tile_of run_0 0 0) 300).
    + vm_compute. discriminate.
    + reflexivity.
    + reflexivity.
    + reflexivity.
  - destruct (Hfini run_0) as (s' & calls & E & Hsh & Hnone & _).
    + split; [reflexivity|]. repeat constructor.
    + exists s', calls. split; [exact E|]. split; [exact Hsh|exact Hnone].
Defined.

Lemma shutdown_bounds_the_transfer_loop_witness :
  exists acts n,
    transfer_loop 11 (tile_of run_0 0 0) (fun _ => shutdown_step) 0 0 0
    = Some (acts, n)
    /\ (n <= 11)%nat.
Proof.
  destruct (shutdown_bounds_the_transfer_loop (tile_of run_0 0 0)
              (fun _ => shutdown_step) 0) as ((acts & n & E & Hn) & _).
  - intros j _. reflexivity.
  - exists acts, n. split; [exact E|exact Hn].
Defined.

Lemma stale_geometry_is_a_failed_download_witness :
  geometry_stale mixed_3w (tile_of mixed_3w 1 0) = true
  /\ download_failed (failed_tile mixed_3w (tile_of mixed_3w 1 0)) = true
  /\ exists s' calls w',
       download_complete (example_os 1 0) example_jpeg 11 1 1 0 mixed_3w
       = Ok (0, s', calls)
       /\ In (ThreadCreate 1 0 301) calls
       /\ tile_at (wallpapers s') 1 0 = Some w'
       /\ thread w' = Some 301
       /\ geometry w' = mk_box 0 0 1024 768.
Proof.
  destruct (stale_geometry_is_a_failed_download (example_os 1 0) example_jpeg
              11 1 1 0 mixed_3w (tile_of mixed_3w 1 0) 301 example_output)
    as (H1 & H2 & _ & _ & H3 & _).
  - vm_compute. discriminate.
  - reflexivity.
  - reflexivity.
  - reflexivity.
  - reflexivity.
  - vm_compute. discriminate.
  - split; [exact H1|]. split; [exact H2|].
    apply H3; vm_compute; [discriminate| |]; discriminate.
Defined.

Lemma update_wallpaper_live_thread_only_arms_timer_witness :
  update_wallpaper (example_os 0 0) 0 0 run_0
  = Ok (tt, set_timer (Some RETRY_TIMEOUT) run_0, [TimerSetTimeout RETRY_TIMEOUT]).
Proof.
  apply (update_wallpaper_live_thread_only_arms_timer (example_os 0 0) 0 0 run_0
           (tile_of run_0 0 0) 300).
  - reflexivity.
  - reflexivity.
Defined.



(** C9, as stated, fails on corrupt data: the wallpaper had failed once,
    and after the handler its counter is 0, no fetch is started, and the
    texture decoded from the corrupt data is in [to], the slot that is
    rendered. *)
Lemma corrupt_image_is_committed :
  jpeg_outcome example_jpeg_corrupt = JPEG_CORRUPT
  /\ failed_counter (tile_of mixed_4w 1 0) = 1
  /\ exists s' calls,
       download_complete (example_os 1 0) example_jpeg_corrupt 11 1 1 0 mixed_4w
       = Ok (0, s', calls)
       /\ failed_counter (tile_of s' 1 0) = 0
       /\ thread (tile_of s' 1 0) = None
       /\ tex_to (tile_of s' 1 0) = Some (mk_texture 8 1024 768)
       /\ In (FadeAnimate 0 1) calls
       /\ forall a b c, ~ In (ThreadCreate a b c) calls.
Proof.
  split; [reflexivity|]. split; [reflexivity|].
  eexists _, _. split; [vm_compute; reflexivity|].
  repeat (split; [reflexivity|]). split; [cbn; tauto|].
  intros a b c. cbn. intuition discriminate.
Qed.

Lemma decode_outcome_is_not_inspected_witness :
  download_complete (example_os 1 0) example_jpeg_corrupt 11 1 1 0 mixed_4w
  = download_complete (example_os 1 0)
      (mk_jpeg_env JPEG_OK 1024 768 8) 11 1 1 0 mixed_4w.
Proof.
  destruct (decode_outcome_is_not_inspected (example_os 1 0) example_jpeg_corrupt
              11 1 1 0 mixed_4w (tile_of mixed_4w 1 0) 301)
    as (_ & _ & H).
  - split; [reflexivity|]. repeat constructor.
  - vm_compute. discriminate.
  - reflexivity.
  - reflexivity.
  - reflexivity.
  - reflexivity.
  - destruct H as [E _]; [vm_compute; discriminate|]. exact E.
Defined.

(** * [update_texture] and [update_textures], wallpaper by wallpaper *)

Lemma for_each_prefix {A} (J : list A -> screen -> list effect -> Prop)
    (l : list A) body :
  (forall pre a post s c,
     l = pre ++ a :: post -> J pre s c ->
     exists s' c', body a s = Ok (tt, s', c') /\ J (pre ++ [a]) s' (c ++ c')) ->
  forall s, J [] s [] ->
  exists s' c, for_each l body s = Ok (tt, s', c) /\ J l s' c.
Proof.
  intros Hbody.
  assert (G : forall post pre s c, l = pre ++ post -> J pre s c ->
            exists s' c', for_each post body s = Ok (tt, s', c')
                          /\ J l s' (c ++ c')).
  { induction post as [|a post IH]; intros pre s c El HJ.
    - exists s, []. split; [reflexivity|].
      rewrite app_nil_r in El. rewrite app_nil_r. now subst.
    - destruct (Hbody pre a post s c El HJ) as (s1 & c1 & E1 & HJ1).
      destruct (IH (pre ++ [a]) s1 (c ++ c1)) as (s2 & c2 & E2 & HJ2).
      { rewrite <- app_assoc. exact El. }
      { exact HJ1. }
      exists s2, (c1 ++ c2). split.
      + cbn [for_each]. rewrite (bind_Ok _ _ _ _ _ _ E1). rewrite E2.
        reflexivity.
      + now rewrite app_assoc. }
  intros s H0. destruct (G l [] s [] eq_refl H0) as (s' & c & E & HJ).
  exists s', c. split; [exact E|exact HJ].
Qed.

Lemma update_texture_spec fe x y s w :
  tile_at (wallpapers s) x y = Some w ->
  update_texture fe x y s
  = Ok (tt,
        set_timer (restart_timer fe w (timer s))
          (set_wallpapers (grid_set x y (restarted_tile fe s w) (wallpapers s)) s),
        restart_calls fe x y w).
Proof.
  intros Hw. unfold update_texture, restarted_tile, restart_calls, restart_timer.
  repeat mstep.
  destruct (downloaded w) eqn:Hdl; [reflexivity|].
  destruct (thread w) as [t|] eqn:Ht.
  - erewrite update_wallpaper_live by (first [find_tile | wproj; exact Ht]).
    reflexivity.
  - destruct (Z.eqb_spec (eventfd_ret fe) (-1)) as [Hfd|Hfd].
    + erewrite update_wallpaper_no_eventfd
        by (first [find_tile | wproj; exact Ht | exact Hfd]).
      mnorm. rewrite Hfd. reflexivity.
    + destruct (Z.eqb_spec (open_memstream_ret fe) 0) as [Hfp|Hfp].
      * erewrite update_wallpaper_no_stream
          by (first [find_tile | wproj; exact Ht | exact Hfd | exact Hfp]).
        mnorm. rewrite Hfp. reflexivity.
      * erewrite update_wallpaper_started
          by (first [find_tile | wproj; exact Ht | exact Hfd | exact Hfp]).
        mnorm. reflexivity.
Qed.

Lemma same_shape_grid_set x y w g : same_shape g (grid_set x y w g).
Proof. apply same_shape_alter. Qed.

Lemma restart_timers_snoc os g l p tm :
  restart_timers os g (l ++ [p]) tm
  = from_option (fun w => restart_timer (os p.1 p.2) w (restart_timers os g l tm))
      (restart_timers os g l tm) (tile_at g p.1 p.2).
Proof. unfold restart_timers. now rewrite fold_left_app. Qed.

Lemma update_texture_loop os s0 :
  grid_ok s0 ->
  exists s' calls,
    for_grid (grid_size (output s0)) (fun x y => update_texture (os x y) x y) s0
    = Ok (tt, s', calls)
    /\ same_but_fetches s0 s'
    /\ same_shape (wallpapers s0) (wallpapers s')
    /\ (forall x y,
          tile_at (wallpapers s') x y
          = restarted_tile (os x y) s0 <$> tile_at (wallpapers s0) x y)
    /\ timer s'
       = restart_timers os (wallpapers s0) (grid_coords (grid_size (output s0)))
           (timer s0)
    /\ calls
       = (grid_coords (grid_size (output s0)) ≫=
            (fun p => from_option (restart_calls (os p.1 p.2) p.1 p.2) []
                        (tile_at (wallpapers s0) p.1 p.2))).
Proof.
  intros Hok. rewrite for_grid_coords.
  set (l := grid_coords (grid_size (output s0))).
  pose (J := fun (pre : list (nat * nat)) (s : screen) (c : list effect) =>
    same_but_fetches s0 s
    /\ same_shape (wallpapers s0) (wallpapers s)
    /\ (forall x y,
          tile_at (wallpapers s) x y
          = if decide ((x, y) ∈ pre)
            then restarted_tile (os x y) s0 <$> tile_at (wallpapers s0) x y
            else tile_at (wallpapers s0) x y)
    /\ timer s = restart_timers os (wallpapers s0) pre (timer s0)
    /\ c = (pre ≫= (fun p => from_option (restart_calls (os p.1 p.2) p.1 p.2) []
                               (tile_at (wallpapers s0) p.1 p.2)))).
  destruct (for_each_prefix J l
              (fun p => update_texture (os p.1 p.2) p.1 p.2)) with (s := s0)
    as (s' & calls & E & Hsame & Hshape & Htiles & Htimer & Hcalls).
  - intros pre [x y] post s c El (Hsame & Hshape & Htiles & Htimer & Hcalls).
    assert (Hnd : NoDup (pre ++ (x, y) :: post))
      by (rewrite <- El; apply NoDup_grid_coords).
    apply NoDup_app in Hnd as (_ & Hfresh & _).
    assert (Hnotin : (x, y) ∉ pre).
    { intros Hin. apply (Hfresh _ Hin). now left. }
    assert (Hin : (x, y) ∈ l).
    { rewrite El. apply elem_of_app. right. now left. }
    apply elem_of_grid_coords in Hin as [Hx Hy].
    destruct (grid_ok_lookup s0 x y Hok Hx Hy) as [w Hw0].
    assert (Hw : tile_at (wallpapers s) x y = Some w).
    { rewrite Htiles. now rewrite decide_False. }
    cbn [fst snd]. rewrite (update_texture_spec _ _ _ _ _ Hw).
    eexists _, _. split; [reflexivity|].
    destruct Hsame as (H1 & H2 & H3 & H4 & H5 & H6).
    split; [|split; [|split; [|split]]].
    + repeat split; sproj; assumption.
    + sproj. eapply same_shape_trans; [exact Hshape|].
      apply same_shape_grid_set.
    + intros x' y'. sproj. unfold grid_set. rewrite tile_at_alter.
      destruct (decide ((x, y) = (x', y'))) as [Eq|Ne].
      * injection Eq as <- <-.
        rewrite (decide_True (P := (x, y) ∈ pre ++ [(x, y)]))
          by (apply elem_of_app; right; now left).
        rewrite Hw, Hw0. cbn [fmap option_fmap option_map].
        f_equal. unfold restarted_tile, started_tile. now rewrite H6.
      * rewrite Htiles.
        destruct (decide ((x', y') ∈ pre)) as [Hp|Hp].
        -- rewrite (decide_True (P := (x', y') ∈ pre ++ [(x, y)]))
             by (apply elem_of_app; now left).
           reflexivity.
        -- rewrite (decide_False (P := (x', y') ∈ pre ++ [(x, y)]));
             [reflexivity|].
           intros H. apply elem_of_app in H as [H|H]; [tauto|].
           apply list_elem_of_singleton in H. congruence.
    + sproj. rewrite restart_timers_snoc. cbn [fst snd]. rewrite Hw0.
      cbn [from_option]. now rewrite Htimer.
    + rewrite Hcalls, bind_app. cbn [mbind list_bind fst snd].
      rewrite Hw0. cbn [from_option]. now rewrite app_nil_r.
  - subst J. cbn beta. split; [|split; [|split; [|split]]].
    + repeat split.
    + apply same_shape_refl.
    + intros x y. rewrite decide_False; [reflexivity|]. apply not_elem_of_nil.
    + reflexivity.
    + reflexivity.
  - exists s', calls. split; [exact E|]. split; [exact Hsame|].
    split; [exact Hshape|]. split; [|split; [exact Htimer|exact Hcalls]].
    intros x y. rewrite Htiles.
    destruct (decide ((x, y) ∈ l)) as [Hin|Hout]; [reflexivity|].
    destruct (tile_at (wallpapers s0) x y) as [w|] eqn:Hw; [|reflexivity].
    exfalso. apply Hout. apply elem_of_grid_coords.
    now apply (grid_ok_range s0 x y w).
Qed.

Lemma grid_ok_same_shape s s' :
  grid_ok s -> output s' = output s ->
  same_shape (wallpapers s) (wallpapers s') -> grid_ok s'.
Proof.
  intros [Hl Hc] Ho [Hl' Hc']. split.
  - rewrite Ho, Hl'. exact Hl.
  - rewrite Ho. apply Hc'. exact Hc.
Qed.

(** The whole of [update_textures]. *)
Lemma update_textures_spec os s :
  grid_ok s ->
  exists s' calls,
    update_textures os s = Ok (tt, s', calls)
    /\ same_but_fetches s s'
    /\ grid_ok s'
    /\ (forall x y,
          tile_at (wallpapers s') x y
          = restarted_tile (os x y) s <$> tile_at (wallpapers s) x y)
    /\ timer s'
       = restart_timers os (wallpapers s) (grid_coords (grid_size (output s))) None
    /\ calls
       = (if is_connected (timer s) then [TimerDisconnect] else [])
         ++ (grid_coords (grid_size (output s)) ≫=
               (fun p => from_option (restart_calls (os p.1 p.2) p.1 p.2) []
                           (tile_at (wallpapers s) p.1 p.2)))
         ++ [DamageWhole].
Proof.
  intros Hok. unfold update_textures. rewrite bind_get.
  set (s0 := set_timer None s).
  assert (Hok0 : grid_ok s0) by exact Hok.
  destruct (update_texture_loop os s0 Hok0)
    as (s' & calls & E & Hsame & Hshape & Htiles & Htimer & Hcalls).
  assert (Hgo : grid_ok s')
    by (apply (grid_ok_same_shape s0); [exact Hok0|apply Hsame|exact Hshape]).
  destruct (timer s) as [ms|] eqn:Htm; cbn [is_connected].
  - unfold timer_disconnect. repeat mstep. fold s0.
    unfold get_workspace_grid_size.
    change (grid_size (output s)) with (grid_size (output s0)).
    rewrite (bind_Ok _ _ _ _ _ _ E). repeat mstep. mlast.
    eexists _, _. split; [reflexivity|].
    split; [exact Hsame|]. split; [exact Hgo|].
    split; [exact Htiles|]. split; [exact Htimer|].
    rewrite Hcalls. reflexivity.
  - repeat mstep.
    assert (Es : s0 = s).
    { subst s0. destruct s. cbn in Htm. subst. reflexivity. }
    rewrite Es in *. unfold get_workspace_grid_size.
    rewrite (bind_Ok _ _ _ _ _ _ E). repeat mstep. mlast.
    eexists _, _. split; [reflexivity|].
    split; [exact Hsame|]. split; [exact Hgo|].
    split; [exact Htiles|]. split; [now rewrite Htimer, Htm|].
    rewrite Hcalls. reflexivity.
Qed.

Lemma restarted_tile_failed_counter fe s w :
  failed_counter (restarted_tile fe s w) = 0.
Proof.
  unfold restarted_tile.
  destruct (downloaded w), (thread w), (eventfd_ret fe =? -1),
    (open_memstream_ret fe =? 0); reflexivity.
Qed.

Lemma restarted_tile_kept fe s w :
  downloaded w = true \/ is_Some (thread w) ->
  restarted_tile fe s w = set_failed_counter 0 w.
Proof.
  unfold restarted_tile. intros [H|[t H]]; rewrite H.
  - reflexivity.
  - now destruct (downloaded w).
Qed.

Lemma restarted_tile_started fe s w :
  downloaded w = false -> thread w = None ->
  eventfd_ret fe <> -1 -> open_memstream_ret fe <> 0 ->
  restarted_tile fe s w = started_tile fe s (set_failed_counter 0 w).
Proof.
  unfold restarted_tile. intros -> -> Hfd Hfp.
  apply Z.eqb_neq in Hfd, Hfp. now rewrite Hfd, Hfp.
Qed.

Lemma thread_create_in_restart_calls fe x y w x' y' t :
  In (ThreadCreate x' y' t) (restart_calls fe x y w)
  <-> x' = x /\ y' = y /\ t = new_thread fe
      /\ downloaded w = false /\ thread w = None
      /\ eventfd_ret fe <> -1 /\ open_memstream_ret fe <> 0.
Proof.
  unfold restart_calls.
  destruct (downloaded w); [cbn; intuition discriminate|].
  destruct (thread w); [cbn; intuition discriminate|].
  destruct (Z.eqb_spec (eventfd_ret fe) (-1)) as [Hfd|Hfd];
    [cbn; intuition (discriminate || congruence)|].
  destruct (Z.eqb_spec (open_memstream_ret fe) 0) as [Hfp|Hfp];
    [cbn; intuition (discriminate || congruence)|].
  cbn. split.
  - intros [H|[H|[H|[H|[]]]]]; try discriminate.
    injection H as <- <- <-. repeat split; assumption.
  - intros (-> & -> & -> & _). tauto.
Qed.

Lemma restart_timers_range os g l :
  forall tm,
    restart_timers os g l tm = tm
    \/ restart_timers os g l tm = None
    \/ (restart_timers os g l tm = Some RETRY_TIMEOUT
        /\ exists p w, p ∈ l /\ tile_at g p.1 p.2 = Some w /\ in_flight w = true).
Proof.
  induction l as [|p l IH]; intros tm; [now left|].
  unfold restart_timers in *. cbn [fold_left].
  set (tm1 := from_option _ _ _).
  assert (H1 : tm1 = tm \/ tm1 = None
               \/ (tm1 = Some RETRY_TIMEOUT
                   /\ exists w, tile_at g p.1 p.2 = Some w /\ in_flight w = true)).
  { subst tm1. destruct (tile_at g p.1 p.2) as [w|]; [|now left].
    cbn [from_option]. unfold restart_timer.
    destruct (downloaded w) eqn:Hdl; [now left|].
    destruct (thread w) as [t|] eqn:Ht.
    - right; right. split; [reflexivity|]. exists w. split; [reflexivity|].
      unfold in_flight. now rewrite Hdl, Ht.
    - destruct (eventfd_ret (os p.1 p.2) =? -1),
        (open_memstream_ret (os p.1 p.2) =? 0); cbn [orb]; auto. }
  destruct (IH tm1) as [E|[E|(E & q & w & Hq & Hw & Hf)]].
  - rewrite E. destruct H1 as [H1|[H1|(H1 & w & Hw & Hf)]]; [tauto..|].
    right; right. split; [exact H1|]. exists p, w. split; [now left|tauto].
  - tauto.
  - right; right. split; [exact E|]. exists q, w. split; [now right|tauto].
Qed.

Lemma restart_timers_in_flight os g l :
  fetches_can_start os ->
  forall tm,
    tm = Some RETRY_TIMEOUT
    \/ (exists p w, p ∈ l /\ tile_at g p.1 p.2 = Some w /\ in_flight w = true) ->
    restart_timers os g l tm = Some RETRY_TIMEOUT.
Proof.
  intros Hos. induction l as [|p l IH]; intros tm H.
  - destruct H as [H|(p & w & Hp & _)]; [exact H|].
    now apply elem_of_nil in Hp.
  - unfold restart_timers in *. cbn [fold_left]. apply IH.
    destruct (tile_at g p.1 p.2) as [w|] eqn:Hw; cbn [from_option].
    + unfold restart_timer.
      destruct (Hos p.1 p.2) as [Hfd Hfp]. apply Z.eqb_neq in Hfd, Hfp.
      rewrite Hfd, Hfp. cbn [orb].
      destruct H as [H|(q & w' & Hq & Hw' & Hf)].
      * left. now destruct (downloaded w), (thread w).
      * apply elem_of_cons in Hq as [->|Hq].
        -- rewrite Hw in Hw'. injection Hw' as <-.
           unfold in_flight in Hf.
           destruct (downloaded w); [discriminate|].
           destruct (thread w); [now left|discriminate].
        -- destruct (downloaded w); [right; eauto|].
           destruct (thread w); [now left|right; eauto].
    + destruct H as [H|(q & w' & Hq & Hw' & Hf)]; [now left|].
      apply elem_of_cons in Hq as [->|Hq]; [congruence|].
      right. eauto.
Qed.

(** X1.  [update_textures] runs to its end on a grid of the right shape
    and leaves every wallpaper with a failure count of 0.  A wallpaper
    that is [downloaded], or whose fetch is in flight, is otherwise left
    exactly as it was: its image, its textures and its thread are not
    touched. *)
Theorem update_textures_resets_failure_counts os s :
  grid_ok s ->
  exists s' calls,
    update_textures os s = Ok (tt, s', calls)
    /\ grid_ok s'
    /\ (forall x y w',
          tile_at (wallpapers s') x y = Some w' -> failed_counter w' = 0)
    /\ (forall x y w,
          tile_at (wallpapers s) x y = Some w ->
          downloaded w = true \/ is_Some (thread w) ->
          tile_at (wallpapers s') x y = Some (set_failed_counter 0 w)).
Proof.
  intros Hok.
  destruct (update_textures_spec os s Hok)
    as (s' & calls & E & _ & Hok' & Htiles & _ & _).
  exists s', calls. split; [exact E|]. split; [exact Hok'|]. split.
  - intros x y w' Hw'. rewrite Htiles in Hw'.
    destruct (tile_at (wallpapers s) x y) as [w|]; [|discriminate].
    injection Hw' as <-. apply restarted_tile_failed_counter.
  - intros x y w Hw Hkeep. rewrite Htiles, Hw. cbn.
    now rewrite restarted_tile_kept.
Qed.

(** X2.  [update_textures] creates a thread for [wallpapers[x][y]]
    exactly when that wallpaper is not [downloaded], has no thread, and
    [eventfd] and [open_memstream] succeed for it.  So a wallpaper never
    gets a second worker beside a live one, and a wallpaper that waits
    for the others at the barrier is not fetched again. *)
Theorem update_textures_starts_missing_fetches_only os s :
  grid_ok s ->
  exists s' calls,
    update_textures os s = Ok (tt, s', calls)
    /\ forall x y t,
         In (ThreadCreate x y t) calls
         <-> exists w,
               tile_at (wallpapers s) x y = Some w
               /\ downloaded w = false /\ thread w = None
               /\ eventfd_ret (os x y) <> -1
               /\ open_memstream_ret (os x y) <> 0
               /\ t = new_thread (os x y).
Proof.
  intros Hok.
  destruct (update_textures_spec os s Hok)
    as (s' & calls & E & _ & _ & _ & _ & Hcalls).
  exists s', calls. split; [exact E|]. intros x y t. rewrite Hcalls. split.
  - intros H. apply in_app_iff in H as [H|H].
    { destruct (is_connected (timer s)); cbn in H; intuition discriminate. }
    apply in_app_iff in H as [H|H]; [|cbn in H; intuition discriminate].
    apply in_grid_calls in H as [p H].
    destruct (tile_at (wallpapers s) p.1 p.2) as [w|] eqn:Hw; [|destruct H].
    cbn [from_option] in H. apply thread_create_in_restart_calls in H.
    destruct H as (-> & -> & -> & H). exists w. tauto.
  - intros (w & Hw & Hdl & Ht & Hfd & Hfp & ->).
    apply in_app_iff. right. apply in_app_iff. left.
    apply list_elem_of_In. apply list_elem_of_bind. exists (x, y). split.
    + cbn [fst snd]. rewrite Hw. cbn [from_option].
      apply list_elem_of_In. apply thread_create_in_restart_calls. tauto.
    + apply elem_of_grid_coords. now apply (grid_ok_range s x y w).
Qed.

(** X3.  When [eventfd] and [open_memstream] succeed, [update_textures]
    leaves every wallpaper either [downloaded] or with a fetch in flight;
    a fetch it starts itself is for the geometry the output has now and
    begins with an empty stream. *)
Theorem update_textures_gets_pending_wallpapers_fetching os s :
  grid_ok s ->
  fetches_can_start os ->
  exists s' calls,
    update_textures os s = Ok (tt, s', calls)
    /\ (forall x y w',
          tile_at (wallpapers s') x y = Some w' ->
          downloaded w' = true \/ is_Some (thread w'))
    /\ (forall x y w,
          tile_at (wallpapers s) x y = Some w ->
          downloaded w = false -> thread w = None ->
          exists w',
            tile_at (wallpapers s') x y = Some w'
            /\ thread w' = Some (new_thread (os x y))
            /\ geometry w' = get_relative_geometry (output s)
            /\ image_buf w' = []
            /\ sig_fd w' = eventfd_ret (os x y)
            /\ downloaded w' = false).
Proof.
  intros Hok Hos.
  destruct (update_textures_spec os s Hok)
    as (s' & calls & E & _ & _ & Htiles & _ & _).
  exists s', calls. split; [exact E|]. split.
  - intros x y w' Hw'. rewrite Htiles in Hw'.
    destruct (tile_at (wallpapers s) x y) as [w|]; [|discriminate].
    injection Hw' as <-.
    destruct (downloaded w) eqn:Hdl.
    { left. rewrite restarted_tile_kept by now left. exact Hdl. }
    right. destruct (thread w) as [t|] eqn:Ht.
    { rewrite restarted_tile_kept by (right; rewrite Ht; eauto).
      wproj. rewrite Ht. eauto. }
    destruct (Hos x y) as [Hfd Hfp].
    rewrite restarted_tile_started by assumption.
    unfold started_tile. wproj. eauto.
  - intros x y w Hw Hdl Ht. destruct (Hos x y) as [Hfd Hfp].
    exists (started_tile (os x y) s (set_failed_counter 0 w)).
    rewrite Htiles, Hw. cbn [fmap option_fmap option_map].
    rewrite restarted_tile_started by assumption.
    unfold started_tile. wproj. repeat split. exact Hdl.
Qed.

(** X4.  [update_textures] never leaves the timer armed for the cycle
    time: when it returns the timer is disconnected or armed for
    [RETRY_TIMEOUT], and it is armed only if a fetch was in flight when
    it was called, the one case in which [update_wallpaper] asks to be
    called again.  When [eventfd] and [open_memstream] succeed the
    converse holds too. *)
Theorem update_textures_leaves_only_the_retry_timer os s :
  grid_ok s ->
  exists s' calls,
    update_textures os s = Ok (tt, s', calls)
    /\ (timer s' = None \/ timer s' = Some RETRY_TIMEOUT)
    /\ (timer s' = Some RETRY_TIMEOUT ->
        exists x y w, tile_at (wallpapers s) x y = Some w /\ in_flight w = true)
    /\ (fetches_can_start os ->
        (exists x y w, tile_at (wallpapers s) x y = Some w /\ in_flight w = true) ->
        timer s' = Some RETRY_TIMEOUT)
    /\ (is_connected (timer s) = true -> In TimerDisconnect calls).
Proof.
  intros Hok.
  destruct (update_textures_spec os s Hok)
    as (s' & calls & E & _ & _ & _ & Htimer & Hcalls).
  exists s', calls. split; [exact E|].
  pose proof (restart_timers_range os (wallpapers s)
                (grid_coords (grid_size (output s))) None) as Hr.
  rewrite <- Htimer in Hr.
  split; [|split; [|split]].
  - destruct Hr as [H|[H|[H _]]]; tauto.
  - intros Hs.
    destruct Hr as [H|[H|(_ & [x y] & w & _ & Hw & Hf)]]; [congruence..|].
    exists x, y, w. tauto.
  - intros Hos (x & y & w & Hw & Hf). rewrite Htimer.
    apply restart_timers_in_flight; [exact Hos|]. right.
    exists (x, y), w. split; [|tauto].
    apply elem_of_grid_coords. now apply (grid_ok_range s x y w).
  - intros Hc. rewrite Hcalls, Hc. now left.
Qed.

(** X5.  [init] on a fresh plugin object, when [eventfd] and
    [open_memstream] succeed: it returns with a grid of the size of the
    workspace grid, places the view of every wallpaper at its workspace,
    and has started one fetch per workspace, each for the geometry of the
    output.  The timer is not armed and no hook is set. *)
Theorem init_starts_one_fetch_per_workspace os cy cy_time o :
  fetches_can_start os ->
  exists s calls,
    init os (new_screen cy cy_time o) = Ok (tt, s, calls)
    /\ grid_ok s /\ output s = o
    /\ timer s = None /\ hook_set s = false /\ wallpaper_shutdown s = false
    /\ forall x y,
         (x < Z.to_nat (dim_width (grid_size o)))%nat ->
         (y < Z.to_nat (dim_height (grid_size o)))%nat ->
         tile_at (wallpapers s) x y
         = Some (started_tile (os x y) (new_screen cy cy_time o) fresh_wallpaper)
         /\ In (ViewSetGeometry x y (view_box (get_relative_geometry o) x y)) calls
         /\ In (ThreadCreate x y (new_thread (os x y))) calls.
Proof.
  intros Hos. unfold init. repeat mstep. cbv zeta.
  set (s0 := set_wallpapers _ _).
  assert (Hok0 : grid_ok s0).
  { subst s0. split; sproj.
    - apply length_replicate.
    - apply Forall_replicate. apply length_replicate. }
  assert (Hfresh : forall x y w, tile_at (wallpapers s0) x y = Some w ->
                                 w = fresh_wallpaper).
  { intros x y w Hw. subst s0. sproj. now apply tile_at_replicate in Hw. }
  change (get_workspace_grid_size
            (output (set_fade_animation (0, 0) (new_screen cy cy_time o))))
    with (grid_size (output s0)).
  rewrite (bind_Ok _ _ _ _ _ _ (read_only_grid_loop _ s0 Hok0)).
  destruct (update_textures_spec os s0 Hok0)
    as (s' & calls & E & Hsame & Hok' & Htiles & Htimer & Hcalls).
  rewrite E. cbn [after]. exists s'. eexists. split; [reflexivity|].
  destruct Hsame as (H1 & H2 & _ & _ & _ & H6).
  split; [exact Hok'|]. split; [exact H6|]. split; [|split; [exact H1|split; [exact H2|]]].
  - pose proof (restart_timers_range os (wallpapers s0)
                  (grid_coords (grid_size (output s0))) None) as Hr.
    rewrite <- Htimer in Hr.
    destruct Hr as [H|[H|(_ & p & w & _ & Hw & Hf)]]; [assumption..|].
    apply Hfresh in Hw. subst w. discriminate.
  - intros x y Hx Hy.
    destruct (grid_ok_lookup s0 x y Hok0 Hx Hy) as [w Hw].
    pose proof (Hfresh _ _ _ Hw) as ->.
    destruct (Hos x y) as [Hfd Hfp].
    assert (Hin : (x, y) ∈ grid_coords (grid_size (output s0)))
      by now apply elem_of_grid_coords.
    split; [|split].
    + rewrite Htiles, Hw. cbn [fmap option_fmap option_map].
      rewrite restarted_tile_started by (reflexivity || assumption).
      reflexivity.
    + apply in_app_iff. left. apply list_elem_of_In, list_elem_of_bind.
      exists (x, y). split; [now left|exact Hin].
    + apply in_app_iff. right. rewrite Hcalls.
      apply in_app_iff. right. apply in_app_iff. left.
      apply list_elem_of_In, list_elem_of_bind. exists (x, y).
      split; [|exact Hin]. cbn [fst snd]. rewrite Hw. cbn [from_option].
      apply list_elem_of_In, thread_create_in_restart_calls.
      repeat split; assumption.
Qed.

(** * The handler, branch by branch *)

Lemma download_complete_failure fe je fd mask x y s w t :
  Z.land mask WL_EVENT_READABLE <> 0 ->
  tile_at (wallpapers s) x y = Some w ->
  thread w = Some t ->
  wallpaper_shutdown s = false ->
  download_bad s w = true ->
  exists w' tm calls',
    download_complete fe je fd mask x y s
    = Ok (0, set_timer tm (set_wallpapers (grid_set x y w' (wallpapers s)) s),
          ([Read fd; Fflush (image_fp w)] ++ clean_up_calls w t) ++ calls')
    /\ tex_from w' = tex_from w /\ tex_to w' = tex_to w /\ tex_tmp w' = tex_tmp w
    /\ downloaded w' = downloaded w
    /\ download_failed w' = false
    /\ failed_counter w' = failed_counter w + 1
    /\ (tm = timer s \/ tm = None \/ tm = Some RETRY_TIMEOUT)
    /\ (forall e, In e calls' -> retry_call fe x y e)
    /\ (thread w' = None /\ ~ In (ThreadCreate x y (new_thread fe)) calls'
        \/ thread w' = Some (new_thread fe)
           /\ failed_counter w + 1 <= 3
           /\ In (ThreadCreate x y (new_thread fe)) calls'
           /\ geometry w' = get_relative_geometry (output s)
           /\ image_buf w' = []
           /\ image_fp w' <> 0 /\ sig_fd w' <> -1).
Proof.
  intros Hm Hw Ht Hsh Hbad.
  rewrite (download_complete_failed _ _ _ _ _ _ _ w t) by assumption.
  destruct (Z.ltb_spec 3 (failed_counter w + 1)) as [Hgt|Hle].
  - (* the timer *)
    repeat mstep.
    destruct (timer s) as [ms|] eqn:Htimer; cbn [is_connected].
    + repeat mstep. mlast.
      exists (set_download_failed false (failed_tile s w)), (timer s), [].
      split; [reflexivity|].
      repeat (split; [reflexivity|]).
      split; [now left|]. split; [intros e []|].
      left. split; [reflexivity|intros []].
    + unfold timer_set_timeout. repeat mstep. mlast.
      exists (set_download_failed false (failed_tile s w)), (Some RETRY_TIMEOUT),
        [TimerSetTimeout RETRY_TIMEOUT].
      split; [reflexivity|].
      repeat (split; [reflexivity|]).
      split; [now right; right|]. split.
      * intros e [<-|[]]. now left.
      * left. split; [reflexivity|]. intros [H|[]]. discriminate.
  - (* the retry *)
    set (s1 := set_wallpapers (grid_set x y (failed_tile s w) (wallpapers s)) s) in *.
    assert (Hw1 : tile_at (wallpapers s1) x y = Some (failed_tile s w))
      by (subst s1; find_tile).
    assert (Ht1 : thread (failed_tile s w) = None) by reflexivity.
    destruct (Z.eq_dec (eventfd_ret fe) (-1)) as [Hfd|Hfd].
    + rewrite (bind_Ok _ _ _ _ _ _
                 (update_wallpaper_no_eventfd fe x y s1 _ Hw1 Ht1 Hfd)).
      subst s1. repeat mstep. mlast.
      exists (set_download_failed false (set_sig_fd (-1) (failed_tile s w))),
        None, [Eventfd (-1); TimerDisconnect].
      split; [reflexivity|].
      repeat (split; [reflexivity|]).
      split; [now right; left|]. split.
      * rewrite <- Hfd. intros e [<-|[<-|[]]]; unfold retry_call; tauto.
      * left. split; [reflexivity|]. intros [H|[H|[]]]; discriminate.
    + destruct (Z.eq_dec (open_memstream_ret fe) 0) as [Hfp|Hfp].
      * rewrite (bind_Ok _ _ _ _ _ _
                   (update_wallpaper_no_stream fe x y s1 _ Hw1 Ht1 Hfd Hfp)).
        subst s1. repeat mstep. mlast.
        exists (set_download_failed false
                  (set_image_buf []
                     (set_image_fp 0
                        (set_sig_fd (eventfd_ret fe) (failed_tile s w))))),
          None,
          [Eventfd (eventfd_ret fe); OpenMemstream 0; TimerDisconnect;
           Close (eventfd_ret fe)].
        split; [reflexivity|].
        repeat (split; [reflexivity|]).
        split; [now right; left|]. split.
        -- rewrite <- Hfp.
           intros e [<-|[<-|[<-|[<-|[]]]]]; unfold retry_call; tauto.
        -- left. split; [reflexivity|].
           intros [H|[H|[H|[H|[]]]]]; discriminate.
      * rewrite (bind_Ok _ _ _ _ _ _
                   (update_wallpaper_started fe x y s1 _ Hw1 Ht1 Hfd Hfp)).
        subst s1. repeat mstep. mlast.
        exists (set_download_failed false (started_tile fe s (failed_tile s w))),
          (timer s),
          [Eventfd (eventfd_ret fe); OpenMemstream (open_memstream_ret fe);
           EventLoopAddFd (eventfd_ret fe) (add_fd_ret fe);
           ThreadCreate x y (new_thread fe)].
        split; [reflexivity|].
        repeat (split; [reflexivity|]).
        split; [now left|]. split.
        -- intros e [<-|[<-|[<-|[<-|[]]]]]; unfold retry_call; tauto.
        -- right. split; [reflexivity|]. split; [exact Hle|].
           split; [cbn; tauto|]. split; [reflexivity|].
           split; [reflexivity|]. unfold started_tile. wproj.
           split; assumption.
Qed.

Lemma download_complete_out_of_range fe je fd mask x y s :
  Z.land mask WL_EVENT_READABLE <> 0 ->
  tile_at (wallpapers s) x y = None ->
  download_complete fe je fd mask x y s = Fault OutOfRange.
Proof.
  intros Hm Hw. unfold download_complete. apply Z.eqb_neq in Hm. rewrite Hm.
  rewrite bind_emit. erewrite bind_Fault; [reflexivity|].
  unfold get_tile. now rewrite Hw.
Qed.


(** X7.  Whenever the handler of a wallpaper with a live thread returns,
    it has read the notification first and has joined that thread,
    removed its event source, closed its stream, freed its buffer and
    closed its eventfd, whichever branch it took.  Afterwards the
    wallpaper has no thread, or the one the retry has just created. *)
Theorem handler_joins_the_worker_on_every_path
    fe je fd mask x y s w t r s' calls :
  grid_ok s ->
  Z.land mask WL_EVENT_READABLE <> 0 ->
  tile_at (wallpapers s) x y = Some w ->
  thread w = Some t ->
  download_complete fe je fd mask x y s = Ok (r, s', calls) ->
  r = 0
  /\ (exists rest, calls = Read fd :: rest)
  /\ (forall e, In e (clean_up_calls w t) -> In e calls)
  /\ exists w',
       tile_at (wallpapers s') x y = Some w'
       /\ (thread w' = None
           \/ thread w' = Some (new_thread fe)
              /\ In (ThreadCreate x y (new_thread fe)) calls).
Proof.
  intros Hok Hm Hw Ht H.
  destruct (wallpaper_shutdown s) eqn:Hsh.
  { rewrite (download_complete_shutdown _ _ _ _ _ _ _ w t) in H by assumption.
    apply Ok_inj in H as (<- & <- & <-).
    split; [reflexivity|]. split; [eauto|]. split; [intros e He; now right|].
    exists (cleaned w). split; [find_tile|now left]. }
  destruct (download_bad s w) eqn:Hbad.
  - destruct (download_complete_failure fe je fd mask x y s w t Hm Hw Ht Hsh Hbad)
      as (w' & tm & calls' & E & _ & _ & _ & _ & _ & _ & _ & _ & Hth).
    rewrite E in H. apply Ok_inj in H as (<- & <- & <-).
    split; [reflexivity|]. split; [cbn [app]; eauto|]. split.
    + intros e He. apply in_or_app. left. now do 2 right.
    + exists w'. split; [find_tile|].
      destruct Hth as [[Hn _]|(Hs & _ & Hin & _)]; [now left|right].
      split; [exact Hs|]. apply in_or_app. now right.
  - destruct (jpeg_status_eq_dec (jpeg_outcome je) JPEG_FATAL) as [Hje|Hje].
    { rewrite (download_complete_fatal _ _ _ _ _ _ _ w t) in H by assumption.
      discriminate. }
    destruct (download_complete_success fe je fd mask x y s w t Hok
                Hm Hw Ht Hsh Hbad Hje)
      as (s2 & E & _ & _ & _ & _ & _ & Hres).
    rewrite E in H. apply Ok_inj in H as (<- & <- & <-).
    split; [reflexivity|]. split; [cbn [app]; eauto|]. split.
    + intros e He. apply in_or_app. right. apply in_or_app. right.
      apply in_or_app. now right.
    + set (s1 := set_wallpapers (grid_set x y (completed_tile je w) (wallpapers s)) s)
        in *.
      destruct (all_downloaded (grid_size (output s)) (wallpapers s1)).
      * destruct Hres as (Htiles & _).
        exists (cleaned (swap_in (completed_tile je w))). split; [|now left].
        rewrite Htiles. subst s1. sproj.
        rewrite (tile_at_grid_set_eq _ _ _ _ _ Hw).
        cbn [fmap option_fmap option_map]. now rewrite decide_True.
      * subst s2. exists (cleaned (completed_tile je w)).
        split; [find_tile|now left].
Qed.

(** * Rendering and the render hooks *)

(** X8.  [simple_render] draws a texture only if it has a name (it never
    passes [(GLuint) -1] to OpenGL), always over the geometry of the
    framebuffer, and only for a damaged box.  What it draws is the old
    texture [from], opaque, and only while the fade runs, or the current
    texture [to] with the progress of the fade as alpha. *)
Theorem simple_render_draws_named_textures_only
    running progress wp og damage name og' alpha :
  In (RenderTexture name og' alpha) (simple_render running progress wp og damage) ->
  name <> GLuint_minus_1
  /\ og' = og
  /\ damage <> []
  /\ ((running = true /\ fmap tex (tex_from wp) = Some name
       /\ alpha = QArith_base.Qmake 1 1)
      \/ (fmap tex (tex_to wp) = Some name /\ alpha = progress)).
Proof.
  unfold simple_render. intros [H|H]; [discriminate|].
  apply in_app_iff in H as [H|[H|[]]]; [|discriminate].
  apply list_elem_of_In, list_elem_of_bind in H as (box & H & Hbox).
  split; [|split; [|split]].
  4:{ apply list_elem_of_In in H. destruct H as [H|H]; [discriminate|].
      apply in_app_iff in H as [H|H].
      - destruct (tex_from wp) as [f|]; [|destruct H].
        destruct running; [|destruct H]. cbn [andb] in H.
        destruct (tex f =? GLuint_minus_1); [destruct H|].
        destruct H as [H|[]]. injection H as <- <- <-. now left.
      - destruct (tex_to wp) as [f|]; [|destruct H].
        destruct (tex f =? GLuint_minus_1); [destruct H|].
        destruct H as [H|[]]. injection H as <- <- <-. now right. }
  - apply list_elem_of_In in H. destruct H as [H|H]; [discriminate|].
    apply in_app_iff in H as [H|H].
    + destruct (tex_from wp) as [f|]; [|destruct H].
      destruct (Z.eqb_spec (tex f) GLuint_minus_1) as [E|N];
        [now rewrite andb_false_r in H|].
      destruct running; [|destruct H].
      destruct H as [H|[]]. now injection H as <- <- <-.
    + destruct (tex_to wp) as [f|]; [|destruct H].
      destruct (Z.eqb_spec (tex f) GLuint_minus_1) as [E|N]; [destruct H|].
      destruct H as [H|[]]. now injection H as <- <- <-.
  - apply list_elem_of_In in H. destruct H as [H|H]; [discriminate|].
    apply in_app_iff in H as [H|H].
    + destruct (tex_from wp) as [f|]; [|destruct H].
      destruct (running && negb (tex f =? GLuint_minus_1)); [|destruct H].
      destruct H as [H|[]]. now injection H as <- <- <-.
    + destruct (tex_to wp) as [f|]; [|destruct H].
      destruct (negb (tex f =? GLuint_minus_1)); [|destruct H].
      destruct H as [H|[]]. now injection H as <- <- <-.
  - intros ->. now apply elem_of_nil in Hbox.
Qed.

Lemma simple_render_ext running progress w w' og damage :
  tex_from w' = tex_from w -> tex_to w' = tex_to w ->
  simple_render running progress w' og damage
  = simple_render running progress w og damage.
Proof. unfold simple_render. now intros -> ->. Qed.

(** X9.  A download that the handler takes for failed changes nothing
    of what is on screen: no texture of any wallpaper is touched, no
    wallpaper other than the failed one is written at all, the fade and
    the hooks are left alone and nothing is uploaded to OpenGL; so every
    wallpaper is rendered as before. *)
Theorem failed_download_keeps_the_picture fe je fd mask x y s w t :
  Z.land mask WL_EVENT_READABLE <> 0 ->
  tile_at (wallpapers s) x y = Some w ->
  thread w = Some t ->
  wallpaper_shutdown s = false ->
  download_bad s w = true ->
  exists s' calls,
    download_complete fe je fd mask x y s = Ok (0, s', calls)
    /\ hook_set s' = hook_set s
    /\ fade_animation s' = fade_animation s
    /\ (forall a b, ~ In (FadeAnimate a b) calls)
    /\ ~ In AddEffects calls
    /\ (forall n, ~ In (GlGenTextures n) calls)
    /\ (forall n a b, ~ In (GlTexImage2D n a b) calls)
    /\ forall x' y' w1,
         tile_at (wallpapers s) x' y' = Some w1 ->
         exists w1',
           tile_at (wallpapers s') x' y' = Some w1'
           /\ tex_from w1' = tex_from w1 /\ tex_to w1' = tex_to w1
           /\ tex_tmp w1' = tex_tmp w1
           /\ downloaded w1' = downloaded w1
           /\ ((x', y') <> (x, y) -> w1' = w1)
           /\ forall running progress og damage,
                simple_render running progress w1' og damage
                = simple_render running progress w1 og damage.
Proof.
  intros Hm Hw Ht Hsh Hbad.
  destruct (download_complete_failure fe je fd mask x y s w t Hm Hw Ht Hsh Hbad)
    as (w' & tm & calls' & E & Hf & Hto & Htmp & Hdl & _ & _ & _ & Hrc & _).
  eexists _, _. split; [exact E|].
  assert (Hcalls : forall e,
            In e (([Read fd; Fflush (image_fp w)] ++ clean_up_calls w t) ++ calls') ->
            e = Read fd \/ e = Fflush (image_fp w) \/ In e (clean_up_calls w t)
            \/ retry_call fe x y e).
  { intros e He. apply in_app_iff in He as [He|He]; [|auto].
    destruct He as [<-|[<-|He]]; auto. }
  split; [reflexivity|]. split; [reflexivity|].
  split; [|split; [|split; [|split]]].
  1-4: intros; intros Hin; apply Hcalls in Hin;
       unfold retry_call, clean_up_calls in Hin; cbn [In] in Hin;
       intuition discriminate.
  intros x' y' w1 Hw1. sproj.
  destruct (decide ((x, y) = (x', y'))) as [Eq|Ne].
  - injection Eq as <- <-. rewrite Hw in Hw1. injection Hw1 as <-.
    exists w'. split; [now apply (tile_at_grid_set_eq _ _ w)|].
    repeat (split; [assumption|]). split; [congruence|].
    intros. now apply simple_render_ext.
  - exists w1. split; [now rewrite tile_at_grid_set_ne|].
    repeat (split; [reflexivity|]). split; reflexivity.
Qed.

(** X10.  [activate] registers the render hooks only if they are not
    registered, and [deactivate] removes them only if they are: after
    [activate] the flag is set, a second [activate] does nothing, one
    [deactivate] removes the hooks and a second one does nothing.
    [activate] writes nothing but the flag. *)
Theorem hooks_are_registered_once s :
  grid_ok s ->
  exists s1 c1,
    activate s = Ok (tt, s1, c1)
    /\ s1 = set_hook_set true s
    /\ (In AddEffects c1 <-> hook_set s = false)
    /\ activate s1 = Ok (tt, s1, [])
    /\ deactivate s1 = Ok (tt, set_hook_set false s1, [RemEffects])
    /\ deactivate (set_hook_set false s1) = Ok (tt, set_hook_set false s1, []).
Proof.
  intros Hok. unfold activate, deactivate.
  destruct (hook_set s) eqn:Hhook.
  - exists s, []. rewrite !bind_get, Hhook. sproj.
    split; [reflexivity|].
    split; [destruct s; cbn in Hhook; now subst|].
    split; [split; [intros []|discriminate]|].
    split; [reflexivity|].
    split; [repeat mstep; reflexivity|reflexivity].
  - exists (set_hook_set true s). eexists.
    rewrite !bind_get, Hhook. sproj. split; [|split; [reflexivity|split]].
    + repeat mstep. rewrite (bind_Ok _ _ _ _ _ _ (damage_wallpapers_Ok s Hok)).
      unfold modify. cbn [after]. reflexivity.
    + split; [reflexivity|]. intros _. now left.
    + split; [reflexivity|].
      split; [repeat mstep; reflexivity|reflexivity].
Qed.

Lemma post_hook_spec s :
  grid_ok s ->
  exists s',
    post_hook false s
    = Ok (tt, s', (if hook_set s then [RemEffects] else []) ++ [DamageWhole])
    /\ hook_set s' = false /\ timer s' = timer s
    /\ wallpaper_shutdown s' = wallpaper_shutdown s
    /\ fade_animation s' = fade_animation s
    /\ cycle s' = cycle s /\ cycle_time s' = cycle_time s
    /\ output s' = output s
    /\ grid_ok s'
    /\ forall x y,
         tile_at (wallpapers s') x y = set_tex_from None <$> tile_at (wallpapers s) x y.
Proof.
  intros Hok. unfold post_hook.
  destruct (for_each_tiles (set_tex_from None) (fun _ _ => [])
              (fun p => modify_tile p.1 p.2 (set_tex_from None))
              (fun p s w H => modify_tile_Ok p.1 p.2 _ s w H)
              (grid_coords (grid_size (output s))) s
              (NoDup_grid_coords _)) as (g' & Hrun & Hg' & Hshape).
  { intros [x y] Hin. apply elem_of_grid_coords in Hin as [Hx Hy].
    now apply grid_ok_lookup. }
  rewrite bind_nil in Hrun by (intros p; now destruct (tile_at _ _ _)).
  rewrite bind_get.
  erewrite bind_Ok
    by (unfold get_workspace_grid_size; rewrite for_grid_coords; exact Hrun).
  assert (Hok' : grid_ok (set_wallpapers g' s)).
  { apply (grid_ok_same_shape s); [exact Hok|reflexivity|exact Hshape]. }
  assert (Htiles : forall x y,
            tile_at g' x y = set_tex_from None <$> tile_at (wallpapers s) x y).
  { intros x y. rewrite Hg'.
    destruct (decide ((x, y) ∈ grid_coords (grid_size (output s)))) as [Hin|Hout];
      [reflexivity|].
    destruct (tile_at (wallpapers s) x y) as [w|] eqn:Hw; [|reflexivity].
    exfalso. apply Hout. apply elem_of_grid_coords.
    now apply (grid_ok_range s x y w). }
  unfold deactivate. repeat mstep.
  destruct (hook_set s) eqn:Hhook; repeat mstep; mlast.
  - exists (set_hook_set false (set_wallpapers g' s)).
    split; [reflexivity|]. repeat (split; [reflexivity|]).
    split; [exact Hok'|exact Htiles].
  - exists (set_wallpapers g' s).
    split; [reflexivity|]. split; [exact Hhook|].
    repeat (split; [reflexivity|]).
    split; [exact Hok'|exact Htiles].
Qed.

(** X11.  [post_hook] does nothing while the fade runs.  Once the fade
    has ended it drops the old texture [from] of every wallpaper and
    writes nothing else of any wallpaper, removes the render hooks if
    they are set and damages the output.  Dropping [from] then does not
    change what [simple_render] draws. *)
Theorem post_hook_drops_the_old_textures s :
  grid_ok s ->
  post_hook true s = Ok (tt, s, [])
  /\ exists s' calls,
       post_hook false s = Ok (tt, s', calls)
       /\ hook_set s' = false
       /\ (In RemEffects calls <-> hook_set s = true)
       /\ In DamageWhole calls
       /\ timer s' = timer s
       /\ grid_ok s'
       /\ forall x y w,
            tile_at (wallpapers s) x y = Some w ->
            tile_at (wallpapers s') x y = Some (set_tex_from None w)
            /\ forall progress og damage,
                 simple_render false progress (set_tex_from None w) og damage
                 = simple_render false progress w og damage.
Proof.
  intros Hok. split; [reflexivity|].
  destruct (post_hook_spec s Hok)
    as (s' & E & Hhook & Htm & _ & _ & _ & _ & _ & Hok' & Htiles).
  exists s'. eexists. split; [exact E|]. split; [exact Hhook|].
  split; [|split; [|split; [exact Htm|split; [exact Hok'|]]]].
  - destruct (hook_set s); cbn; intuition discriminate.
  - apply in_or_app. right. now left.
  - intros x y w Hw. split; [now rewrite Htiles, Hw|].
    intros. unfold simple_render. wproj. cbn [andb].
    now destruct (tex_from w).
Qed.

(** * What the barrier can rely on *)

Lemma barrier_inv_tiles (f : nat -> nat -> wallpaper -> wallpaper) s s' :
  barrier_inv s ->
  grid_ok s' ->
  (forall x y, tile_at (wallpapers s') x y = f x y <$> tile_at (wallpapers s) x y) ->
  (forall x y w,
     tile_at (wallpapers s) x y = Some w ->
     tile_ok (wallpaper_shutdown s) w ->
     tile_ok (wallpaper_shutdown s') (f x y w)) ->
  barrier_inv s'.
Proof.
  intros [_ Hinv] Hok Htiles Hf. split; [exact Hok|].
  intros x y w' Hw'. rewrite Htiles in Hw'.
  destruct (tile_at (wallpapers s) x y) as [w|] eqn:Hw; [|discriminate].
  injection Hw' as <-. apply Hf; [exact Hw|]. now apply (Hinv x y).
Qed.

Lemma barrier_inv_frame s s' :
  barrier_inv s ->
  wallpapers s' = wallpapers s ->
  wallpaper_shutdown s' = wallpaper_shutdown s ->
  grid_size (output s') = grid_size (output s) ->
  barrier_inv s'.
Proof.
  intros [[H1 H2] Hinv] Hg Hsh Ho. split.
  - unfold grid_ok. now rewrite Hg, Ho.
  - intros x y w Hw. rewrite Hsh. rewrite Hg in Hw. now apply (Hinv x y).
Qed.

Lemma barrier_inv_set_tile s x y w w' tm :
  barrier_inv s ->
  tile_at (wallpapers s) x y = Some w ->
  tile_ok (wallpaper_shutdown s) w' ->
  barrier_inv (set_timer tm (set_wallpapers (grid_set x y w' (wallpapers s)) s)).
Proof.
  intros Hinv Hw Hw'.
  apply (barrier_inv_tiles
           (fun x' y' w1 => if decide ((x, y) = (x', y')) then w' else w1) s).
  - exact Hinv.
  - exact (grid_ok_grid_set s x y w' (proj1 Hinv)).
  - intros x' y'. sproj. unfold grid_set. rewrite tile_at_alter.
    destruct (decide ((x, y) = (x', y'))), (tile_at (wallpapers s) x' y');
      reflexivity.
  - intros x' y' w1 Hw1 Hok1. sproj.
    now destruct (decide ((x, y) = (x', y'))).
Qed.

Lemma barrier_inv_worker_done acts x y s w :
  barrier_inv s ->
  tile_at (wallpapers s) x y = Some w ->
  is_Some (thread w) ->
  barrier_inv (worker_done acts x y s).
Proof.
  intros Hinv Hw Hlive.
  apply (barrier_inv_tiles
           (fun x' y' w1 =>
              if decide ((x, y) = (x', y')) then worker_writes acts w1 else w1) s).
  - exact Hinv.
  - destruct Hinv as [[H1 H2] _].
    destruct (grid_alter_shape (worker_writes acts) x y (wallpapers s) _ _
                (conj H1 H2)) as [H3 H4].
    split; assumption.
  - intros x' y'. unfold worker_done. sproj. rewrite tile_at_alter.
    destruct (decide ((x, y) = (x', y'))), (tile_at (wallpapers s) x' y');
      reflexivity.
  - intros x' y' w1 Hw1 (T1 & T2 & T3). unfold worker_done. sproj.
    destruct (decide ((x, y) = (x', y'))) as [E|N];
      [|split; [exact T1|split; [exact T2|exact T3]]].
    injection E as <- <-. rewrite Hw in Hw1. injection Hw1 as <-.
    destruct (worker_writes_frame acts w)
      as (_ & _ & _ & _ & F5 & _ & F7 & F8 & _ & _ & F11).
    split; [now rewrite F11, F7|]. split; [now rewrite F5|].
    intros Hsh. destruct (T3 Hsh) as [T4 _]. split.
    + now rewrite F11, F7.
    + rewrite F8. intros Hn. destruct Hlive as [t Hlive]. congruence.
Qed.

Lemma download_bad_false s w :
  download_bad s w = false -> download_failed w = false.
Proof.
  unfold download_bad. intros H.
  apply orb_false_elim in H as [H _]. now apply orb_false_elim in H as [_ H].
Qed.

Lemma barrier_inv_download_complete fe je fd mask x y s r s' calls :
  fetch_inv s ->
  barrier_inv s ->
  download_complete fe je fd mask x y s = Ok (r, s', calls) ->
  barrier_inv s'.
Proof.
  intros Hfetch Hinv H.
  destruct (Z.eq_dec (Z.land mask WL_EVENT_READABLE) 0) as [Hm|Hm].
  { rewrite download_complete_not_readable in H by exact Hm.
    now apply Ok_inj in H as (_ & <- & _). }
  destruct (tile_at (wallpapers s) x y) as [w|] eqn:Hw.
  2:{ rewrite download_complete_out_of_range in H by assumption. discriminate. }
  destruct (thread w) as [t|] eqn:Ht.
  2:{ rewrite (download_complete_no_thread _ _ _ _ _ _ _ w) in H by assumption.
      now apply Ok_inj in H as (_ & <- & _). }
  destruct (proj2 Hfetch x y w Hw ltac:(rewrite Ht; eauto)) as (Hdl & Hfc & _).
  destruct (proj2 Hinv x y w Hw) as (T1 & T2 & T3).
  destruct (wallpaper_shutdown s) eqn:Hsh.
  { rewrite (download_complete_shutdown _ _ _ _ _ _ _ w t) in H by assumption.
    apply Ok_inj in H as (_ & <- & _).
    apply (barrier_inv_set_tile s x y w (cleaned w) (timer s) Hinv Hw).
    rewrite Hsh. unfold tile_ok; wproj. split; [exact T1|]. split; [exact T2|discriminate]. }
  destruct (download_bad s w) eqn:Hbad.
  - destruct (download_complete_failure fe je fd mask x y s w t Hm Hw Ht Hsh Hbad)
      as (w' & tm & calls' & E & _ & _ & Htmp & Hd & Hflag & Hcount & _).
    rewrite E in H. apply Ok_inj in H as (_ & <- & _).
    apply (barrier_inv_set_tile s x y w w' tm Hinv Hw).
    rewrite Hsh. split; [now rewrite Htmp, Hd|]. split; [lia|].
    intros _. split; [rewrite Htmp, Hd; now apply T3|]. intros _. exact Hflag.
  - destruct (jpeg_status_eq_dec (jpeg_outcome je) JPEG_FATAL) as [Hje|Hje].
    { rewrite (download_complete_fatal _ _ _ _ _ _ _ w t) in H by assumption.
      discriminate. }
    destruct (download_complete_success fe je fd mask x y s w t (proj1 Hinv)
                Hm Hw Ht Hsh Hbad Hje)
      as (s2 & E & Hsh2 & _ & _ & _ & Hok2 & Hres).
    rewrite E in H. apply Ok_inj in H as (_ & <- & _). clear E.
    pose proof (download_bad_false s w Hbad) as Hflag.
    set (s1 := set_wallpapers (grid_set x y (completed_tile je w) (wallpapers s)) s)
      in *.
    destruct (all_downloaded (grid_size (output s)) (wallpapers s1)).
    + destruct Hres as (Htiles & _).
      apply (barrier_inv_tiles
               (fun x' y' w1 =>
                  if decide ((x', y') = (x, y))
                  then cleaned (swap_in (completed_tile je w))
                  else swap_in w1) s).
      * exact Hinv.
      * exact Hok2.
      * intros x' y'. rewrite Htiles. subst s1. sproj.
        unfold grid_set. rewrite tile_at_alter.
        destruct (decide ((x', y') = (x, y))) as [E|N].
        -- injection E as -> ->. rewrite decide_True by reflexivity.
           now rewrite Hw.
        -- rewrite decide_False by congruence.
           now destruct (tile_at (wallpapers s) x' y').
      * intros x' y' w1 Hw1 (U1 & U2 & _). rewrite Hsh2.
        destruct (decide ((x', y') = (x, y))).
        -- unfold swap_in, completed_tile. unfold tile_ok; wproj.
           split; [intros [? ?]; discriminate|]. split; [lia|].
           intros _. split; [discriminate|reflexivity].
        -- unfold swap_in. unfold tile_ok; wproj.
           split; [intros [? ?]; discriminate|]. split; [exact U2|].
           intros _. split; [discriminate|reflexivity].
    + subst s2.
      apply (barrier_inv_set_tile s x y w (cleaned (completed_tile je w))
               (timer s) Hinv Hw).
      rewrite Hsh. unfold completed_tile. unfold tile_ok; wproj.
      split; [reflexivity|]. split; [lia|].
      intros _. split; [eauto|]. intros _. exact Hflag.
Qed.

Lemma tile_ok_restarted fe s sh w :
  tile_ok sh w -> tile_ok sh (restarted_tile fe s w).
Proof.
  intros (T1 & T2 & T3). unfold restarted_tile.
  destruct (downloaded w) eqn:Hdl.
  { unfold tile_ok; wproj. rewrite Hdl. split; [reflexivity|]. split; [lia|exact T3]. }
  destruct (thread w) as [t|] eqn:Ht.
  { unfold tile_ok; wproj. rewrite Hdl, Ht. split; [exact T1|]. split; [lia|exact T3]. }
  destruct (eventfd_ret fe =? -1); [|destruct (open_memstream_ret fe =? 0)];
    unfold started_tile, tile_ok; wproj; rewrite ?Hdl, ?Ht;
    (split; [exact T1|]; split; [lia|]); try exact T3.
  intros Hsh. split; [apply (T3 Hsh)|discriminate].
Qed.

Lemma barrier_inv_update_textures os s s' calls :
  barrier_inv s ->
  update_textures os s = Ok (tt, s', calls) ->
  barrier_inv s'.
Proof.
  intros Hinv H.
  destruct (update_textures_spec os s (proj1 Hinv))
    as (s2 & c2 & E & Hsame & Hok2 & Htiles & _).
  rewrite E in H. apply Ok_inj in H as (_ & <- & _).
  apply (barrier_inv_tiles (fun x y => restarted_tile (os x y) s) s);
    [exact Hinv|exact Hok2|exact Htiles|].
  intros x y w _ Hw. destruct Hsame as (_ & -> & _).
  now apply tile_ok_restarted.
Qed.

Lemma barrier_inv_output_config_changed os changed_fields s s' calls :
  barrier_inv s ->
  output_config_changed os changed_fields s = Ok (tt, s', calls) ->
  barrier_inv s'.
Proof.
  intros Hinv H. unfold output_config_changed in H.
  destruct (changed_fields =? 0); [now apply Ok_inj in H as (_ & <- & _)|].
  destruct (negb (Z.land changed_fields OUTPUT_SOURCE_CHANGE =? 0));
    [now apply Ok_inj in H as (_ & <- & _)|].
  revert H. rewrite bind_get. cbv zeta. unfold get_workspace_grid_size.
  rewrite (bind_Ok _ _ _ _ _ _ (read_only_grid_loop _ s (proj1 Hinv))).
  destruct (update_textures_spec os s (proj1 Hinv)) as (s2 & c2 & E & _).
  rewrite E. cbn [after]. intros H. apply Ok_inj in H as (_ & <- & _).
  now apply (barrier_inv_update_textures os s s2 c2).
Qed.

Lemma barrier_inv_cycle_changed os s s' calls :
  barrier_inv s -> cycle_changed os s = Ok (tt, s', calls) -> barrier_inv s'.
Proof.
  intros Hinv H. revert H. unfold cycle_changed. rewrite bind_get.
  assert (Hdis : barrier_inv (set_timer None s))
    by (apply (barrier_inv_frame s); [exact Hinv|reflexivity..]).
  destruct (timer s) as [ms|] eqn:Htm; cbn [is_connected].
  - unfold timer_disconnect. repeat mstep.
    destruct (cycle s).
    + destruct (update_textures_spec os _ (proj1 Hdis)) as (s2 & c2 & E & _).
      rewrite E. cbn [after]. intros H. apply Ok_inj in H as (_ & <- & _).
      now apply (barrier_inv_update_textures os _ s2 c2 Hdis).
    + mlast. intros H. now apply Ok_inj in H as (_ & <- & _).
  - repeat mstep. destruct (cycle s).
    + intros H. now apply (barrier_inv_update_textures os s s' calls).
    + intros H. now apply Ok_inj in H as (_ & <- & _).
Qed.

Lemma barrier_inv_post_hook running s s' calls :
  barrier_inv s -> post_hook running s = Ok (tt, s', calls) -> barrier_inv s'.
Proof.
  intros Hinv H. destruct running.
  { now apply Ok_inj in H as (_ & <- & _). }
  destruct (post_hook_spec s (proj1 Hinv))
    as (s2 & E & _ & _ & Hsh & _ & _ & _ & _ & Hok2 & Htiles).
  rewrite E in H. apply Ok_inj in H as (_ & <- & _).
  apply (barrier_inv_tiles (fun _ _ => set_tex_from None) s);
    [exact Hinv|exact Hok2|exact Htiles|].
  intros x y w _ Hw. now rewrite Hsh.
Qed.

Lemma barrier_inv_fini s s' calls :
  barrier_inv s -> fini s = Ok (tt, s', calls) -> barrier_inv s'.
Proof.
  intros Hinv H.
  destruct (fini_Ok s (proj1 Hinv))
    as (s2 & c2 & E & Hsh & _ & _ & Hok2 & Htiles & _).
  rewrite E in H. apply Ok_inj in H as (_ & <- & _).
  apply (barrier_inv_tiles (fun _ _ => fini_tile) s);
    [exact Hinv|exact Hok2|exact Htiles|].
  intros x y w _ (_ & T2 & _). rewrite Hsh. unfold fini_tile.
  split; [unfold tile_ok; wproj; intros [? ?]; discriminate|].
  split; [|discriminate].
  destruct (thread w); exact T2.
Qed.

Lemma barrier_inv_init os cy cy_time o s calls :
  init os (new_screen cy cy_time o) = Ok (tt, s, calls) -> barrier_inv s.
Proof.
  intros H. revert H. unfold init. repeat mstep. cbv zeta.
  set (s0 := set_wallpapers _ _).
  assert (Hinv0 : barrier_inv s0).
  { split.
    - subst s0. split; sproj.
      + apply length_replicate.
      + apply Forall_replicate. apply length_replicate.
    - intros x y w Hw. subst s0. sproj.
      apply tile_at_replicate in Hw as ->.
      split; [intros [? ?]; discriminate|]. split; [cbn; lia|].
      intros _. split; [discriminate|reflexivity]. }
  change (get_workspace_grid_size
            (output (set_fade_animation (0, 0) (new_screen cy cy_time o))))
    with (grid_size (output s0)).
  rewrite (bind_Ok _ _ _ _ _ _ (read_only_grid_loop _ s0 (proj1 Hinv0))).
  destruct (update_textures_spec os s0 (proj1 Hinv0)) as (s2 & c2 & E & _).
  rewrite E. cbn [after]. intros H. apply Ok_inj in H as (_ & <- & _).
  now apply (barrier_inv_update_textures os s0 s2 c2).
Qed.

Lemma reachable_barrier_inv s : reachable s -> barrier_inv s.
Proof.
  induction 1 as [cy cy_time o os s calls Hinit | s s' Hreach IH Hstep].
  - now apply (barrier_inv_init os cy cy_time o s calls).
  - pose proof (reachable_fetch_inv s Hreach) as Hfetch.
    destruct Hstep as
      [ fuel tr early late x y w s Hw Hlive _
      | fe je fd mask x y s r s' calls H
      | early fe je fd mask x y s r s' calls _ H
      | os s s' calls _ H
      | os s s' calls H
      | os o changed_fields s s' calls Hgrid H
      | os b s s' calls H
      | ms s
      | running s s' calls H
      | s s' calls H ].
    + now apply (barrier_inv_worker_done late x y s w).
    + now apply (barrier_inv_download_complete fe je fd mask x y s r s' calls).
    + destruct (download_complete_racing_steps _ _ _ _ _ _ _ _ _ _ _ H)
        as (s0 & E0 & [->|(acts & w0 & Hw0 & Hl0 & ->)]).
      * now apply (barrier_inv_download_complete fe je fd mask x y s r s0 calls).
      * apply (barrier_inv_worker_done acts x y s0 w0); [|exact Hw0|exact Hl0].
        now apply (barrier_inv_download_complete fe je fd mask x y s r s0 calls).
    + now apply (barrier_inv_update_textures os s s' calls).
    + now apply (barrier_inv_update_textures os s s' calls).
    + apply (barrier_inv_output_config_changed os changed_fields
               (set_output o s) s' calls); [|exact H].
      apply (barrier_inv_frame s); [exact IH|reflexivity|reflexivity|exact Hgrid].
    + apply (barrier_inv_cycle_changed os (set_cycle b s) s' calls); [|exact H].
      apply (barrier_inv_frame s); [exact IH|reflexivity..].
    + apply (barrier_inv_frame s); [exact IH|reflexivity..].
    + now apply (barrier_inv_post_hook running s s' calls).
    + now apply (barrier_inv_fini s s' calls).
Qed.

(** X13.  In every state the plugin reaches, the vector has the shape of
    the workspace grid, and a wallpaper whose fetch is in flight is not
    [downloaded], has failed at most 3 times in a row, and finds the
    timer disconnected or armed for [RETRY_TIMEOUT]: no cycle timeout is
    pending while a fetch runs. *)
Theorem fetch_in_flight_invariant s x y w :
  reachable s ->
  tile_at (wallpapers s) x y = Some w ->
  grid_ok s
  /\ (x < Z.to_nat (dim_width (grid_size (output s))))%nat
  /\ (y < Z.to_nat (dim_height (grid_size (output s))))%nat
  /\ (is_Some (thread w) ->
      downloaded w = false
      /\ 0 <= failed_counter w <= 3
      /\ (timer s = None \/ timer s = Some RETRY_TIMEOUT)).
Proof.
  intros Hreach Hw. destruct (reachable_fetch_inv s Hreach) as [Hok Hinv].
  split; [exact Hok|].
  destruct (grid_ok_range s x y w Hok Hw) as [Hx Hy].
  split; [exact Hx|]. split; [exact Hy|]. now apply (Hinv x y).
Qed.

(** X14.  In every state the plugin reaches before it is shut down, the
    wallpapers that wait at the barrier are exactly those that hold a
    decoded texture in [tmp], and none of them has a thread.  The failure
    count of every wallpaper stays between 0 and 4. *)
Theorem waiting_wallpapers_hold_their_texture s x y w :
  reachable s ->
  tile_at (wallpapers s) x y = Some w ->
  (is_Some (tex_tmp w) -> downloaded w = true)
  /\ 0 <= failed_counter w <= 4
  /\ (wallpaper_shutdown s = false ->
      downloaded w = true -> is_Some (tex_tmp w) /\ thread w = None).
Proof.
  intros Hreach Hw.
  destruct (proj2 (reachable_barrier_inv s Hreach) x y w Hw) as (T1 & T2 & T3).
  split; [exact T1|]. split; [exact T2|].
  intros Hsh Hdl. split; [now apply T3|].
  destruct (thread w) as [t|] eqn:Ht; [|reflexivity].
  destruct (proj2 (reachable_fetch_inv s Hreach) x y w Hw
              ltac:(rewrite Ht; eauto)) as (Hd & _).
  congruence.
Qed.

(** X15.  How a fetch starts.  In a state the plugin reaches before it is
    shut down, a wallpaper without a thread has its failure flag clear;
    so the fetch [update_textures] starts for it begins with the flag
    clear and an empty stream, for the geometry of the output.  The
    retry of [download_complete] starts a fetch in the middle of the
    handler: the thread is created on a wallpaper whose flag is still
    set if the failed download was flagged, and the handler clears the
    flag afterwards, beside the worker.  When the handler returns the
    flag is clear whatever the worker has done by then, and the stream
    holds what the worker has written. *)
Theorem fetch_start_leaves_the_flag_clear early os fe je fd mask x y s w :
  reachable s ->
  wallpaper_shutdown s = false ->
  tile_at (wallpapers s) x y = Some w ->
  (thread w = None -> download_failed w = false)
  /\ (thread w = None -> downloaded w = false ->
      eventfd_ret (os x y) <> -1 -> open_memstream_ret (os x y) <> 0 ->
      exists s' calls w',
        update_textures os s = Ok (tt, s', calls)
        /\ tile_at (wallpapers s') x y = Some w'
        /\ thread w' = Some (new_thread (os x y))
        /\ download_failed w' = false
        /\ image_buf w' = []
        /\ geometry w' = get_relative_geometry (output s)
        /\ geometry_stale s' w' = false)
  /\ (forall t,
        thread w = Some t ->
        Z.land mask WL_EVENT_READABLE <> 0 ->
        download_bad s w = true ->
        failed_counter w + 1 <= 3 ->
        eventfd_ret fe <> -1 -> open_memstream_ret fe <> 0 ->
        let w1 := started_tile fe s (failed_tile s w) in
        exists s' calls w',
          download_complete_racing early fe je fd mask x y s = Ok (0, s', calls)
          /\ In (ThreadCreate x y (new_thread fe)) calls
          /\ download_failed w1 = geometry_stale s w || download_failed w
          /\ tile_at (wallpapers s') x y = Some w'
          /\ w' = set_download_failed false (worker_writes early w1)
          /\ thread w' = Some (new_thread fe)
          /\ download_failed w' = false
          /\ image_buf w' = received early
          /\ geometry w' = get_relative_geometry (output s)
          /\ geometry_stale s' w' = false).
Proof.
  intros Hreach Hsh Hw.
  assert (Hclear : thread w = None -> download_failed w = false).
  { intros Ht.
    destruct (proj2 (reachable_barrier_inv s Hreach) x y w Hw) as (_ & _ & T3).
    now apply (T3 Hsh). }
  split; [exact Hclear|]. split.
  - intros Ht Hdl Hfd Hfp.
    destruct (update_textures_spec os s (proj1 (reachable_fetch_inv s Hreach)))
      as (s' & calls & E & (_ & _ & _ & _ & _ & Hout) & _ & Htiles & _).
    exists s', calls, (started_tile (os x y) s (set_failed_counter 0 w)).
    split; [exact E|].
    split; [rewrite Htiles, Hw; cbn [fmap option_fmap option_map];
            now rewrite restarted_tile_started|].
    unfold started_tile. wproj.
    split; [reflexivity|]. split; [now apply Hclear|].
    split; [reflexivity|]. split; [reflexivity|].
    unfold geometry_stale. rewrite Hout. wproj. now rewrite !Z.eqb_refl.
  - intros t Ht Hm Hbad Hn Hfd Hfp w1.
    destruct (worker_writes_frame early w1)
      as (_ & _ & _ & F4 & _ & _ & _ & F8 & _).
    assert (Hg : geometry (set_download_failed false (worker_writes early w1))
                 = get_relative_geometry (output s)).
    { wproj. rewrite F4. reflexivity. }
    eexists _, _, (set_download_failed false (worker_writes early w1)).
    split; [now apply (download_complete_racing_retried early fe je fd mask
                         x y s w t)|].
    split; [apply in_or_app; right; apply in_or_app; right; cbn; tauto|].
    split; [reflexivity|].
    split; [find_tile|]. split; [reflexivity|].
    split; [wproj; rewrite F8; reflexivity|].
    split; [reflexivity|].
    split; [wproj; now rewrite worker_writes_image_buf|].
    split; [exact Hg|].
    unfold geometry_stale. rewrite Hg. sproj. cbn [get_relative_geometry
      box_width box_height]. now rewrite !Z.eqb_refl.
Qed.

Lemma commit_leaves_the_grid_idle fe je fd mask x y s w t :
  reachable s ->
  Z.land mask WL_EVENT_READABLE <> 0 ->
  tile_at (wallpapers s) x y = Some w ->
  thread w = Some t ->
  wallpaper_shutdown s = false ->
  download_bad s w = false ->
  jpeg_outcome je <> JPEG_FATAL ->
  others_downloaded s x y ->
  exists s',
    download_complete fe je fd mask x y s
    = Ok (0, s',
          [Read fd; Fflush (image_fp w)] ++ decode_calls je (tex_tmp w)
          ++ commit_calls s ++ clean_up_calls w t)
    /\ grid_ok s' /\ output s' = output s
    /\ timer s' = (if cycle s then Some (cycle_time s) else timer s)
    /\ (forall x' y', is_Some (tile_at (wallpapers s') x' y')
                      <-> is_Some (tile_at (wallpapers s) x' y'))
    /\ forall x' y' w',
         tile_at (wallpapers s') x' y' = Some w' ->
         is_Some (tex_to w')
         /\ tex_tmp w' = None
         /\ downloaded w' = false
         /\ thread w' = None.
Proof.
  intros Hreach Hm Hw Ht Hsh Hbad Hje Hothers.
  pose proof (reachable_fetch_inv s Hreach) as [Hok Hfetch].
  pose proof (reachable_barrier_inv s Hreach) as [_ Hbar].
  destruct (download_complete_success fe je fd mask x y s w t Hok
              Hm Hw Ht Hsh Hbad Hje)
    as (s2 & E & _ & _ & _ & Hout & Hok2 & Hres).
  sproj.
  rewrite (proj2 (all_downloaded_others je s x y w Hok Hw) Hothers) in E, Hres.
  destruct Hres as (Htiles & Htm & _).
  exists s2. split; [exact E|]. split; [exact Hok2|]. split; [exact Hout|].
  split; [exact Htm|]. split.
  - intros x' y'. rewrite Htiles. unfold grid_set. rewrite tile_at_alter.
    destruct (decide ((x, y) = (x', y'))), (tile_at (wallpapers s) x' y');
      cbn; split; intros [? ?]; eauto; discriminate.
  - intros x' y' w' Hw'. rewrite Htiles in Hw'.
    unfold grid_set in Hw'. rewrite tile_at_alter in Hw'.
    destruct (decide ((x', y') = (x, y))) as [Eq|Ne].
    + injection Eq as -> ->. rewrite decide_True in Hw' by reflexivity.
      rewrite Hw in Hw'. injection Hw' as <-.
      unfold swap_in, completed_tile. wproj. repeat split. eauto.
    + rewrite decide_False in Hw' by congruence.
      destruct (tile_at (wallpapers s) x' y') as [w1|] eqn:Hw1; [|discriminate].
      injection Hw' as <-. unfold swap_in. wproj.
      pose proof (Hothers x' y' w1 Hw1 Ne) as Hdl.
      destruct (Hbar x' y' w1 Hw1) as (_ & _ & T3).
      split; [now apply (T3 Hsh)|]. repeat split.
      destruct (thread w1) as [t1|] eqn:Ht1; [|reflexivity].
      destruct (Hfetch x' y' w1 Hw1 ltac:(rewrite Ht1; eauto)) as (Hd & _).
      congruence.
Qed.

(** X16.  A commit never leaves a wallpaper without a texture.  When the
    handler commits in a state the plugin has reached, every wallpaper of
    the grid comes out with a texture in [to], nothing in [tmp], not
    [downloaded] and without a thread: the round has ended for all of
    them. *)
Theorem commit_gives_every_wallpaper_a_texture fe je fd mask x y s w t :
  reachable s ->
  Z.land mask WL_EVENT_READABLE <> 0 ->
  tile_at (wallpapers s) x y = Some w ->
  thread w = Some t ->
  wallpaper_shutdown s = false ->
  download_bad s w = false ->
  jpeg_outcome je <> JPEG_FATAL ->
  others_downloaded s x y ->
  exists s' calls,
    download_complete fe je fd mask x y s = Ok (0, s', calls)
    /\ In (FadeAnimate 0 1) calls
    /\ forall x' y' w',
         tile_at (wallpapers s') x' y' = Some w' ->
         is_Some (tex_to w')
         /\ tex_tmp w' = None
         /\ downloaded w' = false
         /\ thread w' = None.
Proof.
  intros Hreach Hm Hw Ht Hsh Hbad Hje Hothers.
  destruct (commit_leaves_the_grid_idle fe je fd mask x y s w t
              Hreach Hm Hw Ht Hsh Hbad Hje Hothers)
    as (s' & E & _ & _ & _ & _ & Htiles).
  eexists _, _. split; [exact E|]. split; [|exact Htiles].
  apply in_or_app. right. apply in_or_app. right. apply in_or_app. left.
  now left.
Qed.

(** X12.  A commit followed by the end of the fade.  When the handler
    commits in a state the plugin has reached, the render hooks are set;
    [post_hook] removes them again once the fade has ended, and every
    wallpaper is then left with exactly one texture, in [to], with
    [from] and [tmp] empty: the texture that was waiting in [tmp], and
    for the wallpaper of the handler the one just decoded. *)
Theorem fade_leaves_the_new_texture_only fe je fd mask x y s w t :
  reachable s ->
  Z.land mask WL_EVENT_READABLE <> 0 ->
  tile_at (wallpapers s) x y = Some w ->
  thread w = Some t ->
  wallpaper_shutdown s = false ->
  download_bad s w = false ->
  jpeg_outcome je <> JPEG_FATAL ->
  others_downloaded s x y ->
  exists s1 c1 s2 c2,
    download_complete fe je fd mask x y s = Ok (0, s1, c1)
    /\ hook_set s1 = true
    /\ post_hook false s1 = Ok (tt, s2, c2)
    /\ In RemEffects c2
    /\ hook_set s2 = false
    /\ forall x' y' w1,
         tile_at (wallpapers s) x' y' = Some w1 ->
         exists w2 tx,
           tile_at (wallpapers s2) x' y' = Some w2
           /\ tex_from w2 = None
           /\ tex_to w2 = Some tx
           /\ tex_tmp w2 = None
           /\ downloaded w2 = false
           /\ ((x', y') = (x, y) -> tx = decoded_texture je (tex_tmp w))
           /\ ((x', y') <> (x, y) -> tex_tmp w1 = Some tx).
Proof.
  intros Hreach Hm Hw Ht Hsh Hbad Hje Hothers.
  pose proof (reachable_fetch_inv s Hreach) as [Hok _].
  pose proof (reachable_barrier_inv s Hreach) as [_ Hbar].
  destruct (download_complete_success fe je fd mask x y s w t Hok
              Hm Hw Ht Hsh Hbad Hje)
    as (s1 & E & _ & _ & _ & _ & Hok1 & Hres).
  sproj.
  rewrite (proj2 (all_downloaded_others je s x y w Hok Hw) Hothers) in E, Hres.
  destruct Hres as (Htiles & _ & Hhook & _).
  destruct (post_hook_spec s1 Hok1)
    as (s2 & E2 & Hh2 & _ & _ & _ & _ & _ & _ & _ & Ht2).
  exists s1. eexists. exists s2. eexists.
  split; [exact E|]. split; [exact Hhook|]. split; [exact E2|].
  split; [rewrite Hhook; now left|]. split; [exact Hh2|].
  intros x' y' w1 Hw1.
  rewrite Ht2, Htiles. unfold grid_set. rewrite tile_at_alter.
  destruct (decide ((x', y') = (x, y))) as [Eq|Ne].
  - injection Eq as -> ->. rewrite decide_True by reflexivity.
    rewrite Hw in Hw1. injection Hw1 as <-. rewrite Hw.
    cbn [fmap option_fmap option_map].
    exists (set_tex_from None (cleaned (swap_in (completed_tile je w)))),
      (decoded_texture je (tex_tmp w)).
    split; [reflexivity|]. unfold swap_in, completed_tile. wproj.
    split; [reflexivity|]. split; [reflexivity|]. split; [reflexivity|].
    split; [reflexivity|]. split; [reflexivity|].
    intros N. now destruct N.
  - rewrite decide_False by congruence. rewrite Hw1.
    cbn [fmap option_fmap option_map].
    destruct (Hbar x' y' w1 Hw1) as (_ & _ & T3).
    destruct (T3 Hsh) as [T4 _].
    destruct (T4 (Hothers x' y' w1 Hw1 Ne)) as [tx Htx].
    exists (set_tex_from None (swap_in w1)), tx.
    split; [reflexivity|]. unfold swap_in. wproj.
    split; [reflexivity|]. split; [exact Htx|]. split; [reflexivity|].
    split; [reflexivity|]. split; [intros Eq; contradiction|].
    intros _. exact Htx.
Qed.

(** * The transfer loop, turn by turn *)

Lemma transfer_loop_unroll wp env fuel :
  forall i repeats chunks acts n,
    transfer_loop fuel wp env i repeats chunks = Some (acts, n) ->
    acts = turns_actions wp env i repeats (n - i).
Proof.
  induction fuel as [|fuel IH]; intros i repeats chunks acts n H; [discriminate|].
  rewrite transfer_loop_S in H. cbv zeta in H.
  assert (Hone : forall a, turn_actions wp (env i) repeats = a ->
                 a = turns_actions wp env i repeats (S i - i)).
  { intros a <-. replace (S i - i)%nat with 1%nat by lia.
    cbn [turns_actions]. now rewrite app_nil_r. }
  assert (Hmore : forall rest n' c,
            transfer_loop fuel wp env (S i) (next_repeats (env i) repeats) c
            = Some (rest, n') ->
            forall a, turn_actions wp (env i) repeats = a ->
            a ++ rest = turns_actions wp env i repeats (n' - i)).
  { intros rest n' c E a <-.
    pose proof (transfer_loop_turns _ _ _ _ _ _ _ _ E) as Hlt.
    replace (n' - i)%nat with (S (n' - S i)) by lia.
    cbn [turns_actions]. f_equal. now apply (IH _ _ _ _ _ E). }
  unfold turn_actions in Hone, Hmore. unfold next_repeats in Hmore.
  destruct (negb (perform_mc (env i) =? CURLM_OK)).
  { apply (inj Some) in H. injection H as <- <-. apply Hone.
    now rewrite <- app_assoc. }
  destruct (negb (wait_mc (env i) =? CURLM_OK)).
  { apply (inj Some) in H. injection H as <- <-. apply Hone.
    now rewrite <- !app_assoc. }
  destruct (still_running (env i) =? 0).
  { apply (inj Some) in H. injection H as <- <-. apply Hone.
    now rewrite <- !app_assoc. }
  destruct (negb (shutdown_seen (env i))).
  - destruct (transfer_loop fuel wp env (S i) _ chunks) as [[rest n']|] eqn:E;
      [|discriminate].
    apply (inj Some) in H. injection H as <- <-.
    apply (Hmore _ _ _ E). now rewrite <- !app_assoc.
  - destruct (chunks <? 10).
    + destruct (transfer_loop fuel wp env (S i) _ (chunks + 1)) as [[rest n']|] eqn:E;
        [|discriminate].
      apply (inj Some) in H. injection H as <- <-.
      apply (Hmore _ _ _ E). now rewrite <- !app_assoc.
    + apply (inj Some) in H. injection H as <- <-. apply Hone.
      now rewrite <- !app_assoc.
Qed.

Lemma transfer_loop_exit wp env fuel :
  forall i repeats chunks acts n,
    0 <= chunks <= 10 ->
    transfer_loop fuel wp env i repeats chunks = Some (acts, n) ->
    (forall j, (i <= j)%nat -> (S j < n)%nat ->
       turn_ends (env j) = false
       /\ (shutdown_seen (env j) = true ->
           chunks + flagged_turns env i (S j - i) <= 10))
    /\ (turn_ends (env (n - 1)%nat) = true
        \/ (shutdown_seen (env (n - 1)%nat) = true
            /\ chunks + flagged_turns env i (n - i) = 11)).
Proof.
  induction fuel as [|fuel IH]; intros i repeats chunks acts n Hc H; [discriminate|].
  rewrite transfer_loop_S in H. cbv zeta in H. unfold turn_ends.
  assert (Hlast : forall a, Some a = Some (acts, n) -> snd a = S i -> n = S i).
  { intros a Ha Hs. apply (inj Some) in Ha. subst a. exact Hs. }
  destruct (negb (perform_mc (env i) =? CURLM_OK)) eqn:Hp.
  { assert (n = S i) as -> by (eapply Hlast; [exact H|reflexivity]).
    split; [intros j ? ?; lia|]. left.
    replace (S i - 1)%nat with i by lia. now rewrite Hp. }
  destruct (negb (wait_mc (env i) =? CURLM_OK)) eqn:Hwt.
  { assert (n = S i) as -> by (eapply Hlast; [exact H|reflexivity]).
    split; [intros j ? ?; lia|]. left.
    replace (S i - 1)%nat with i by lia. now rewrite Hp, Hwt. }
  destruct (still_running (env i) =? 0) eqn:Hrun.
  { assert (n = S i) as -> by (eapply Hlast; [exact H|reflexivity]).
    split; [intros j ? ?; lia|]. left.
    replace (S i - 1)%nat with i by lia. now rewrite Hp, Hwt, Hrun. }
  assert (Hmore : forall rest n' c,
            0 <= c <= 10 ->
            c = chunks + (if shutdown_seen (env i) then 1 else 0) ->
            transfer_loop fuel wp env (S i)
              (if numfds (env i) =? 0 then repeats + 1 else 0) c
            = Some (rest, n') ->
            (forall j, (i <= j)%nat -> (S j < n')%nat ->
               negb (perform_mc (env j) =? CURLM_OK)
               || negb (wait_mc (env j) =? CURLM_OK)
               || (still_running (env j) =? 0) = false
               /\ (shutdown_seen (env j) = true ->
                   chunks + flagged_turns env i (S j - i) <= 10))
            /\ (negb (perform_mc (env (n' - 1)%nat) =? CURLM_OK)
                || negb (wait_mc (env (n' - 1)%nat) =? CURLM_OK)
                || (still_running (env (n' - 1)%nat) =? 0) = true
                \/ (shutdown_seen (env (n' - 1)%nat) = true
                    /\ chunks + flagged_turns env i (n' - i) = 11))).
  { intros rest n' c Hc' Ec E.
    pose proof (transfer_loop_turns _ _ _ _ _ _ _ _ E) as Hlt.
    destruct (IH _ _ _ _ _ Hc' E) as [Hbefore Hend]. split.
    - intros j Hj Hn. destruct (Nat.eq_dec j i) as [->|Hne].
      + rewrite Hp, Hwt, Hrun. split; [reflexivity|]. intros Hs.
        replace (S i - i)%nat with 1%nat by lia. cbn [flagged_turns].
        rewrite Hs in *. lia.
      + destruct (Hbefore j ltac:(lia) Hn) as [H1 H2]. split; [exact H1|].
        intros Hs. specialize (H2 Hs).
        replace (S j - i)%nat with (S (S j - S i)) by lia.
        cbn [flagged_turns]. lia.
    - destruct Hend as [Hend|[Hs Hend]]; [now left|right].
      split; [exact Hs|].
      replace (n' - i)%nat with (S (n' - S i)) by lia.
      cbn [flagged_turns]. lia. }
  destruct (shutdown_seen (env i)) eqn:Hseen; cbn [negb] in H.
  - destruct (Z.ltb_spec chunks 10) as [Hlt|Hge].
    + destruct (transfer_loop fuel wp env (S i) _ (chunks + 1)) as [[rest n']|] eqn:E;
        [|discriminate].
      apply (inj Some) in H. injection H as _ <-.
      apply (Hmore rest n' (chunks + 1)); [lia|reflexivity|exact E].
    + assert (n = S i) as -> by (eapply Hlast; [exact H|reflexivity]).
      split; [intros j ? ?; lia|]. right.
      replace (S i - 1)%nat with i by lia.
      replace (S i - i)%nat with 1%nat by lia. cbn [flagged_turns].
      rewrite Hseen. split; [reflexivity|lia].
  - destruct (transfer_loop fuel wp env (S i) _ chunks) as [[rest n']|] eqn:E;
      [|discriminate].
    apply (inj Some) in H. injection H as _ <-.
    apply (Hmore rest n' chunks); [lia|lia|exact E].
Qed.

Lemma received_app a b : received (a ++ b) = received a ++ received b.
Proof. unfold received. apply bind_app. Qed.

Lemma deliver_only_writes wp pieces a :
  In a (deliver wp pieces) ->
  exists data, a = Fwrite data /\ In (data, false) pieces /\ image_fp wp <> 0.
Proof.
  induction pieces as [|[data sh] rest IH]; [intros []|].
  cbn [deliver]. unfold write_cb.
  destruct sh.
  { cbn [fst snd]. destruct (0 =? Z.of_nat (length data)); [|intros []].
    intros H. destruct (IH H) as (d & -> & Hd & Hfp). exists d. cbn. tauto. }
  destruct (Z.eqb_spec (image_fp wp) 0) as [Hfp|Hfp].
  { cbn [fst snd]. destruct (0 =? Z.of_nat (length data)); [|intros []].
    intros H. destruct (IH H) as (d & -> & Hd & ?). exists d. cbn. tauto. }
  cbn [fst snd]. rewrite Z.eqb_refl. intros [<-|H].
  - exists data. cbn. tauto.
  - destruct (IH H) as (d & -> & Hd & ?). exists d. cbn. tauto.
Qed.

Lemma received_deliver wp pieces :
  image_fp wp <> 0 ->
  (forall d sh, In (d, sh) pieces -> sh = false) ->
  received (deliver wp pieces) = (pieces ≫= fst).
Proof.
  intros Hfp. apply Z.eqb_neq in Hfp.
  induction pieces as [|[data sh] rest IH]; intros Hsh; [reflexivity|].
  assert (sh = false) as -> by (apply (Hsh data); now left).
  cbn [deliver]. unfold write_cb. rewrite Hfp. cbn [fst snd].
  rewrite Z.eqb_refl. change ([Fwrite data] ++ deliver wp rest)
    with (Fwrite data :: deliver wp rest).
  unfold received in *. cbn [mbind list_bind fst]. f_equal.
  apply IH. intros d sh' Hin. apply (Hsh d). now right.
Qed.

Lemma received_turn_actions wp st repeats :
  received (turn_actions wp st repeats) = received (deliver wp (delivered st)).
Proof.
  unfold turn_actions. rewrite received_app.
  replace (received (CurlMultiPerform _ _ :: _)) with (@nil Byte.byte);
    [apply app_nil_r|].
  destruct (negb (perform_mc st =? CURLM_OK)); [reflexivity|].
  destruct (negb (wait_mc st =? CURLM_OK)); [reflexivity|].
  now destruct ((numfds st =? 0) && (1 <? repeats + 1)).
Qed.

Lemma received_turns_actions wp env m :
  image_fp wp <> 0 ->
  forall i repeats,
    (forall j d sh, (i <= j < i + m)%nat ->
       In (d, sh) (delivered (env j)) -> sh = false) ->
    received (turns_actions wp env i repeats m) = body_of env i m.
Proof.
  intros Hfp. induction m as [|m IH]; intros i repeats Hsh; [reflexivity|].
  cbn [turns_actions body_of].
  rewrite received_app, received_turn_actions. f_equal.
  - apply received_deliver; [exact Hfp|].
    intros d sh. apply (Hsh i). lia.
  - apply IH. intros j d sh Hj. apply (Hsh j). lia.
Qed.

Lemma received_nothing (acts : list worker_action) :
  (forall data, ~ In (Fwrite data) acts) -> received acts = [].
Proof.
  induction acts as [|a acts IH]; intros H; [reflexivity|].
  unfold received in *. cbn [mbind list_bind].
  rewrite IH by (intros data Hin; apply (H data); now right).
  rewrite app_nil_r. destruct a; try reflexivity.
  exfalso. apply (H data). now left.
Qed.

Lemma in_turn_actions wp st repeats a :
  In a (turn_actions wp st repeats) ->
  In a (deliver wp (delivered st))
  \/ a = CurlMultiPerform (perform_mc st) (still_running st)
  \/ a = SetDownloadFailed
  \/ a = CurlMultiWait (wait_mc st) (numfds st)
  \/ (a = Usleep 100000 /\ numfds st = 0 /\ 1 <= repeats).
Proof.
  unfold turn_actions. intros H. apply in_app_iff in H as [H|[H|H]]; [subst; tauto..|].
  destruct (negb (perform_mc st =? CURLM_OK)).
  { destruct H as [H|[]]. subst. tauto. }
  destruct H as [H|H]; [subst; tauto|].
  destruct (negb (wait_mc st =? CURLM_OK)).
  { destruct H as [H|[]]. subst. tauto. }
  destruct (Z.eqb_spec (numfds st) 0) as [Hn|Hn]; [|destruct H].
  destruct (Z.ltb_spec 1 (repeats + 1)) as [Hr|Hr]; [|destruct H].
  destruct H as [H|[]]. right; right; right; right.
  split; [now symmetry|]. split; [exact Hn|lia].
Qed.

Lemma in_turns_actions wp env m a :
  forall i repeats,
    In a (turns_actions wp env i repeats m) ->
    exists j r, (i <= j < i + m)%nat
                /\ In a (turn_actions wp (env j) r)
                /\ (j = i /\ r = repeats
                    \/ (i < j)%nat /\ exists r', r = next_repeats (env (j - 1)%nat) r'
                                                 /\ ((j - 1)%nat = i -> r' = repeats)).
Proof.
  induction m as [|m IH]; intros i repeats H; [destruct H|].
  cbn [turns_actions] in H. apply in_app_iff in H as [H|H].
  - exists i, repeats. split; [lia|]. split; [exact H|now left].
  - destruct (IH _ _ H) as (j & r & Hj & Hin & Hr).
    exists j, r. split; [lia|]. split; [exact Hin|]. right.
    destruct Hr as [[-> ->]|(Hlt & r' & -> & Hr')].
    + split; [lia|]. exists repeats.
      replace (S i - 1)%nat with i by lia. split; [reflexivity|tauto].
    + split; [lia|]. exists r'. split; [reflexivity|]. intros E. lia.
Qed.

(** X17.  What the worker leaves in the stream.  As long as no write
    callback reads [wallpaper_shutdown] as set, and the stream is open,
    the stream receives every byte libcurl hands over, in the order of
    arrival, and nothing else: the buffer the handler decodes is the
    body of the response.  A callback that reads the flag as set, or
    finds no stream, writes nothing. *)
Theorem worker_stores_the_body_in_order fuel w tr acts :
  curl_download fuel w tr = Some acts ->
  exists n,
    (exists loop, transfer_loop fuel w (steps tr) 0 0 0 = Some (loop, n))
    /\ (image_fp w <> 0 ->
        (forall j d sh, (j < n)%nat ->
           In (d, sh) (delivered (steps tr j)) -> sh = false) ->
        image_buf (worker_writes acts w) = image_buf w ++ body_of (steps tr) 0 n)
    /\ (image_fp w = 0
        \/ (forall j d sh, (j < n)%nat ->
              In (d, sh) (delivered (steps tr j)) -> sh = true) ->
        image_buf (worker_writes acts w) = image_buf w).
Proof.
  unfold curl_download. intros H.
  destruct (transfer_loop fuel w (steps tr) 0 0 0) as [[loop n]|] eqn:E;
    [|discriminate].
  apply (inj Some) in H. subst acts. exists n. split; [eauto|].
  pose proof (transfer_loop_unroll _ _ _ _ _ _ _ _ E) as Hloop.
  rewrite Nat.sub_0_r in Hloop.
  rewrite worker_writes_image_buf.
  change (CurlSetup ?a ?b ?c :: ?l) with ([CurlSetup a b c] ++ l).
  rewrite !received_app.
  change (received [CurlSetup _ _ _]) with (@nil Byte.byte).
  change (received [CurlCleanup; WriteSigFd _]) with (@nil Byte.byte).
  rewrite app_nil_l, app_nil_r. split.
  - intros Hfp Hsh. f_equal. rewrite Hloop.
    apply received_turns_actions; [exact Hfp|].
    intros j d sh Hj. apply (Hsh j). lia.
  - intros Hnone. rewrite received_nothing; [apply app_nil_r|].
    intros data Hin. rewrite Hloop in Hin.
    apply in_turns_actions in Hin as (j & r & Hj & Hin & _).
    apply in_turn_actions in Hin
      as [Hin|[Hin|[Hin|[Hin|[Hin _]]]]]; try discriminate.
    apply deliver_only_writes in Hin as (d & _ & Hd & Hfp).
    destruct Hnone as [Hnull|Hsh]; [contradiction|].
    specialize (Hsh j d false ltac:(lia) Hd). discriminate.
Qed.

(** X18.  The worker sleeps only when [curl_multi_wait] has found
    nothing to wait for in two turns in a row, and then for 100000
    microseconds: never in its first turn, and never in a turn in which
    a descriptor was ready. *)
Theorem worker_sleeps_only_when_idle_twice fuel w tr acts usec :
  curl_download fuel w tr = Some acts ->
  In (Usleep usec) acts ->
  usec = 100000
  /\ exists j,
       (0 < j)%nat
       /\ numfds (steps tr j) = 0
       /\ numfds (steps tr (j - 1)%nat) = 0
       /\ turn_failed (steps tr j) = false.
Proof.
  unfold curl_download. intros H Hin.
  destruct (transfer_loop fuel w (steps tr) 0 0 0) as [[loop n]|] eqn:E;
    [|discriminate].
  apply (inj Some) in H. subst acts.
  pose proof (transfer_loop_unroll _ _ _ _ _ _ _ _ E) as Hloop.
  destruct Hin as [Hin|Hin]; [discriminate|].
  apply in_app_iff in Hin as [Hin|[Hin|[Hin|[]]]]; try discriminate.
  rewrite Hloop in Hin.
  apply in_turns_actions in Hin as (j & r & Hj & Hin & Hr).
  assert (Hok : turn_failed (steps tr j) = false).
  { unfold turn_actions in Hin. unfold turn_failed.
    apply in_app_iff in Hin as [Hin|[Hin|Hin]];
      [apply deliver_only_writes in Hin as (d & Hd & _); discriminate
      |discriminate|].
    destruct (negb (perform_mc (steps tr j) =? CURLM_OK));
      [destruct Hin as [Hin|[]]; discriminate|].
    destruct Hin as [Hin|Hin]; [discriminate|].
    destruct (negb (wait_mc (steps tr j) =? CURLM_OK));
      [destruct Hin as [Hin|[]]; discriminate|reflexivity]. }
  apply in_turn_actions in Hin as [Hin|[Hin|[Hin|[Hin|(Hin & Hn & Hrep)]]]];
    try discriminate.
  { apply deliver_only_writes in Hin as (d & Hd & _). discriminate. }
  injection Hin as ->. split; [reflexivity|].
  destruct Hr as [[-> ->]|(Hlt & r' & -> & _)]; [lia|].
  exists j. split; [exact Hlt|]. split; [exact Hn|]. split; [|exact Hok].
  unfold next_repeats in Hrep.
  destruct (Z.eqb_spec (numfds (steps tr (j - 1)%nat)) 0); [assumption|lia].
Qed.

(** X19.  The worker does not give a transfer up.  In every turn but
    its last, libcurl reported no error and a transfer still running;
    and it leaves the loop only when the transfer has ended (nothing
    running, or an error of libcurl), or when its test of the loop
    condition has read [wallpaper_shutdown] as set for the 11th time. *)
Theorem worker_leaves_the_loop_only_at_the_end fuel w tr acts :
  curl_download fuel w tr = Some acts ->
  exists n,
    (exists loop, transfer_loop fuel w (steps tr) 0 0 0 = Some (loop, n))
    /\ (0 < n)%nat
    /\ (forall j, (S j < n)%nat -> turn_ends (steps tr j) = false)
    /\ (turn_ends (steps tr (n - 1)%nat) = true
        \/ (shutdown_seen (steps tr (n - 1)%nat) = true
            /\ flagged_turns (steps tr) 0 n = 11)).
Proof.
  unfold curl_download. intros H.
  destruct (transfer_loop fuel w (steps tr) 0 0 0) as [[loop n]|] eqn:E;
    [|discriminate].
  exists n. split; [eauto|].
  pose proof (transfer_loop_turns _ _ _ _ _ _ _ _ E) as Hlt.
  destruct (transfer_loop_exit w (steps tr) fuel 0%nat 0 0 loop n ltac:(lia) E)
    as [Hbefore Hend].
  split; [exact Hlt|]. split.
  - intros j Hj. now apply (Hbefore j ltac:(lia) Hj).
  - rewrite Nat.sub_0_r in Hend.
    destruct Hend as [Hend|[Hs Hend]]; [now left|right].
    split; [exact Hs|lia].
Qed.

(** X20.  From [update_wallpaper] to the worker it starts: the worker
    asks for an image of the size the output has at that moment, with a
    random token between 0 and 9999999, and the descriptor it writes as
    its last action is the eventfd that [update_wallpaper] has just
    registered with the event loop. *)
Theorem fetch_asks_for_the_size_of_the_output fe x y s w :
  tile_at (wallpapers s) x y = Some w ->
  thread w = None ->
  eventfd_ret fe <> -1 ->
  open_memstream_ret fe <> 0 ->
  exists s' calls w',
    update_wallpaper fe x y s = Ok (tt, s', calls)
    /\ In (EventLoopAddFd (eventfd_ret fe) (add_fd_ret fe)) calls
    /\ tile_at (wallpapers s') x y = Some w'
    /\ forall fuel tr acts,
         curl_download fuel w' tr = Some acts ->
         (exists rnd rest,
            acts = CurlSetup (output_width (output s)) (output_height (output s))
                     rnd :: rest
            /\ 0 <= rnd < 10000000)
         /\ last acts = Some (WriteSigFd (eventfd_ret fe)).
Proof.
  intros Hw Ht Hfd Hfp.
  eexists _, _, _. split; [now apply (update_wallpaper_started fe x y s w)|].
  split; [cbn; tauto|]. split; [find_tile|].
  intros fuel tr acts H. unfold curl_download in H.
  destruct (transfer_loop fuel _ (steps tr) 0 0 0) as [[loop n]|];
    [|discriminate].
  apply (inj Some) in H. subst acts. split.
  - eexists _, _. split; [reflexivity|].
    apply Z.mod_pos_bound. lia.
  - rewrite app_comm_cons.
    change [CurlCleanup; WriteSigFd ?fd] with ([CurlCleanup] ++ [WriteSigFd fd]).
    rewrite app_assoc. apply last_snoc.
Qed.

(** * Shutdown, resource failures and the option and output handlers *)

Lemma fini_spec s :
  grid_ok s ->
  exists s',
    fini s
    = Ok (tt, s',
          (if hook_set s then [RemEffects] else [])
          ++ [TimerDisconnect; SignalDisconnect]
          ++ (grid_coords (grid_size (output s)) ≫=
                (fun p => from_option (fini_calls p) []
                            (tile_at (wallpapers s) p.1 p.2)))
          ++ [DamageWhole])
    /\ hook_set s' = false
    /\ wallpaper_shutdown s' = true
    /\ timer s' = None
    /\ output s' = output s
    /\ grid_ok s'
    /\ (forall x y,
          tile_at (wallpapers s') x y = fini_tile <$> tile_at (wallpapers s) x y).
Proof.
  intros Hok. unfold fini, deactivate.
  set (s0 := set_wallpaper_shutdown true
               (set_timer None (set_hook_set false s))).
  assert (Hok0 : grid_ok s0) by exact Hok.
  destruct (for_each_tiles fini_tile fini_calls _ fini_body
              (grid_coords (grid_size (output s0))) s0 (NoDup_grid_coords _))
    as (g' & Hrun & Hg' & Hshape).
  { intros [x y] Hin. apply elem_of_grid_coords in Hin as [Hx Hy].
    now apply grid_ok_lookup. }
  assert (Htiles : forall x y,
            tile_at g' x y = fini_tile <$> tile_at (wallpapers s) x y).
  { intros x y. rewrite Hg'. subst s0. sproj.
    destruct (decide ((x, y) ∈ grid_coords (grid_size (output s)))) as [Hin|Hout];
      [reflexivity|].
    destruct (tile_at (wallpapers s) x y) as [w|] eqn:Hw; [|reflexivity].
    exfalso. apply Hout. apply elem_of_grid_coords.
    now apply grid_ok_range with w. }
  assert (Hloop :
    for_grid (get_workspace_grid_size (output s0))
      (fun x y =>
         wp <- get_tile x y ;;
         match thread wp with
         | Some _ => clean_up x y
         | None => ret tt
         end ;;
         modify_tile x y
           (fun w => set_tex_tmp None (set_tex_to None (set_tex_from None w))) ;;
         emit (ViewClose x y)) s0
    = Ok (tt, set_wallpapers g' s0,
          p ← grid_coords (grid_size (output s0));
          from_option (fini_calls p) [] (tile_at (wallpapers s0) p.1 p.2)))
    by (rewrite for_grid_coords; exact Hrun).
  assert (Hok' : grid_ok (set_wallpapers g' s0))
    by (apply (grid_ok_same_shape s0); [exact Hok0|reflexivity|exact Hshape]).
  assert (Es0 : hook_set s = false ->
                set_wallpaper_shutdown true (set_timer None s) = s0).
  { intros Hh. subst s0. destruct s. cbn in Hh. subst. reflexivity. }
  exists (set_wallpapers g' s0).
  split; [|repeat (split; [reflexivity || assumption|]); exact Htiles].
  destruct (hook_set s) eqn:Hhook.
  - repeat mstep. rewrite Hhook. unfold timer_disconnect. repeat mstep.
    fold s0. change (output (set_hook_set false s)) with (output s0).
    rewrite (bind_Ok _ _ _ _ _ _ Hloop). reflexivity.
  - repeat mstep. rewrite Hhook. unfold timer_disconnect. repeat mstep.
    rewrite (Es0 eq_refl). change (output s) with (output s0) at 1.
    rewrite (bind_Ok _ _ _ _ _ _ Hloop). reflexivity.
Qed.

(** X21.  [fini] leaves nothing behind.  It removes the render hooks if
    they are set, disconnects the timer and the workarea signal, sets
    [wallpaper_shutdown], closes the view of every wallpaper and drops
    its three textures; it starts no fetch.  A notification that arrives
    afterwards is read and ignored: the handler changes nothing. *)
Theorem fini_leaves_nothing_behind s :
  grid_ok s ->
  exists s' calls,
    fini s = Ok (tt, s', calls)
    /\ hook_set s' = false /\ timer s' = None /\ wallpaper_shutdown s' = true
    /\ (In RemEffects calls <-> hook_set s = true)
    /\ In TimerDisconnect calls /\ In SignalDisconnect calls
    /\ (forall a b c, ~ In (ThreadCreate a b c) calls)
    /\ (forall x y w,
          tile_at (wallpapers s) x y = Some w ->
          In (ViewClose x y) calls
          /\ exists w',
               tile_at (wallpapers s') x y = Some w'
               /\ tex_from w' = None /\ tex_to w' = None /\ tex_tmp w' = None
               /\ thread w' = None
               /\ forall fe je fd mask,
                    download_complete fe je fd mask x y s'
                    = Ok (0, s',
                          if Z.land mask WL_EVENT_READABLE =? 0 then []
                          else [Read fd])).
Proof.
  intros Hok.
  destruct (fini_spec s Hok) as (s' & E & Hh & Hsh & Htm & _ & _ & Htiles).
  eexists _, _. split; [exact E|].
  split; [exact Hh|]. split; [exact Htm|]. split; [exact Hsh|].
  assert (Hloop : forall e,
            In e (grid_coords (grid_size (output s)) ≫=
                    (fun p => from_option (fini_calls p) []
                                (tile_at (wallpapers s) p.1 p.2))) ->
            exists p w, In e (fini_calls p w)).
  { intros e He. apply in_grid_calls in He as [p He].
    destruct (tile_at (wallpapers s) p.1 p.2) as [w|]; [|destruct He]. eauto. }
  assert (Hother : forall e,
            (forall p w, ~ In e (fini_calls p w)) ->
            e <> TimerDisconnect -> e <> SignalDisconnect -> e <> DamageWhole ->
            In e ((if hook_set s then [RemEffects] else [])
                  ++ [TimerDisconnect; SignalDisconnect]
                  ++ (grid_coords (grid_size (output s)) ≫=
                        (fun p => from_option (fini_calls p) []
                                    (tile_at (wallpapers s) p.1 p.2)))
                  ++ [DamageWhole]) ->
            hook_set s = true /\ e = RemEffects).
  { intros e Hnot H1 H2 H3 Hin. apply in_app_iff in Hin as [Hin|Hin].
    - destruct (hook_set s); [|destruct Hin].
      destruct Hin as [<-|[]]. now split.
    - cbn [app] in Hin. destruct Hin as [<-|[<-|Hin]]; [congruence..|].
      apply in_app_iff in Hin as [Hin|[<-|[]]]; [|congruence].
      apply Hloop in Hin as (p & w & Hin). now apply Hnot in Hin. }
  assert (Hfini : forall e p w, In e (fini_calls p w) ->
            (exists t, thread w = Some t /\ In e (clean_up_calls w t))
            \/ e = ViewClose p.1 p.2).
  { intros e p w He. unfold fini_calls in He.
    apply in_app_iff in He as [He|[<-|[]]]; [|now right].
    destruct (thread w) as [t|]; [left; eauto|destruct He]. }
  split; [|split; [|split; [|split]]].
  - split.
    + intros Hin. apply Hother in Hin; [tauto| |discriminate..].
      intros p w He. apply Hfini in He as [(t & _ & He)|He]; [|discriminate].
      cbn in He. intuition discriminate.
    + intros ->. now left.
  - apply in_or_app. right. now left.
  - apply in_or_app. right. right. now left.
  - intros a b c Hin. apply Hother in Hin as [_ Hin]; try discriminate.
    intros p w He. apply Hfini in He as [(t & _ & He)|He]; [|discriminate].
    cbn in He. intuition discriminate.
  - intros x y w Hw. split.
    + apply in_or_app. right. cbn [app]. do 2 right. apply in_or_app. left.
      apply list_elem_of_In, list_elem_of_bind. exists (x, y). split.
      * cbn [fst snd]. rewrite Hw. cbn [from_option]. unfold fini_calls.
        apply list_elem_of_In, in_or_app. right. now left.
      * apply elem_of_grid_coords. now apply (grid_ok_range s x y w).
    + exists (fini_tile w).
      assert (Hw' : tile_at (wallpapers s') x y = Some (fini_tile w))
        by now rewrite Htiles, Hw.
      assert (Hth : thread (fini_tile w) = None)
        by (unfold fini_tile; wproj;
            destruct (thread w) eqn:Ht; [reflexivity|exact Ht]).
      split; [exact Hw'|]. repeat (split; [reflexivity|]).
      split; [exact Hth|].
      intros fe je fd mask.
      destruct (Z.eqb_spec (Z.land mask WL_EVENT_READABLE) 0) as [Hm|Hm].
      * now apply download_complete_not_readable.
      * now apply (download_complete_no_thread _ _ _ _ _ _ _ (fini_tile w)).
Qed.

(** X22.  When [eventfd] or [open_memstream] fails, [update_wallpaper]
    starts nothing: no thread is created and nothing is registered with
    the event loop, the wallpaper is left without a thread and with its
    textures, flags and failure count as they were, and the timer is
    disconnected, so no retry is pending.  An eventfd that had been
    opened is closed again; when [eventfd] itself failed no stream is
    opened and nothing is closed. *)
Theorem update_wallpaper_failure_starts_nothing fe x y s w :
  tile_at (wallpapers s) x y = Some w ->
  thread w = None ->
  eventfd_ret fe = -1 \/ open_memstream_ret fe = 0 ->
  exists s' calls w',
    update_wallpaper fe x y s = Ok (tt, s', calls)
    /\ timer s' = None
    /\ In TimerDisconnect calls
    /\ tile_at (wallpapers s') x y = Some w'
    /\ thread w' = None
    /\ tex_from w' = tex_from w /\ tex_to w' = tex_to w /\ tex_tmp w' = tex_tmp w
    /\ downloaded w' = downloaded w
    /\ download_failed w' = download_failed w
    /\ failed_counter w' = failed_counter w
    /\ (forall a b c, ~ In (ThreadCreate a b c) calls)
    /\ (forall a b, ~ In (EventLoopAddFd a b) calls)
    /\ (eventfd_ret fe <> -1 -> In (Close (eventfd_ret fe)) calls)
    /\ (eventfd_ret fe = -1 ->
        (forall r, ~ In (OpenMemstream r) calls)
        /\ (forall d, ~ In (Close d) calls)).
Proof.
  intros Hw Ht Hfail.
  destruct (Z.eq_dec (eventfd_ret fe) (-1)) as [Hfd|Hfd].
  - eexists _, _, _.
    split; [now apply (update_wallpaper_no_eventfd fe x y s w)|].
    split; [reflexivity|]. split; [cbn; tauto|]. split; [find_tile|].
    wproj. repeat (split; [assumption || reflexivity|]).
    split; [intros a b c Hin; cbn in Hin; intuition discriminate|].
    split; [intros a b Hin; cbn in Hin; intuition discriminate|].
    split; [contradiction|]. intros _.
    split; intros r Hin; cbn in Hin; intuition discriminate.
  - destruct Hfail as [Hfail|Hfp]; [contradiction|].
    eexists _, _, _.
    split; [now apply (update_wallpaper_no_stream fe x y s w)|].
    split; [reflexivity|]. split; [cbn; tauto|]. split; [find_tile|].
    wproj. repeat (split; [assumption || reflexivity|]).
    split; [intros a b c Hin; cbn in Hin; intuition discriminate|].
    split; [intros a b Hin; cbn in Hin; intuition discriminate|].
    split; [intros _; cbn; tauto|]. contradiction.
Qed.

(** X23.  The callback of the option [cycle].  When cycling has been
    switched on it does exactly what [update_textures] does, calls and
    final state alike.  When cycling has been switched off it only
    disconnects the timer: no wallpaper is written and no fetch is
    started, and a fetch in flight is left to complete. *)
Theorem cycle_changed_restarts_or_stops os s :
  (cycle s = true -> cycle_changed os s = update_textures os s)
  /\ (cycle s = false ->
      exists s' calls,
        cycle_changed os s = Ok (tt, s', calls)
        /\ timer s' = None
        /\ wallpapers s' = wallpapers s
        /\ hook_set s' = hook_set s
        /\ (forall e, In e calls -> e = TimerDisconnect)
        /\ (In TimerDisconnect calls <-> is_connected (timer s) = true)).
Proof.
  unfold cycle_changed. rewrite bind_get. split; intros Hc.
  - destruct (timer s) as [ms|] eqn:Htm; cbn [is_connected].
    + unfold timer_disconnect. repeat mstep. rewrite Hc.
      unfold update_textures. rewrite !bind_get. sproj. rewrite Htm.
      cbn [is_connected]. unfold timer_disconnect. repeat mstep. reflexivity.
    + repeat mstep. rewrite Hc. reflexivity.
  - destruct (timer s) as [ms|] eqn:Htm; cbn [is_connected].
    + unfold timer_disconnect. repeat mstep. rewrite Hc. mlast.
      eexists _, _. split; [reflexivity|].
      repeat (split; [reflexivity|]). split.
      * intros e [<-|[]]. reflexivity.
      * split; [reflexivity|]. intros _. now left.
    + repeat mstep. rewrite Hc. exists s, [].
      split; [reflexivity|]. split; [exact Htm|].
      repeat (split; [reflexivity|]).
      split; [intros e []|]. split; [intros []|discriminate].
Qed.

(** X24.  The handler of output-configuration-changed ignores a signal
    that reports no change and one that reports a change of the source.
    For every other change it gives the view of every wallpaper its box
    in the new geometry of the output and goes on as [update_textures]
    does. *)
Theorem output_config_changed_places_views_and_restarts os changed_fields s :
  grid_ok s ->
  (changed_fields = 0 \/ Z.land changed_fields OUTPUT_SOURCE_CHANGE <> 0 ->
   output_config_changed os changed_fields s = Ok (tt, s, []))
  /\ (changed_fields <> 0 ->
      Z.land changed_fields OUTPUT_SOURCE_CHANGE = 0 ->
      output_config_changed os changed_fields s
      = after (grid_coords (grid_size (output s)) ≫=
                 (fun p => [ViewSetGeometry p.1 p.2
                              (view_box (get_relative_geometry (output s))
                                 p.1 p.2)]))
          (update_textures os s)).
Proof.
  intros Hok. unfold output_config_changed. split.
  - intros [->|Hsrc]; [reflexivity|].
    apply Z.eqb_neq in Hsrc. rewrite Hsrc.
    now destruct (changed_fields =? 0).
  - intros Hne Hsrc. apply Z.eqb_neq in Hne. rewrite Hne, Hsrc.
    cbn [Z.eqb negb]. rewrite bind_get. cbv zeta.
    unfold get_workspace_grid_size.
    now rewrite (bind_Ok _ _ _ _ _ _ (read_only_grid_loop _ s Hok)).
Qed.

(** A product that fits an [int] is the product. *)
Lemma int_mul_exact a b : - 2 ^ 31 <= a * b <= INT_MAX -> int_mul a b = a * b.
Proof.
  unfold int_mul, INT_MAX. intros H. rewrite Z.mod_small by lia. lia.
Qed.

Lemma view_box_exact og gw gh x y :
  0 < box_width og -> 0 < box_height og ->
  Z.of_nat gw * box_width og <= INT_MAX ->
  Z.of_nat gh * box_height og <= INT_MAX ->
  (x < gw)%nat -> (y < gh)%nat ->
  view_box og x y
  = mk_box (Z.of_nat x * box_width og) (Z.of_nat y * box_height og)
      (box_width og) (box_height og).
Proof.
  intros HW HH Hgw Hgh Hx Hy. unfold view_box.
  rewrite !int_mul_exact; [reflexivity| |]; unfold INT_MAX in *; nia.
Qed.

(** Past [INT_MAX] the product wraps: on an output a thousand million
    wide the view of the fourth column is placed left of the first. *)
Lemma view_box_wraps :
  box_x (view_box (mk_box 0 0 1000000000 1) 3 0) = -1294967296.
Proof. reflexivity. Qed.

(** X25.  The boxes [init] and [output_config_changed] give the views
    tile the workspace grid, as long as the width and the height of the
    whole grid fit an [int]: every view has the size of the output, and
    every point of the area of the grid lies in the box of exactly one
    workspace of the grid. *)
Theorem views_tile_the_workspace_grid og gw gh px py :
  0 < box_width og -> 0 < box_height og ->
  Z.of_nat gw * box_width og <= INT_MAX ->
  Z.of_nat gh * box_height og <= INT_MAX ->
  0 <= px < Z.of_nat gw * box_width og ->
  0 <= py < Z.of_nat gh * box_height og ->
  exists x y,
    (x < gw)%nat /\ (y < gh)%nat
    /\ in_box (view_box og x y) px py
    /\ box_width (view_box og x y) = box_width og
    /\ box_height (view_box og x y) = box_height og
    /\ forall x' y',
         (x' < gw)%nat -> (y' < gh)%nat ->
         in_box (view_box og x' y') px py -> x' = x /\ y' = y.
Proof.
  intros HW HH Hgw Hgh Hpx Hpy.
  exists (Z.to_nat (px / box_width og)), (Z.to_nat (py / box_height og)).
  assert (Hqx : 0 <= px / box_width og < Z.of_nat gw).
  { split; [apply Z.div_pos; lia|]. apply Z.div_lt_upper_bound; lia. }
  assert (Hqy : 0 <= py / box_height og < Z.of_nat gh).
  { split; [apply Z.div_pos; lia|]. apply Z.div_lt_upper_bound; lia. }
  pose proof (Z.div_mod px (box_width og) ltac:(lia)) as Hdx.
  pose proof (Z.mod_pos_bound px (box_width og) HW) as Hmx.
  pose proof (Z.div_mod py (box_height og) ltac:(lia)) as Hdy.
  pose proof (Z.mod_pos_bound py (box_height og) HH) as Hmy.
  split; [lia|]. split; [lia|]. split.
  { rewrite (view_box_exact og gw gh) by (assumption || lia).
    unfold in_box. cbn. rewrite !Z2Nat.id by lia. nia. }
  split; [reflexivity|]. split; [reflexivity|].
  intros x' y' Hx Hy.
  rewrite (view_box_exact og gw gh) by assumption. unfold in_box. cbn.
  intros [Hx' Hy'].
  split; apply Nat2Z.inj; rewrite Z2Nat.id by lia.
  - apply (Z.div_unique_pos px (box_width og) (Z.of_nat x')
                       (px - box_width og * Z.of_nat x')); lia.
  - apply (Z.div_unique_pos py (box_height og) (Z.of_nat y')
                       (py - box_height og * Z.of_nat y')); lia.
Qed.

(** * From one round to the next *)

Lemma decoded_texture_fresh je : decoded_texture je None = fresh_texture je.
Proof.
  unfold decoded_texture, fresh_texture. cbn [default new_texture tex].
  now rewrite Z.eqb_refl.
Qed.

Lemma decode_calls_fresh je :
  decode_calls je None
  = [GlGenTextures (gen_texture je);
     GlTexImage2D (gen_texture je) (jpeg_output_width je) (jpeg_output_height je)].
Proof.
  unfold decode_calls. rewrite decoded_texture_fresh.
  cbn [default new_texture tex fresh_texture]. now rewrite Z.eqb_refl.
Qed.

(** X26.  An accepted image is always decoded into a texture of its
    own.  In a state the plugin has reached, the wallpaper whose download
    the handler accepts has nothing in [tmp]; the handler asks OpenGL for
    a new texture name and uploads the image under it, with the size
    libjpeg reports.  The texture on screen is never written: it stays in
    [to], or moves to [from] when the handler commits. *)
Theorem accepted_image_gets_a_texture_of_its_own fe je fd mask x y s w t :
  reachable s ->
  Z.land mask WL_EVENT_READABLE <> 0 ->
  tile_at (wallpapers s) x y = Some w ->
  thread w = Some t ->
  wallpaper_shutdown s = false ->
  download_bad s w = false ->
  jpeg_outcome je <> JPEG_FATAL ->
  tex_tmp w = None
  /\ exists s' calls w',
       download_complete fe je fd mask x y s = Ok (0, s', calls)
       /\ In (GlGenTextures (gen_texture je)) calls
       /\ In (GlTexImage2D (gen_texture je) (jpeg_output_width je)
                (jpeg_output_height je)) calls
       /\ tile_at (wallpapers s') x y = Some w'
       /\ (tex_tmp w' = Some (fresh_texture je) /\ tex_to w' = tex_to w
           /\ tex_from w' = tex_from w
           \/ tex_to w' = Some (fresh_texture je) /\ tex_from w' = tex_to w
              /\ tex_tmp w' = None).
Proof.
  intros Hreach Hm Hw Ht Hsh Hbad Hje.
  pose proof (reachable_fetch_inv s Hreach) as [Hok Hfetch].
  pose proof (reachable_barrier_inv s Hreach) as [_ Hbar].
  assert (Htmp : tex_tmp w = None).
  { destruct (tex_tmp w) as [tx|] eqn:Htmp; [|reflexivity].
    destruct (Hbar x y w Hw) as (T1 & _).
    destruct (Hfetch x y w Hw ltac:(rewrite Ht; eauto)) as (Hd & _).
    rewrite T1 in Hd by (rewrite Htmp; eauto). discriminate. }
  split; [exact Htmp|].
  destruct (download_complete_success fe je fd mask x y s w t Hok
              Hm Hw Ht Hsh Hbad Hje)
    as (s2 & E & _ & _ & _ & _ & _ & Hres).
  rewrite Htmp, decode_calls_fresh in E.
  set (s1 := set_wallpapers (grid_set x y (completed_tile je w) (wallpapers s)) s)
    in *.
  destruct (all_downloaded (grid_size (output s)) (wallpapers s1)).
  - destruct Hres as (Htiles & _).
    exists s2. eexists. exists (cleaned (swap_in (completed_tile je w))).
    split; [exact E|]. split; [cbn; tauto|]. split; [cbn; tauto|]. split.
    + rewrite Htiles. subst s1. sproj.
      rewrite (tile_at_grid_set_eq _ _ _ _ _ Hw).
      cbn [fmap option_fmap option_map]. now rewrite decide_True.
    + right. unfold swap_in, completed_tile. wproj.
      rewrite Htmp, decoded_texture_fresh. repeat split.
  - subst s2. eexists _, _. exists (cleaned (completed_tile je w)).
    split; [exact E|]. split; [cbn; tauto|]. split; [cbn; tauto|].
    split; [find_tile|].
    left. unfold completed_tile. wproj.
    rewrite Htmp, decoded_texture_fresh. repeat split.
Qed.

Lemma length_grid_coords wsize :
  length (grid_coords wsize)
  = (Z.to_nat (dim_width wsize) * Z.to_nat (dim_height wsize))%nat.
Proof.
  unfold grid_coords.
  assert (G : forall (l : list nat) (h : nat),
            length (l ≫= (fun x => (fun y => (x, y)) <$> seq 0 h))
            = (length l * h)%nat).
  { intros l h. induction l as [|x l IH]; [reflexivity|].
    cbn [mbind list_bind length]. rewrite length_app, length_fmap, length_seq.
    cbn [Nat.mul]. f_equal. exact IH. }
  now rewrite G, length_seq.
Qed.

(** X27.  The pre-render hook writes nothing of the plugin and damages
    every wallpaper of the grid exactly once. *)
Theorem pre_hook_damages_every_wallpaper_once s :
  grid_ok s ->
  exists calls,
    pre_hook s = Ok (tt, s, calls)
    /\ NoDup calls
    /\ length calls
       = (Z.to_nat (dim_width (grid_size (output s)))
          * Z.to_nat (dim_height (grid_size (output s))))%nat
    /\ forall e,
         In e calls
         <-> exists x y, e = Damage x y /\ is_Some (tile_at (wallpapers s) x y).
Proof.
  intros Hok. eexists. split; [exact (damage_wallpapers_Ok s Hok)|].
  assert (Hfmap : (grid_coords (grid_size (output s)) ≫=
                     (fun p => [Damage p.1 p.2]))
                  = (fun p => Damage p.1 p.2) <$> grid_coords (grid_size (output s))).
  { induction (grid_coords (grid_size (output s))) as [|p l IH];
      [reflexivity|]. cbn. now f_equal. }
  rewrite Hfmap. split; [|split].
  - apply NoDup_fmap_2; [|apply NoDup_grid_coords].
    intros [a b] [c d] H. cbn in H. now injection H as -> ->.
  - rewrite length_fmap. apply length_grid_coords.
  - intros e. rewrite <- list_elem_of_In, list_elem_of_fmap. split.
    + intros ([x y] & -> & Hin). exists x, y. split; [reflexivity|].
      apply elem_of_grid_coords in Hin as [Hx Hy].
      destruct (grid_ok_lookup s x y Hok Hx Hy) as [w Hw].
      rewrite Hw. eauto.
    + intros (x & y & -> & [w Hw]). exists (x, y). split; [reflexivity|].
      apply elem_of_grid_coords. now apply (grid_ok_range s x y w).
Qed.

(** X28.  From a commit to the next round.  After a commit made with
    [cycle] on, the timer is armed for [cycle_time] and no fetch is in
    flight.  When the timer then fires (and [eventfd] and [open_memstream]
    succeed), [cycle_timeout] starts one fetch for every wallpaper of the
    grid, all for the geometry of the output, and leaves the timer
    disconnected; every wallpaper keeps the texture it shows while the
    new images are fetched. *)
Theorem cycle_timeout_after_commit_refetches_everything
    os fe je fd mask x y s w t :
  reachable s ->
  Z.land mask WL_EVENT_READABLE <> 0 ->
  tile_at (wallpapers s) x y = Some w ->
  thread w = Some t ->
  wallpaper_shutdown s = false ->
  download_bad s w = false ->
  jpeg_outcome je <> JPEG_FATAL ->
  others_downloaded s x y ->
  cycle s = true ->
  fetches_can_start os ->
  exists s1 c1 s2 c2,
    download_complete fe je fd mask x y s = Ok (0, s1, c1)
    /\ timer s1 = Some (cycle_time s)
    /\ cycle_timeout os s1 = Ok (tt, s2, c2)
    /\ timer s2 = None
    /\ In TimerDisconnect c2
    /\ forall x' y',
         is_Some (tile_at (wallpapers s) x' y') ->
         exists w2,
           tile_at (wallpapers s2) x' y' = Some w2
           /\ thread w2 = Some (new_thread (os x' y'))
           /\ geometry w2 = get_relative_geometry (output s)
           /\ image_buf w2 = []
           /\ failed_counter w2 = 0
           /\ is_Some (tex_to w2)
           /\ In (ThreadCreate x' y' (new_thread (os x' y'))) c2.
Proof.
  intros Hreach Hm Hw Ht Hsh Hbad Hje Hothers Hcycle Hos.
  destruct (commit_leaves_the_grid_idle fe je fd mask x y s w t
              Hreach Hm Hw Ht Hsh Hbad Hje Hothers)
    as (s1 & E1 & Hok1 & Hout1 & Htm1 & Hdom & Hidle).
  rewrite Hcycle in Htm1.
  destruct (update_textures_spec os s1 Hok1)
    as (s2 & c2 & E2 & _ & _ & Htiles & Htm2 & Hc2).
  exists s1. eexists. exists s2, c2.
  split; [exact E1|]. split; [exact Htm1|]. split; [exact E2|].
  split; [|split].
  - pose proof (restart_timers_range os (wallpapers s1)
                  (grid_coords (grid_size (output s1))) None) as Hr.
    rewrite <- Htm2 in Hr.
    destruct Hr as [H|[H|(_ & p & w1 & _ & Hw1 & Hf)]]; [assumption..|].
    destruct (Hidle _ _ _ Hw1) as (_ & _ & Hd & Hth).
    unfold in_flight in Hf. rewrite Hth, andb_false_r in Hf. discriminate.
  - rewrite Hc2, Htm1. now left.
  - intros x' y' Hsome. apply Hdom in Hsome as [w1 Hw1].
    destruct (Hidle _ _ _ Hw1) as (Hto & _ & Hd & Hth).
    destruct (Hos x' y') as [Hfd Hfp].
    exists (started_tile (os x' y') s1 (set_failed_counter 0 w1)).
    split.
    { rewrite Htiles, Hw1. cbn [fmap option_fmap option_map].
      now rewrite restarted_tile_started. }
    unfold started_tile. wproj. rewrite Hout1.
    repeat (split; [reflexivity || assumption|]).
    rewrite Hc2. apply in_or_app. right. apply in_or_app. left.
    apply list_elem_of_In, list_elem_of_bind. exists (x', y'). split.
    + cbn [fst snd]. rewrite Hw1. cbn [from_option].
      apply list_elem_of_In, thread_create_in_restart_calls.
      repeat split; assumption.
    + apply elem_of_grid_coords. now apply (grid_ok_range s1 x' y' w1).
Qed.

(** * The resources of a fetch and the cycle timer *)

Lemma rest_inv_tiles (f : nat -> nat -> wallpaper -> wallpaper) s s' :
  rest_inv s ->
  grid_ok s' ->
  (forall x y, tile_at (wallpapers s') x y = f x y <$> tile_at (wallpapers s) x y) ->
  (forall x y w,
     tile_at (wallpapers s) x y = Some w ->
     (is_Some (thread w) -> image_fp w <> 0 /\ sig_fd w <> -1) ->
     is_Some (thread (f x y w)) ->
     image_fp (f x y w) <> 0 /\ sig_fd (f x y w) <> -1) ->
  (forall ms,
     timer s' = Some ms -> ms <> RETRY_TIMEOUT ->
     (timer s = Some ms
      /\ forall x y w, tile_at (wallpapers s) x y = Some w ->
                       downloaded (f x y w) = downloaded w)
     \/ (forall x y w, tile_at (wallpapers s) x y = Some w ->
                       downloaded (f x y w) = false)) ->
  rest_inv s'.
Proof.
  intros (_ & R1 & R2) Hok Htiles Hf Htm. split; [exact Hok|]. split.
  - intros x y w' Hw' Hlive. rewrite Htiles in Hw'.
    destruct (tile_at (wallpapers s) x y) as [w|] eqn:Hw; [|discriminate].
    injection Hw' as <-. apply (Hf x y w Hw); [|exact Hlive].
    now apply (R1 x y).
  - intros ms Hms Hne x y w' Hw'. rewrite Htiles in Hw'.
    destruct (tile_at (wallpapers s) x y) as [w|] eqn:Hw; [|discriminate].
    injection Hw' as <-.
    destruct (Htm ms Hms Hne) as [[Hs Hd]|Hd].
    + rewrite (Hd x y w Hw). now apply (R2 ms Hs Hne x y).
    + now apply (Hd x y).
Qed.

Lemma rest_inv_frame s s' :
  rest_inv s ->
  wallpapers s' = wallpapers s ->
  timer s' = timer s ->
  grid_size (output s') = grid_size (output s) ->
  rest_inv s'.
Proof.
  intros ([H1 H2] & R1 & R2) Hg Ht Ho. split; [|split].
  - unfold grid_ok. now rewrite Hg, Ho.
  - intros x y w Hw. rewrite Hg in Hw. now apply (R1 x y).
  - intros ms Hms Hne x y w Hw. rewrite Hg in Hw. rewrite Ht in Hms.
    now apply (R2 ms Hms Hne x y).
Qed.

Lemma rest_inv_set_tile s x y w w' tm :
  rest_inv s ->
  tile_at (wallpapers s) x y = Some w ->
  (is_Some (thread w') -> image_fp w' <> 0 /\ sig_fd w' <> -1) ->
  (forall ms, tm = Some ms -> ms <> RETRY_TIMEOUT ->
     timer s = Some ms /\ downloaded w' = downloaded w) ->
  rest_inv (set_timer tm (set_wallpapers (grid_set x y w' (wallpapers s)) s)).
Proof.
  intros Hinv Hw Hw' Htm.
  apply (rest_inv_tiles
           (fun x' y' w1 => if decide ((x, y) = (x', y')) then w' else w1) s).
  - exact Hinv.
  - exact (grid_ok_grid_set s x y w' (proj1 Hinv)).
  - intros x' y'. sproj. unfold grid_set. rewrite tile_at_alter.
    destruct (decide ((x, y) = (x', y'))), (tile_at (wallpapers s) x' y');
      reflexivity.
  - intros x' y' w1 Hw1 Hok1.
    destruct (decide ((x, y) = (x', y'))); [intros; now apply Hw'|exact Hok1].
  - intros ms Hms Hne. sproj. left.
    destruct (Htm ms Hms Hne) as [Hs Hd]. split; [exact Hs|].
    intros x' y' w1 Hw1.
    destruct (decide ((x, y) = (x', y'))) as [E|N]; [|reflexivity].
    injection E as <- <-. congruence.
Qed.

Lemma rest_inv_worker_done acts x y s :
  rest_inv s -> rest_inv (worker_done acts x y s).
Proof.
  intros Hinv.
  apply (rest_inv_tiles
           (fun x' y' w1 =>
              if decide ((x, y) = (x', y')) then worker_writes acts w1 else w1) s).
  - exact Hinv.
  - destruct Hinv as [[H1 H2] _].
    destruct (grid_alter_shape (worker_writes acts) x y (wallpapers s) _ _
                (conj H1 H2)) as [H3 H4].
    split; assumption.
  - intros x' y'. unfold worker_done. sproj. rewrite tile_at_alter.
    destruct (decide ((x, y) = (x', y'))), (tile_at (wallpapers s) x' y');
      reflexivity.
  - intros x' y' w1 Hw1 Hok1.
    destruct (decide ((x, y) = (x', y'))); [|exact Hok1].
    destruct (worker_writes_frame acts w1) as (F1 & F2 & _ & _ & _ & _ & _ & F8 & _).
    rewrite F1, F2, F8. exact Hok1.
  - intros ms Hms Hne. left. split; [exact Hms|].
    intros x' y' w1 Hw1.
    destruct (decide ((x, y) = (x', y'))); [|reflexivity].
    now destruct (worker_writes_frame acts w1) as (_ & _ & _ & _ & _ & _ & F7 & _).
Qed.

Lemma rest_inv_download_complete fe je fd mask x y s r s' calls :
  fetch_inv s ->
  rest_inv s ->
  download_complete fe je fd mask x y s = Ok (r, s', calls) ->
  rest_inv s'.
Proof.
  intros Hfetch Hinv H.
  destruct (Z.eq_dec (Z.land mask WL_EVENT_READABLE) 0) as [Hm|Hm].
  { rewrite download_complete_not_readable in H by exact Hm.
    now apply Ok_inj in H as (_ & <- & _). }
  destruct (tile_at (wallpapers s) x y) as [w|] eqn:Hw.
  2:{ rewrite download_complete_out_of_range in H by assumption. discriminate. }
  destruct (thread w) as [t|] eqn:Ht.
  2:{ rewrite (download_complete_no_thread _ _ _ _ _ _ _ w) in H by assumption.
      now apply Ok_inj in H as (_ & <- & _). }
  destruct (proj2 Hfetch x y w Hw ltac:(rewrite Ht; eauto)) as (Hdl & Hfc & Htm).
  assert (Hretry : forall ms, timer s = Some ms -> ms <> RETRY_TIMEOUT -> False).
  { intros ms Hms Hne. destruct Htm as [Htm|Htm]; congruence. }
  destruct (wallpaper_shutdown s) eqn:Hsh.
  { rewrite (download_complete_shutdown _ _ _ _ _ _ _ w t) in H by assumption.
    apply Ok_inj in H as (_ & <- & _).
    apply (rest_inv_set_tile s x y w (cleaned w) (timer s) Hinv Hw).
    - wproj. intros [? ?]. discriminate.
    - intros ms Hms Hne. now split. }
  destruct (download_bad s w) eqn:Hbad.
  - destruct (download_complete_failure fe je fd mask x y s w t Hm Hw Ht Hsh Hbad)
      as (w' & tm & calls' & E & _ & _ & _ & Hd & _ & _ & Htm' & _ & Hth).
    rewrite E in H. apply Ok_inj in H as (_ & <- & _).
    apply (rest_inv_set_tile s x y w w' tm Hinv Hw).
    + intros Hlive.
      destruct Hth as [[Hn _]|(_ & _ & _ & _ & _ & Hfp & Hfd)];
        [|split; assumption].
      rewrite Hn in Hlive. destruct Hlive. discriminate.
    + intros ms Hms Hne. split; [|exact Hd].
      destruct Htm' as [->|[->| ->]];
        [exact Hms|discriminate|injection Hms as <-; contradiction].
  - destruct (jpeg_status_eq_dec (jpeg_outcome je) JPEG_FATAL) as [Hje|Hje].
    { rewrite (download_complete_fatal _ _ _ _ _ _ _ w t) in H by assumption.
      discriminate. }
    destruct (download_complete_success fe je fd mask x y s w t (proj1 Hinv)
                Hm Hw Ht Hsh Hbad Hje)
      as (s2 & E & _ & _ & _ & _ & Hok2 & Hres).
    rewrite E in H. apply Ok_inj in H as (_ & <- & _). clear E.
    set (s1 := set_wallpapers (grid_set x y (completed_tile je w) (wallpapers s)) s)
      in *.
    destruct (all_downloaded (grid_size (output s)) (wallpapers s1)).
    + destruct Hres as (Htiles & _).
      apply (rest_inv_tiles
               (fun x' y' w1 =>
                  if decide ((x', y') = (x, y))
                  then cleaned (swap_in (completed_tile je w))
                  else swap_in w1) s).
      * exact Hinv.
      * exact Hok2.
      * intros x' y'. rewrite Htiles. subst s1. sproj.
        unfold grid_set. rewrite tile_at_alter.
        destruct (decide ((x', y') = (x, y))) as [E|N].
        -- injection E as -> ->. rewrite decide_True by reflexivity.
           now rewrite Hw.
        -- rewrite decide_False by congruence.
           now destruct (tile_at (wallpapers s) x' y').
      * intros x' y' w1 Hw1 Hok1.
        destruct (decide ((x', y') = (x, y))).
        -- intros [t' Ht']. cbn in Ht'. discriminate.
        -- exact Hok1.
      * intros ms _ _. right. intros x' y' w1 Hw1.
        now destruct (decide ((x', y') = (x, y))).
    + subst s2.
      apply (rest_inv_set_tile s x y w (cleaned (completed_tile je w))
               (timer s) Hinv Hw).
      * wproj. intros [? ?]. discriminate.
      * intros ms Hms Hne. destruct (Hretry ms Hms Hne).
Qed.

Lemma rest_inv_update_textures os s s' calls :
  rest_inv s ->
  update_textures os s = Ok (tt, s', calls) ->
  rest_inv s'.
Proof.
  intros Hinv H.
  destruct (update_textures_spec os s (proj1 Hinv))
    as (s2 & c2 & E & _ & Hok2 & Htiles & Htimer & _).
  rewrite E in H. apply Ok_inj in H as (_ & <- & _).
  apply (rest_inv_tiles (fun x y => restarted_tile (os x y) s) s);
    [exact Hinv|exact Hok2|exact Htiles| |].
  - intros x y w _ Hready. unfold restarted_tile.
    destruct (downloaded w); [exact Hready|].
    destruct (thread w) as [t|] eqn:Ht; [wproj; now rewrite Ht|].
    destruct (Z.eqb_spec (eventfd_ret (os x y)) (-1)) as [Hfd|Hfd];
      [wproj; rewrite Ht; intros [? ?]; discriminate|].
    destruct (Z.eqb_spec (open_memstream_ret (os x y)) 0) as [Hfp|Hfp];
      [wproj; rewrite Ht; intros [? ?]; discriminate|].
    unfold started_tile. wproj. intros _. split; assumption.
  - intros ms Hms Hne. exfalso.
    pose proof (restart_timers_range os (wallpapers s)
                  (grid_coords (grid_size (output s))) None) as Hr.
    rewrite <- Htimer in Hr.
    destruct Hr as [Hr|[Hr|[Hr _]]]; congruence.
Qed.

Lemma rest_inv_output_config_changed os changed_fields s s' calls :
  rest_inv s ->
  output_config_changed os changed_fields s = Ok (tt, s', calls) ->
  rest_inv s'.
Proof.
  intros Hinv H. unfold output_config_changed in H.
  destruct (changed_fields =? 0); [now apply Ok_inj in H as (_ & <- & _)|].
  destruct (negb (Z.land changed_fields OUTPUT_SOURCE_CHANGE =? 0));
    [now apply Ok_inj in H as (_ & <- & _)|].
  revert H. rewrite bind_get. cbv zeta. unfold get_workspace_grid_size.
  rewrite (bind_Ok _ _ _ _ _ _ (read_only_grid_loop _ s (proj1 Hinv))).
  destruct (update_textures_spec os s (proj1 Hinv)) as (s2 & c2 & E & _).
  rewrite E. cbn [after]. intros H. apply Ok_inj in H as (_ & <- & _).
  now apply (rest_inv_update_textures os s s2 c2).
Qed.

Lemma rest_inv_disconnect s : rest_inv s -> rest_inv (set_timer None s).
Proof.
  intros (Hok & R1 & _). split; [exact Hok|]. split; [exact R1|].
  intros ms Hms. discriminate.
Qed.

Lemma rest_inv_cycle_changed os s s' calls :
  rest_inv s -> cycle_changed os s = Ok (tt, s', calls) -> rest_inv s'.
Proof.
  intros Hinv H. revert H. unfold cycle_changed. rewrite bind_get.
  pose proof (rest_inv_disconnect s Hinv) as Hdis.
  destruct (timer s) as [ms|] eqn:Htm; cbn [is_connected].
  - unfold timer_disconnect. repeat mstep.
    destruct (cycle s).
    + destruct (update_textures_spec os _ (proj1 Hdis)) as (s2 & c2 & E & _).
      rewrite E. cbn [after]. intros H. apply Ok_inj in H as (_ & <- & _).
      now apply (rest_inv_update_textures os _ s2 c2 Hdis).
    + mlast. intros H. now apply Ok_inj in H as (_ & <- & _).
  - repeat mstep. destruct (cycle s).
    + intros H. now apply (rest_inv_update_textures os s s' calls).
    + intros H. now apply Ok_inj in H as (_ & <- & _).
Qed.

Lemma rest_inv_post_hook running s s' calls :
  rest_inv s -> post_hook running s = Ok (tt, s', calls) -> rest_inv s'.
Proof.
  intros Hinv H. destruct running.
  { now apply Ok_inj in H as (_ & <- & _). }
  destruct (post_hook_spec s (proj1 Hinv))
    as (s2 & E & _ & Htm & _ & _ & _ & _ & _ & Hok2 & Htiles).
  rewrite E in H. apply Ok_inj in H as (_ & <- & _).
  apply (rest_inv_tiles (fun _ _ => set_tex_from None) s);
    [exact Hinv|exact Hok2|exact Htiles| |].
  - intros x y w _ Hready. exact Hready.
  - intros ms Hms Hne. left. rewrite <- Htm. split; [exact Hms|reflexivity].
Qed.

Lemma rest_inv_fini s s' calls :
  rest_inv s -> fini s = Ok (tt, s', calls) -> rest_inv s'.
Proof.
  intros Hinv H.
  destruct (fini_Ok s (proj1 Hinv))
    as (s2 & c2 & E & _ & Htm & _ & Hok2 & Htiles & _).
  rewrite E in H. apply Ok_inj in H as (_ & <- & _).
  apply (rest_inv_tiles (fun _ _ => fini_tile) s);
    [exact Hinv|exact Hok2|exact Htiles| |].
  - intros x y w _ _. unfold fini_tile. wproj.
    destruct (thread w) eqn:Ht; [|rewrite Ht]; intros [? ?]; discriminate.
  - intros ms Hms. congruence.
Qed.

Lemma rest_inv_init os cy cy_time o s calls :
  init os (new_screen cy cy_time o) = Ok (tt, s, calls) -> rest_inv s.
Proof.
  intros H. revert H. unfold init. repeat mstep. cbv zeta.
  set (s0 := set_wallpapers _ _).
  assert (Hinv0 : rest_inv s0).
  { split; [|split].
    - subst s0. split; sproj.
      + apply length_replicate.
      + apply Forall_replicate. apply length_replicate.
    - intros x y w Hw. subst s0. sproj.
      apply tile_at_replicate in Hw as ->. intros [? ?]. discriminate.
    - intros ms Hms. discriminate. }
  change (get_workspace_grid_size
            (output (set_fade_animation (0, 0) (new_screen cy cy_time o))))
    with (grid_size (output s0)).
  rewrite (bind_Ok _ _ _ _ _ _ (read_only_grid_loop _ s0 (proj1 Hinv0))).
  destruct (update_textures_spec os s0 (proj1 Hinv0)) as (s2 & c2 & E & _).
  rewrite E. cbn [after]. intros H. apply Ok_inj in H as (_ & <- & _).
  now apply (rest_inv_update_textures os s0 s2 c2).
Qed.

Lemma reachable_rest_inv s : reachable s -> rest_inv s.
Proof.
  induction 1 as [cy cy_time o os s calls Hinit | s s' Hreach IH Hstep].
  - now apply (rest_inv_init os cy cy_time o s calls).
  - pose proof (reachable_fetch_inv s Hreach) as Hfetch.
    destruct Hstep as
      [ fuel tr early late x y w s Hw Hlive _
      | fe je fd mask x y s r s' calls H
      | early fe je fd mask x y s r s' calls _ H
      | os s s' calls _ H
      | os s s' calls H
      | os o changed_fields s s' calls Hgrid H
      | os b s s' calls H
      | ms s
      | running s s' calls H
      | s s' calls H ].
    + now apply rest_inv_worker_done.
    + now apply (rest_inv_download_complete fe je fd mask x y s r s' calls).
    + destruct (download_complete_racing_steps _ _ _ _ _ _ _ _ _ _ _ H)
        as (s0 & E0 & [->|(acts & w0 & _ & _ & ->)]).
      * now apply (rest_inv_download_complete fe je fd mask x y s r s0 calls).
      * apply rest_inv_worker_done.
        now apply (rest_inv_download_complete fe je fd mask x y s r s0 calls).
    + now apply (rest_inv_update_textures os s s' calls).
    + now apply (rest_inv_update_textures os s s' calls).
    + apply (rest_inv_output_config_changed os changed_fields
               (set_output o s) s' calls); [|exact H].
      apply (rest_inv_frame s); [exact IH|reflexivity|reflexivity|exact Hgrid].
    + apply (rest_inv_cycle_changed os (set_cycle b s) s' calls); [|exact H].
      apply (rest_inv_frame s); [exact IH|reflexivity..].
    + apply (rest_inv_frame s); [exact IH|reflexivity..].
    + now apply (rest_inv_post_hook running s s' calls).
    + now apply (rest_inv_fini s s' calls).
Qed.

(** X29.  A fetch in flight has its resources.  In every state the
    plugin reaches, a wallpaper with a live thread has an open stream
    and a valid eventfd.  So the write callback of its worker never
    finds the stream missing: unless it reads [wallpaper_shutdown] as
    set it takes every piece whole, and the worker's stream grows by
    exactly the bytes libcurl hands over. *)
Theorem live_fetch_has_its_stream_and_eventfd s x y w :
  reachable s ->
  tile_at (wallpapers s) x y = Some w ->
  is_Some (thread w) ->
  image_fp w <> 0
  /\ sig_fd w <> -1
  /\ (forall data,
        write_cb w false data = (Z.of_nat (length data), [Fwrite data]))
  /\ forall fuel tr loop n,
       transfer_loop fuel w (steps tr) 0 0 0 = Some (loop, n) ->
       (forall j d sh, (j < n)%nat ->
          In (d, sh) (delivered (steps tr j)) -> sh = false) ->
       image_buf (worker_writes loop w) = image_buf w ++ body_of (steps tr) 0 n.
Proof.
  intros Hreach Hw Hlive.
  destruct (reachable_rest_inv s Hreach) as (_ & R1 & _).
  destruct (R1 x y w Hw Hlive) as [Hfp Hfd].
  split; [exact Hfp|]. split; [exact Hfd|]. split.
  - intros data. unfold write_cb. apply Z.eqb_neq in Hfp. now rewrite Hfp.
  - intros fuel tr loop n E Hsh.
    pose proof (transfer_loop_unroll _ _ _ _ _ _ _ _ E) as Hloop.
    rewrite Nat.sub_0_r in Hloop.
    rewrite worker_writes_image_buf. f_equal. rewrite Hloop.
    apply received_turns_actions; [exact Hfp|].
    intros j d sh Hj. apply (Hsh j). lia.
Qed.

(** X30.  While the cycle timer is pending the wallpapers are at rest.
    In every state the plugin reaches, if the timer is armed for
    anything but the retry delay, then no fetch is in flight and no
    wallpaper waits at the barrier: every wallpaper is without a thread,
    not [downloaded], and has nothing in [tmp]. *)
Theorem cycle_timer_pending_means_wallpapers_at_rest s ms x y w :
  reachable s ->
  timer s = Some ms ->
  ms <> RETRY_TIMEOUT ->
  tile_at (wallpapers s) x y = Some w ->
  thread w = None /\ downloaded w = false /\ tex_tmp w = None.
Proof.
  intros Hreach Hms Hne Hw.
  destruct (reachable_rest_inv s Hreach) as (_ & _ & R2).
  pose proof (R2 ms Hms Hne x y w Hw) as Hdl.
  split; [|split; [exact Hdl|]].
  - destruct (thread w) as [t|] eqn:Ht; [|reflexivity].
    destruct (proj2 (reachable_fetch_inv s Hreach) x y w Hw
                ltac:(rewrite Ht; eauto)) as (_ & _ & [Htm|Htm]); congruence.
  - destruct (tex_tmp w) as [tx|] eqn:Htmp; [|reflexivity].
    destruct (proj2 (reachable_barrier_inv s Hreach) x y w Hw) as (T1 & _).
    rewrite T1 in Hdl by (rewrite Htmp; eauto). discriminate.
Qed.

(** * The further properties on the two runs *)

Lemma reachable_fail_4 : reachable fail_4.
Proof.
  apply (reachable_step fail_4w);
    [|by_handler (example_os 0 0) example_jpeg 10 0%nat 0%nat].
  exact reachable_fail_4w.
Qed.

Lemma reachable_fail_1w : reachable fail_1w.
Proof.
  apply (reachable_step run_0); [|by_worker run_0 0%nat 0%nat failed_transfer].
  exact reachable_run_0.
Qed.

Lemma reachable_mixed_1w : reachable mixed_1w.
Proof.
  apply (reachable_step run_0); [|by_worker run_0 0%nat 0%nat good_transfer].
  exact reachable_run_0.
Qed.

Lemma reachable_mixed_1 : reachable mixed_1.
Proof.
  apply (reachable_step mixed_1w);
    [|by_handler (example_os 0 0) example_jpeg 10 0%nat 0%nat].
  exact reachable_mixed_1w.
Qed.

Lemma others_downloaded_mixed_4w : others_downloaded mixed_4w 1 0.
Proof.
  intros x' y' w' Hw' Hne.
  destruct x' as [|[|x']], y' as [|y']; try discriminate Hw'.
  - injection Hw' as <-. reflexivity.
  - congruence.
Qed.

Lemma update_textures_resets_failure_counts_witness :
  failed_counter (tile_of fail_4 0 0) = 4
  /\ exists s' calls,
       update_textures example_os fail_4 = Ok (tt, s', calls)
       /\ forall x y w',
            tile_at (wallpapers s') x y = Some w' -> failed_counter w' = 0.
Proof.
  split; [reflexivity|].
  destruct (update_textures_resets_failure_counts example_os fail_4)
    as (s' & calls & E & _ & H & _).
  - split; [reflexivity|]. repeat constructor.
  - exists s', calls. split; [exact E|exact H].
Defined.

Lemma update_textures_starts_missing_fetches_only_witness :
  exists s' calls,
    update_textures example_os fail_4 = Ok (tt, s', calls)
    /\ In (ThreadCreate 0 0 300) calls
    /\ ~ In (ThreadCreate 1 0 301) calls.
Proof.
  destruct (update_textures_starts_missing_fetches_only example_os fail_4)
    as (s' & calls & E & H).
  - split; [reflexivity|]. repeat constructor.
  - exists s', calls. split; [exact E|]. split.
    + apply H. exists (tile_of fail_4 0 0).
      repeat split; vm_compute; discriminate.
    + intros Hin. apply H in Hin as (w & Hw & _ & Ht & _).
      injection Hw as <-. discriminate Ht.
Defined.

Lemma update_textures_gets_pending_wallpapers_fetching_witness :
  exists s' calls w',
    update_textures example_os fail_4 = Ok (tt, s', calls)
    /\ tile_at (wallpapers s') 0 0 = Some w'
    /\ thread w' = Some 300
    /\ geometry w' = mk_box 0 0 800 600.
Proof.
  destruct (update_textures_gets_pending_wallpapers_fetching example_os fail_4)
    as (s' & calls & E & _ & H).
  - split; [reflexivity|]. repeat constructor.
  - intros x y. unfold example_os. cbn. lia.
  - destruct (H 0%nat 0%nat (tile_of fail_4 0 0) eq_refl eq_refl eq_refl)
      as (w' & Hw' & Ht & Hg & _).
    exists s', calls, w'. repeat split; assumption.
Defined.

Lemma update_textures_leaves_only_the_retry_timer_witness :
  timer mixed_4 = Some 60000
  /\ (exists s' calls,
        update_textures example_os mixed_4 = Ok (tt, s', calls)
        /\ (timer s' = None \/ timer s' = Some 1000)
        /\ In TimerDisconnect calls)
  /\ exists s' calls,
       update_textures example_os fail_4 = Ok (tt, s', calls)
       /\ timer s' = Some 1000.
Proof.
  split; [reflexivity|]. split.
  - destruct (update_textures_leaves_only_the_retry_timer example_os mixed_4)
      as (s' & calls & E & H1 & _ & _ & H4).
    + split; [reflexivity|]. repeat constructor.
    + exists s', calls. split; [exact E|]. split; [exact H1|].
      apply H4. reflexivity.
  - destruct (update_textures_leaves_only_the_retry_timer example_os fail_4)
      as (s' & calls & E & _ & _ & H3 & _).
    + split; [reflexivity|]. repeat constructor.
    + exists s', calls. split; [exact E|]. apply H3.
      * intros x y. unfold example_os. cbn. lia.
      * exists 1%nat, 0%nat, (tile_of fail_4 1 0). split; reflexivity.
Defined.

Lemma init_starts_one_fetch_per_workspace_witness :
  exists s calls,
    init example_os (new_screen true 60000 example_output) = Ok (tt, s, calls)
    /\ timer s = None
    /\ tile_at (wallpapers s) 1 0 = Some (tile_of run_0 1 0)
    /\ In (ViewSetGeometry 1 0 (mk_box 800 0 800 600)) calls
    /\ In (ThreadCreate 1 0 301) calls.
Proof.
  destruct (init_starts_one_fetch_per_workspace example_os true 60000
              example_output)
    as (s & calls & E & _ & _ & Htm & _ & _ & H).
  - intros x y. unfold example_os. cbn. lia.
  - destruct (H 1%nat 0%nat) as (Hw & Hv & Hc); [cbn; lia..|].
    exists s, calls. repeat split; assumption.
Defined.


Lemma handler_joins_the_worker_on_every_path_witness :
  In (ThreadJoin 300)
    (calls_of (download_complete (example_os 0 0) example_jpeg 10 1 0 0 fail_4w))
  /\ In (Close 10)
       (calls_of (download_complete (example_os 0 0) example_jpeg 10 1 0 0 fail_4w))
  /\ thread (tile_of fail_4 0 0) = None.
Proof.
  destruct (handler_joins_the_worker_on_every_path (example_os 0 0) example_jpeg
              10 1 0 0 fail_4w (tile_of fail_4w 0 0) 300 0 fail_4
              (calls_of (download_complete (example_os 0 0) example_jpeg
                           10 1 0 0 fail_4w)))
    as (_ & _ & H & _).
  - split; [reflexivity|]. repeat constructor.
  - vm_compute. discriminate.
  - reflexivity.
  - reflexivity.
  - reflexivity.
  - split; [|split; [|reflexivity]]; apply H; cbn; tauto.
Defined.

Lemma simple_render_draws_named_textures_only_witness :
  7 <> GLuint_minus_1
  /\ fmap tex (tex_to (tile_of mixed_4 0 0)) = Some 7.
Proof.
  destruct (simple_render_draws_named_textures_only false
              (QArith_base.Qmake 1 2) (tile_of mixed_4 0 0)
              (mk_box 0 0 1024 768) [mk_box 0 0 10 10] 7 (mk_box 0 0 1024 768)
              (QArith_base.Qmake 1 2))
    as (H1 & _ & _ & H4).
  - vm_compute. do 2 right. left. reflexivity.
  - split; [exact H1|]. destruct H4 as [(H & _)|(H & _)]; [discriminate H|exact H].
Defined.

Lemma failed_download_keeps_the_picture_witness :
  exists s' calls,
    download_complete (example_os 0 0) example_jpeg 10 1 0 0 fail_4w
    = Ok (0, s', calls)
    /\ hook_set s' = hook_set fail_4w
    /\ ~ In AddEffects calls
    /\ (forall n a b, ~ In (GlTexImage2D n a b) calls).
Proof.
  destruct (failed_download_keeps_the_picture (example_os 0 0) example_jpeg
              10 1 0 0 fail_4w (tile_of fail_4w 0 0) 300)
    as (s' & calls & E & H1 & _ & _ & H4 & _ & H6 & _).
  - vm_compute. discriminate.
  - reflexivity.
  - reflexivity.
  - reflexivity.
  - reflexivity.
  - exists s', calls. repeat split; assumption.
Defined.

Lemma hooks_are_registered_once_witness :
  exists s1 c1,
    activate run_0 = Ok (tt, s1, c1)
    /\ In AddEffects c1
    /\ activate s1 = Ok (tt, s1, [])
    /\ deactivate s1 = Ok (tt, set_hook_set false s1, [RemEffects]).
Proof.
  destruct (hooks_are_registered_once run_0)
    as (s1 & c1 & E & _ & H1 & H2 & H3 & _).
  - split; [reflexivity|]. repeat constructor.
  - exists s1, c1. split; [exact E|]. split; [now apply H1|].
    split; assumption.
Defined.

Lemma post_hook_drops_the_old_textures_witness :
  post_hook true mixed_4 = Ok (tt, mixed_4, [])
  /\ exists s' calls,
       post_hook false mixed_4 = Ok (tt, s', calls)
       /\ hook_set s' = false
       /\ In RemEffects calls.
Proof.
  destruct (post_hook_drops_the_old_textures mixed_4)
    as (H0 & s' & calls & E & H1 & H2 & _).
  - split; [reflexivity|]. repeat constructor.
  - split; [exact H0|]. exists s', calls. split; [exact E|].
    split; [exact H1|]. now apply H2.
Defined.

Lemma fade_leaves_the_new_texture_only_witness :
  exists s1 c1 s2 c2 w2,
    download_complete (example_os 1 0) example_jpeg_resized 11 1 1 0 mixed_4w
    = Ok (0, s1, c1)
    /\ post_hook false s1 = Ok (tt, s2, c2)
    /\ hook_set s2 = false
    /\ tile_at (wallpapers s2) 0 0 = Some w2
    /\ tex_from w2 = None
    /\ tex_to w2 = Some (mk_texture 7 800 600)
    /\ tex_tmp w2 = None.
Proof.
  destruct (fade_leaves_the_new_texture_only (example_os 1 0)
              example_jpeg_resized 11 1 1 0 mixed_4w (tile_of mixed_4w 1 0) 301)
    as (s1 & c1 & s2 & c2 & E1 & _ & E2 & _ & Hh & H).
  - exact reachable_mixed_4w.
  - vm_compute. discriminate.
  - reflexivity.
  - reflexivity.
  - reflexivity.
  - reflexivity.
  - vm_compute. discriminate.
  - exact others_downloaded_mixed_4w.
  - destruct (H 0%nat 0%nat (tile_of mixed_4w 0 0) eq_refl)
      as (w2 & tx & Hw2 & Hf & Hto & Htmp & _ & _ & Hne).
    exists s1, c1, s2, c2, w2.
    split; [exact E1|]. split; [exact E2|]. split; [exact Hh|].
    split; [exact Hw2|]. split; [exact Hf|]. split; [|exact Htmp].
    rewrite Hto. symmetry. apply Hne. discriminate.
Defined.

Lemma fetch_in_flight_invariant_witness :
  grid_ok fail_4w
  /\ downloaded (tile_of fail_4w 0 0) = false
  /\ 0 <= failed_counter (tile_of fail_4w 0 0) <= 3
  /\ (timer fail_4w = None \/ timer fail_4w = Some RETRY_TIMEOUT).
Proof.
  destruct (fetch_in_flight_invariant fail_4w 0 0 (tile_of fail_4w 0 0))
    as (H1 & _ & _ & H2).
  - exact reachable_fail_4w.
  - reflexivity.
  - split; [exact H1|]. apply H2. exists 300. reflexivity.
Defined.

Lemma waiting_wallpapers_hold_their_texture_witness :
  downloaded (tile_of mixed_1 0 0) = true
  /\ is_Some (tex_tmp (tile_of mixed_1 0 0))
  /\ thread (tile_of mixed_1 0 0) = None
  /\ 0 <= failed_counter (tile_of mixed_1 0 0) <= 4.
Proof.
  destruct (waiting_wallpapers_hold_their_texture mixed_1 0 0
              (tile_of mixed_1 0 0))
    as (_ & H2 & H3).
  - exact reachable_mixed_1.
  - reflexivity.
  - destruct (H3 eq_refl eq_refl) as [H4 H5].
    split; [reflexivity|]. split; [exact H4|]. split; [exact H5|exact H2].
Defined.

Lemma fetch_start_leaves_the_flag_clear_witness :
  (download_failed (tile_of fail_4 0 0) = false
   /\ exists s' calls w',
        update_textures example_os fail_4 = Ok (tt, s', calls)
        /\ tile_at (wallpapers s') 0 0 = Some w'
        /\ thread w' = Some 300
        /\ download_failed w' = false
        /\ image_buf w' = [])
  /\ download_failed (tile_of fail_1w 0 0) = true
  /\ exists s' calls w',
       download_complete_racing (firstn 7 broken_actions) (example_os 0 0)
         example_jpeg 10 1 0 0 fail_1w
       = Ok (0, s', calls)
       /\ In (ThreadCreate 0 0 300) calls
       /\ tile_at (wallpapers s') 0 0 = Some w'
       /\ thread w' = Some 300
       /\ download_failed w' = false
       /\ image_buf w' = [Byte.xff; Byte.xd8; Byte.xff].
Proof.
  split; [|split; [reflexivity|]].
  - destruct (fetch_start_leaves_the_flag_clear [] example_os (example_os 0 0)
                example_jpeg 10 1 0 0 fail_4 (tile_of fail_4 0 0))
      as (H1 & H2 & _).
    + exact reachable_fail_4.
    + reflexivity.
    + reflexivity.
    + destruct (H2 eq_refl eq_refl ltac:(vm_compute; discriminate)
                  ltac:(vm_compute; discriminate))
        as (s' & calls & w' & E & Hw' & Ht & Hdf & Hb & _).
      split; [exact (H1 eq_refl)|]. exists s', calls, w'.
      repeat split; assumption.
  - destruct (fetch_start_leaves_the_flag_clear (firstn 7 broken_actions)
                example_os (example_os 0 0) example_jpeg 10 1 0 0 fail_1w
                (tile_of fail_1w 0 0))
      as (_ & _ & H3).
    + exact reachable_fail_1w.
    + reflexivity.
    + reflexivity.
    + destruct (H3 300 eq_refl ltac:(vm_compute; discriminate) eq_refl
                  ltac:(vm_compute; discriminate)
                  ltac:(vm_compute; discriminate)
                  ltac:(vm_compute; discriminate))
        as (s' & calls & w' & E & Hc & _ & Hw' & _ & Ht & Hdf & Hb & _).
      exists s', calls, w'.
      split; [exact E|]. split; [exact Hc|]. split; [exact Hw'|].
      split; [exact Ht|]. split; [exact Hdf|]. exact Hb.
Defined.

Lemma commit_gives_every_wallpaper_a_texture_witness :
  exists s' calls,
    download_complete (example_os 1 0) example_jpeg_resized 11 1 1 0 mixed_4w
    = Ok (0, s', calls)
    /\ In (FadeAnimate 0 1) calls
    /\ forall x' y' w',
         tile_at (wallpapers s') x' y' = Some w' ->
         is_Some (tex_to w') /\ tex_tmp w' = None
         /\ downloaded w' = false /\ thread w' = None.
Proof.
  apply (commit_gives_every_wallpaper_a_texture (example_os 1 0)
           example_jpeg_resized 11 1 1 0 mixed_4w (tile_of mixed_4w 1 0) 301).
  - exact reachable_mixed_4w.
  - vm_compute. discriminate.
  - reflexivity.
  - reflexivity.
  - reflexivity.
  - reflexivity.
  - vm_compute. discriminate.
  - exact others_downloaded_mixed_4w.
Defined.

Lemma worker_stores_the_body_in_order_witness :
  image_buf (worker_writes (actions_of run_0 0 0 good_transfer) (tile_of run_0 0 0))
  = [Byte.xff; Byte.xd8; Byte.xff].
Proof.
  destruct (worker_stores_the_body_in_order 1 (tile_of run_0 0 0) good_transfer
              (actions_of run_0 0 0 good_transfer))
    as (n & _ & _ & _).
  - reflexivity.
  - reflexivity.
Defined.

Lemma worker_sleeps_only_when_idle_twice_witness :
  curl_download 3 (tile_of run_0 0 0) slow_transfer
  = Some [CurlSetup 800 600 42; CurlMultiPerform 0 1; CurlMultiWait 0 0;
          CurlMultiPerform 0 1; CurlMultiWait 0 0; Usleep 100000;
          Fwrite [Byte.xff; Byte.xd8; Byte.xff]; CurlMultiPerform 0 0;
          CurlMultiWait 0 1; CurlCleanup; WriteSigFd 10]
  /\ exists j,
       (0 < j)%nat
       /\ numfds (steps slow_transfer j) = 0
       /\ numfds (steps slow_transfer (j - 1)%nat) = 0.
Proof.
  split; [reflexivity|].
  destruct (worker_sleeps_only_when_idle_twice 3 (tile_of run_0 0 0)
              slow_transfer
              (default [] (curl_download 3 (tile_of run_0 0 0) slow_transfer))
              100000)
    as (_ & j & H1 & H2 & H3 & _).
  - reflexivity.
  - vm_compute. do 5 right. left. reflexivity.
  - exists j. repeat split; assumption.
Defined.

Lemma worker_leaves_the_loop_only_at_the_end_witness :
  exists n,
    (exists loop,
       transfer_loop 3 (tile_of run_0 0 0) (steps slow_transfer) 0 0 0
       = Some (loop, n))
    /\ (forall j, (S j < n)%nat -> turn_ends (steps slow_transfer j) = false)
    /\ (turn_ends (steps slow_transfer (n - 1)%nat) = true
        \/ (shutdown_seen (steps slow_transfer (n - 1)%nat) = true
            /\ flagged_turns (steps slow_transfer) 0 n = 11)).
Proof.
  destruct (worker_leaves_the_loop_only_at_the_end 3 (tile_of run_0 0 0)
              slow_transfer
              (default [] (curl_download 3 (tile_of run_0 0 0) slow_transfer)))
    as (n & H1 & _ & H3 & H4).
  - reflexivity.
  - exists n. repeat split; assumption.
Defined.

Lemma fetch_asks_for_the_size_of_the_output_witness :
  exists s' calls w',
    update_wallpaper (example_os 0 0) 0 0 fail_4 = Ok (tt, s', calls)
    /\ In (EventLoopAddFd 10 200) calls
    /\ tile_at (wallpapers s') 0 0 = Some w'
    /\ forall fuel tr acts,
         curl_download fuel w' tr = Some acts ->
         (exists rnd rest,
            acts = CurlSetup 800 600 rnd :: rest /\ 0 <= rnd < 10000000)
         /\ last acts = Some (WriteSigFd 10).
Proof.
  apply (fetch_asks_for_the_size_of_the_output (example_os 0 0) 0 0 fail_4
           (tile_of fail_4 0 0)).
  - reflexivity.
  - reflexivity.
  - vm_compute. discriminate.
  - vm_compute. discriminate.
Defined.

Lemma fini_leaves_nothing_behind_witness :
  exists s' calls,
    fini mixed_4 = Ok (tt, s', calls)
    /\ hook_set s' = false /\ timer s' = None /\ wallpaper_shutdown s' = true
    /\ In RemEffects calls
    /\ In (ViewClose 1 0) calls.
Proof.
  destruct (fini_leaves_nothing_behind mixed_4)
    as (s' & calls & E & H1 & H2 & H3 & H4 & _ & _ & _ & H8).
  - split; [reflexivity|]. repeat constructor.
  - exists s', calls. split; [exact E|].
    repeat (split; [assumption|]). split; [now apply H4|].
    now apply (H8 1%nat 0%nat (tile_of mixed_4 1 0)).
Defined.

Lemma update_wallpaper_failure_starts_nothing_witness :
  exists s' calls w',
    update_wallpaper no_stream_env 0 0 fail_4 = Ok (tt, s', calls)
    /\ timer s' = None
    /\ tile_at (wallpapers s') 0 0 = Some w'
    /\ thread w' = None
    /\ In (Close 10) calls
    /\ forall a b c, ~ In (ThreadCreate a b c) calls.
Proof.
  destruct (update_wallpaper_failure_starts_nothing no_stream_env 0 0 fail_4
              (tile_of fail_4 0 0))
    as (s' & calls & w' & E & H1 & _ & H3 & H4 & _ & _ & _ & _ & _ & _
        & H11 & _ & H13 & _).
  - reflexivity.
  - reflexivity.
  - right. reflexivity.
  - exists s', calls, w'. split; [exact E|].
    repeat (split; [assumption|]). split; [|exact H11].
    apply H13. vm_compute. discriminate.
Defined.

Lemma output_config_changed_places_views_and_restarts_witness :
  output_config_changed example_os 1 run_0 = Ok (tt, run_0, [])
  /\ output_config_changed example_os 2 run_0
     = after [ViewSetGeometry 0 0 (mk_box 0 0 800 600);
              ViewSetGeometry 1 0 (mk_box 800 0 800 600)]
         (update_textures example_os run_0).
Proof.
  destruct (output_config_changed_places_views_and_restarts example_os 1 run_0)
    as (H1 & _); [split; [reflexivity|]; repeat constructor|].
  destruct (output_config_changed_places_views_and_restarts example_os 2 run_0)
    as (_ & H2); [split; [reflexivity|]; repeat constructor|].
  split.
  - apply H1. right. vm_compute. discriminate.
  - apply H2; [discriminate|reflexivity].
Defined.

Lemma views_tile_the_workspace_grid_witness :
  exists x y,
    (x < 2)%nat /\ (y < 1)%nat
    /\ in_box (view_box (mk_box 0 0 800 600) x y) 900 10
    /\ forall x' y',
         (x' < 2)%nat -> (y' < 1)%nat ->
         in_box (view_box (mk_box 0 0 800 600) x' y') 900 10 ->
         x' = x /\ y' = y.
Proof.
  destruct (views_tile_the_workspace_grid (mk_box 0 0 800 600) 2 1 900 10)
    as (x & y & H1 & H2 & H3 & _ & _ & H6); [cbn; unfold INT_MAX; lia..|].
  exists x, y. split; [exact H1|]. split; [exact H2|].
  split; [exact H3|exact H6].
Defined.

Lemma accepted_image_gets_a_texture_of_its_own_witness :
  tex_tmp (tile_of mixed_1w 0 0) = None
  /\ exists s' calls,
       download_complete (example_os 0 0) example_jpeg 10 1 0 0 mixed_1w
       = Ok (0, s', calls)
       /\ In (GlGenTextures 7) calls
       /\ In (GlTexImage2D 7 800 600) calls.
Proof.
  destruct (accepted_image_gets_a_texture_of_its_own (example_os 0 0)
              example_jpeg 10 1 0 0 mixed_1w (tile_of mixed_1w 0 0) 300)
    as (H0 & s' & calls & w' & E & H1 & H2 & _).
  - exact reachable_mixed_1w.
  - vm_compute. discriminate.
  - reflexivity.
  - reflexivity.
  - reflexivity.
  - reflexivity.
  - vm_compute. discriminate.
  - split; [exact H0|]. exists s', calls. repeat split; assumption.
Defined.

Lemma pre_hook_damages_every_wallpaper_once_witness :
  exists calls,
    pre_hook run_0 = Ok (tt, run_0, calls)
    /\ NoDup calls
    /\ length calls = 2%nat
    /\ In (Damage 1 0) calls.
Proof.
  destruct (pre_hook_damages_every_wallpaper_once run_0)
    as (calls & E & H1 & H2 & H3).
  - split; [reflexivity|]. repeat constructor.
  - exists calls. split; [exact E|]. split; [exact H1|]. split; [exact H2|].
    apply H3. exists 1%nat, 0%nat. split; [reflexivity|].
    exists (tile_of run_0 1 0). reflexivity.
Defined.

Lemma cycle_timeout_after_commit_refetches_everything_witness :
  exists s1 c1 s2 c2,
    download_complete (example_os 1 0) example_jpeg_resized 11 1 1 0 mixed_4w
    = Ok (0, s1, c1)
    /\ timer s1 = Some 60000
    /\ cycle_timeout example_os s1 = Ok (tt, s2, c2)
    /\ timer s2 = None
    /\ exists w2,
         tile_at (wallpapers s2) 0 0 = Some w2
         /\ thread w2 = Some 300
         /\ geometry w2 = mk_box 0 0 1024 768
         /\ is_Some (tex_to w2).
Proof.
  destruct (cycle_timeout_after_commit_refetches_everything example_os
              (example_os 1 0) example_jpeg_resized 11 1 1 0 mixed_4w
              (tile_of mixed_4w 1 0) 301)
    as (s1 & c1 & s2 & c2 & E1 & Ht1 & E2 & Ht2 & _ & H).
  - exact reachable_mixed_4w.
  - vm_compute. discriminate.
  - reflexivity.
  - reflexivity.
  - reflexivity.
  - reflexivity.
  - vm_compute. discriminate.
  - exact others_downloaded_mixed_4w.
  - reflexivity.
  - intros x y. unfold example_os. cbn. lia.
  - destruct (H 0%nat 0%nat) as (w2 & Hw2 & Hth & Hg & _ & _ & Hto & _).
    + exists (tile_of mixed_4w 0 0). reflexivity.
    + exists s1, c1, s2, c2. split; [exact E1|]. split; [exact Ht1|].
      split; [exact E2|]. split; [exact Ht2|].
      exists w2. repeat split; assumption.
Defined.

Lemma reachable_mixed_4 : reachable mixed_4.
Proof.
  apply (reachable_step mixed_4w);
    [|by_handler (example_os 1 0) example_jpeg_resized 11 1%nat 0%nat].
  exact reachable_mixed_4w.
Qed.

Lemma live_fetch_has_its_stream_and_eventfd_witness :
  image_fp (tile_of run_0 0 0) <> 0
  /\ sig_fd (tile_of run_0 0 0) <> -1
  /\ write_cb (tile_of run_0 0 0) false [Byte.xff; Byte.xd8]
     = (2, [Fwrite [Byte.xff; Byte.xd8]]).
Proof.
  destruct (live_fetch_has_its_stream_and_eventfd run_0 0 0 (tile_of run_0 0 0))
    as (Hfp & Hfd & Hcb & _).
  - exact reachable_run_0.
  - reflexivity.
  - exists 300. reflexivity.
  - split; [exact Hfp|]. split; [exact Hfd|].
    exact (Hcb [Byte.xff; Byte.xd8]).
Defined.

Lemma cycle_timer_pending_means_wallpapers_at_rest_witness :
  timer mixed_4 = Some 60000
  /\ thread (tile_of mixed_4 1 0) = None
  /\ downloaded (tile_of mixed_4 1 0) = false
  /\ tex_tmp (tile_of mixed_4 1 0) = None.
Proof.
  split; [reflexivity|].
  apply (cycle_timer_pending_means_wallpapers_at_rest mixed_4 60000 1 0).
  - exact reachable_mixed_4.
  - reflexivity.
  - vm_compute. discriminate.
  - reflexivity.
Defined.
